(** * MetaMold AI: geometry statistics and mould-cost estimation

    A shallow embedding of the pricing and analysis services of the
    MetaMold AI backend:

    - [backend/services/budget_calculator.py] ([BudgetCalculator]),
    - [backend/main.py] ([calculate_budget_from_stats], the simple
      per-piece pricing path),
    - [backend/services/geometry_analyzer.py] ([GeometryAnalyzer]).

    Numbers.  The code is embedded twice.  In the first embedding
    Python floats are exact rationals [Q]: a decimal literal of the
    source denotes the decimal it spells, [round(x, n)] is rounding to
    [n] decimals, ties to even, of the exact value, and no conversion
    overflows.  It carries the properties of order, bounds and
    structure, which do not depend on the last binary digit.  In the
    second embedding, the modules of [Binary64], floats are IEEE 754
    doubles ([SpecFloat]), ints are unbounded, and an int too large for
    a double raises [OverflowError] where Python converts it.  It
    carries the properties about the exact value returned and about
    when a call fails.

    Dictionaries.  The statistics bundle and the mould-base
    configurations are Python dictionaries of arbitrary values; they are
    [gmap string pyval], and an operation applied to a value of the
    wrong dynamic type raises the exception Python raises. *)

From Stdlib Require Import QArith Qround Qabs Lqa Lia ZArith SpecFloat.
From stdpp Require Import gmap strings list pretty.

Set Warnings "-register-all".

(** ** Python values and exceptions *)

Module Py.

Inductive pyval :=
| PyNone
| PyBool (b : bool)
| PyNum (q : Q)
| PyStr (s : string)
| PyList (l : list pyval)
| PyDict (d : gmap string pyval).

Inductive pyexn :=
| TypeError
| AttributeError
| KeyError
| IndexError
| ValueError
| OverflowError
| ZeroDivisionError.

(** A computation either returns or raises. *)
Inductive exn (A : Type) :=
| Ok (a : A)
| Raise (e : pyexn).
Arguments Ok {A} a.
Arguments Raise {A} e.

#[export] Instance exn_ret : MRet exn := fun A a => Ok a.
#[export] Instance exn_bind : MBind exn := fun A B f m =>
  match m with
  | Ok a => f a
  | Raise e => Raise e
  end.

Definition succeeds {A} (m : exn A) : bool :=
  match m with Ok _ => true | Raise _ => false end.

(** [try: m except Exception: h] *)
Definition try_except {A} (m : exn A) (h : pyexn -> A) : A :=
  match m with Ok a => a | Raise e => h e end.

Local Open Scope Q_scope.

Definition Qltb (x y : Q) : bool := negb (Qle_bool y x).
Definition Qgtb (x y : Q) : bool := Qltb y x.
Definition Qgeb (x y : Q) : bool := Qle_bool y x.

(** [round(x)] to the nearest integer, ties to even. *)
Definition round_half_even (x : Q) : Z :=
  let f := Qfloor x in
  match Qcompare (x - inject_Z f) (1 # 2) with
  | Lt => f
  | Gt => (f + 1)%Z
  | Eq => if Z.even f then f else (f + 1)%Z
  end.

Definition pow10 (ndigits : nat) : Q := inject_Z (10 ^ Z.of_nat ndigits).

(** [round(x, ndigits)] of the exact value; Python rounds the double
    it holds, which [Binary64.Float.round] does. *)
Definition round (x : Q) (ndigits : nat) : Q :=
  inject_Z (round_half_even (x * pow10 ndigits)) / pow10 ndigits.

(** [int(x)]: truncation toward zero. *)
Definition int (x : Q) : Z := Z.quot (Qnum x) (Z.pos (Qden x)).

(** Arithmetic accepts [int], [float] and [bool] operands. *)
Definition as_num (v : pyval) : exn Q :=
  match v with
  | PyNum q => Ok q
  | PyBool b => Ok (if b then 1 else 0)
  | _ => Raise TypeError
  end.

(** [bool(v)] *)
Definition truthy (v : pyval) : bool :=
  match v with
  | PyNone => false
  | PyBool b => b
  | PyNum q => negb (Qeq_bool q 0)
  | PyStr s => negb (String.eqb s "")
  | PyList l => match l with [] => false | _ => true end
  | PyDict d => match map_to_list d with [] => false | _ => true end
  end.

(** [v.get(key, dflt)]: only dictionaries have [get]. *)
Definition get (v : pyval) (key : string) (dflt : pyval) : exn pyval :=
  match v with
  | PyDict d => Ok (default dflt (d !! key))
  | _ => Raise AttributeError
  end.

(** [d.get(key, dflt)] and [d.get(key)] on a value known to be a dict. *)
Definition dict_get (d : gmap string pyval) (key : string) (dflt : pyval) : pyval :=
  default dflt (d !! key).

(** [table[key]] on a catalog. *)
Definition getitem {A} (table : gmap string A) (key : string) : exn A :=
  match table !! key with
  | Some a => Ok a
  | None => Raise KeyError
  end.

(** [table.get(v, dflt)] on a catalog keyed by strings, with an arbitrary
    value as key: lists and dictionaries are unhashable, any other
    non-string is simply not a key of the table. *)
Definition table_get {A} (table : gmap string A) (v : pyval) (dflt : A) : exn A :=
  match v with
  | PyStr s => Ok (default dflt (table !! s))
  | PyList _ | PyDict _ => Raise TypeError
  | _ => Ok dflt
  end.

(** [if cfg:] for an [Optional[Dict]]. *)
Definition config_truthy (cfg : option (gmap string pyval)) : bool :=
  match cfg with
  | Some d => truthy (PyDict d)
  | None => false
  end.

End Py.

Import Py.

(** ** [backend/services/budget_calculator.py] *)

(** The calculator in exact arithmetic: no operation rounds, and none
    overflows. *)
Module BudgetCalculator.

Local Open Scope Q_scope.

Record material_info := {
  price : Q;
  name : string;
  hardness : string;
  density : Q
}.

Record finish_info := {
  multiplier : Q;
  finish_name : string;
  ra : Q
}.

Record cad_base_info := {
  base : Q;
  series : string
}.

Definition MATERIAL_PRICES : gmap string material_info :=
  list_to_map [
    ("H13", {| price := 0.85; name := "Aço H13"; hardness := "48-52 HRC"; density := 7.8 |});
    ("P20", {| price := 0.65; name := "Aço P20"; hardness := "28-32 HRC"; density := 7.85 |});
    ("718", {| price := 0.75; name := "Aço 718"; hardness := "32-38 HRC"; density := 7.9 |});
    ("ALUMINUM", {| price := 0.45; name := "Alumínio 7075"; hardness := "60-65 HB"; density := 2.81 |});
    ("S7", {| price := 0.70; name := "Aço S7"; hardness := "54-58 HRC"; density := 7.7 |})
  ].

Definition FINISH_MULTIPLIERS : gmap string finish_info :=
  list_to_map [
    ("machined", {| multiplier := 1.0; finish_name := "Maquinado"; ra := 1.6 |});
    ("ground", {| multiplier := 1.3; finish_name := "Retificado"; ra := 0.8 |});
    ("polished", {| multiplier := 1.5; finish_name := "Polido"; ra := 0.2 |});
    ("textured", {| multiplier := 1.8; finish_name := "Texturizado"; ra := 3.2 |});
    ("edm", {| multiplier := 2.2; finish_name := "Eletroerosão (EDM)"; ra := 0.4 |})
  ].

Definition BASE_FIXED_FEE : Q := 2500.0.

Definition MOLD_BASE_EXTRAS : gmap string Q :=
  list_to_map [
    ("HOT_RUNNER", 3500.0);
    ("CONFORMAL_COOLING", 5000.0);
    ("DOUBLE_EXTRACTION", 1500.0);
    ("LIFTING_HOLES", 300.0);
    ("INSULATION", 800.0)
  ].

Definition CAD_MOLD_BASE_PRICES : gmap string cad_base_info :=
  list_to_map [
    ("HASCO Standard", {| base := 3500; series := "Z40/41" |});
    ("HASCO Premium", {| base := 4500; series := "Z40/41 Premium" |});
    ("DME Standard", {| base := 3200; series := "Mega" |});
    ("DME Premium", {| base := 4200; series := "Mega Premium" |});
    ("FUTABA Standard", {| base := 3000; series := "NB/NP" |});
    ("FUTABA Premium", {| base := 4000; series := "NB/NP Premium" |})
  ].

Definition PLATE_MATERIAL_ADDONS : gmap string Q :=
  list_to_map [
    ("Aço 1.1730 (C45W)", 0);
    ("Aço 1.2311 (P20)", 200);
    ("Aço 1.2312 (P20+S)", 350);
    ("Aço 1.2344 (H13)", 800);
    ("Alumínio 7075", -500);
    ("Aço 1.2767 (H13 Mod)", 1200)
  ].

Definition HOURLY_RATES : gmap string Q :=
  list_to_map [
    ("cnc3Axis", 55.0);
    ("cnc5Axis", 85.0);
    ("edm", 75.0);
    ("finishing", 45.0);
    ("assembly", 50.0);
    ("quality", 60.0)
  ].

(** [_calculate_material_cost(volume, material)] *)
Definition _calculate_material_cost (volume : pyval) (material : string) : exn Q :=
  p20 ← getitem MATERIAL_PRICES "P20";
  let material_info := default p20 (MATERIAL_PRICES !! material) in
  let price_per_cm3 := price material_info in
  v ← as_num volume;
  let gross_volume := v * 1.15 in
  mret (gross_volume * price_per_cm3).

(** [_calculate_processing_cost(volume, material, finish, complexity, manufacturing)] *)
Definition _calculate_processing_cost (volume : pyval) (material finish : string)
    (complexity manufacturing : pyval) : exn Q :=
  let base_rate := 0.5 in
  score ← get complexity "complexity_score" (PyNum 50);
  s ← as_num score;
  let complexity_factor := s / 50 in
  v ← as_num volume;
  let machining_minutes := v * base_rate * (1 + complexity_factor * 0.5) in
  hourly_rate ←
    (if Qgtb complexity_factor 0.7 then getitem HOURLY_RATES "cnc5Axis"
     else if Qgtb complexity_factor 0.4 then getitem HOURLY_RATES "cnc3Axis"
     else r ← getitem HOURLY_RATES "cnc3Axis"; mret (r * 0.9));
  let machining_cost := (machining_minutes / 60) * hourly_rate in
  machined ← getitem FINISH_MULTIPLIERS "machined";
  let finish_info := default machined (FINISH_MULTIPLIERS !! finish) in
  let finish_multiplier := multiplier finish_info in
  let finish_cost := machining_cost * (finish_multiplier - 1) * 0.3 in
  edm_cost ←
    (if String.eqb finish "edm" || Qgtb complexity_factor 0.8 then
       let edm_minutes := v * 0.2 in
       r ← getitem HOURLY_RATES "edm"; mret ((edm_minutes / 60) * r)
     else mret 0);
  let finishing_minutes := v * 0.1 * finish_multiplier in
  finishing_rate ← getitem HOURLY_RATES "finishing";
  let finishing_cost := (finishing_minutes / 60) * finishing_rate in
  let assembly_hours := 8 + complexity_factor * 4 in
  assembly_rate ← getitem HOURLY_RATES "assembly";
  let assembly_cost := assembly_hours * assembly_rate in
  let qa_hours := 4 + complexity_factor * 2 in
  quality_rate ← getitem HOURLY_RATES "quality";
  let qa_cost := qa_hours * quality_rate in
  mret (machining_cost + finish_cost + edm_cost + finishing_cost + assembly_cost + qa_cost).

(** [_calculate_mold_base_cost(mold_base_config, cad_base_config)] *)
Definition _calculate_mold_base_cost
    (mold_base_config cad_base_config : option (gmap string pyval)) : exn Q :=
  let cost := 0 in
  if config_truthy cad_base_config then
    let cfg := default ∅ cad_base_config in
    let supplier := dict_get cfg "supplier" (PyStr "HASCO Standard") in
    hasco ← getitem CAD_MOLD_BASE_PRICES "HASCO Standard";
    base_info ← table_get CAD_MOLD_BASE_PRICES supplier hasco;
    let cost := cost + base base_info in
    let plate_material := dict_get cfg "plateMaterial" (PyStr "Aço 1.1730 (C45W)") in
    addon ← table_get PLATE_MATERIAL_ADDONS plate_material 0;
    let cost := cost + addon in
    cost ←
      (if truthy (dict_get cfg "insulationPlates" PyNone)
       then x ← getitem MOLD_BASE_EXTRAS "INSULATION"; mret (cost + x)
       else mret cost);
    cost ←
      (if truthy (dict_get cfg "liftingHoles" PyNone)
       then x ← getitem MOLD_BASE_EXTRAS "LIFTING_HOLES"; mret (cost + x)
       else mret cost);
    mret cost
  else if config_truthy mold_base_config then
    let cfg := default ∅ mold_base_config in
    let width := dict_get cfg "plateWidth" (PyNum 296) in
    let length := dict_get cfg "plateLength" (PyNum 296) in
    w ← as_num width;
    l ← as_num length;
    let base_cost := (w * l) / 10000 * 400 in
    let cost := cost + base_cost in
    cost ←
      (if truthy (dict_get cfg "hotRunner" PyNone)
       then x ← getitem MOLD_BASE_EXTRAS "HOT_RUNNER"; mret (cost + x)
       else mret cost);
    cost ←
      (if truthy (dict_get cfg "conformalCooling" PyNone)
       then x ← getitem MOLD_BASE_EXTRAS "CONFORMAL_COOLING"; mret (cost + x)
       else mret cost);
    cost ←
      (if truthy (dict_get cfg "doubleExtraction" PyNone)
       then x ← getitem MOLD_BASE_EXTRAS "DOUBLE_EXTRACTION"; mret (cost + x)
       else mret cost);
    mret cost
  else
    mret 3000.

(** [_calculate_setup_fee(mold_base_config)] *)
Definition _calculate_setup_fee (mold_base_config : option (gmap string pyval)) : Q :=
  let fee := BASE_FIXED_FEE in
  if config_truthy mold_base_config then
    if truthy (dict_get (default ∅ mold_base_config) "conformalCooling" PyNone)
    then fee + 1500
    else fee
  else fee.

(** [_calculate_discount(quantity)] *)
Definition _calculate_discount (quantity : Z) : Q :=
  if (quantity >=? 100)%Z then 0.15
  else if (quantity >=? 50)%Z then 0.10
  else if (quantity >=? 10)%Z then 0.05
  else 0.0.

(** The ["breakdown"] entry of the result. *)
Record Breakdown := {
  bd_material_cost : Q;
  bd_processing_cost : Q;
  bd_mold_base_cost : Q;
  bd_setup_fee : Q;
  bd_subtotal : Q;
  bd_discount_percent : string;
  bd_discount_amount : Q;
  bd_quantity : Z;
  bd_price_per_piece : Q
}.

(** The dictionary returned by [calculate]. *)
Record Budget := {
  total_price : Q;
  breakdown : Breakdown;
  material_cost : Q;
  processing_cost : Q;
  mold_base_cost : Q;
  setup_fee : Q;
  discount : Q;
  final_price : Q;
  material_info_of : option material_info;
  finish_info_of : option finish_info;
  manufacturing_recommendations : pyval
}.

(** [calculate(stats, material, finish, quantity, mold_base_config,
    cad_base_config)].  The [except Exception: ... raise] wrapper logs
    and re-raises, so the exception of the body is the exception of the
    call. *)
Definition calculate (stats : gmap string pyval) (material finish : string)
    (quantity : Z) (mold_base_config cad_base_config : option (gmap string pyval))
    : exn Budget :=
  let volume := dict_get stats "volume" (PyNum 100) in
  let complexity := dict_get stats "complexity_metrics" (PyDict ∅) in
  let manufacturing := dict_get stats "manufacturing_analysis" (PyDict ∅) in
  material_cost ← _calculate_material_cost volume material;
  processing_cost ←
    _calculate_processing_cost volume material finish complexity manufacturing;
  mold_base_cost ← _calculate_mold_base_cost mold_base_config cad_base_config;
  let setup_fee := _calculate_setup_fee mold_base_config in
  let subtotal := material_cost + processing_cost + mold_base_cost + setup_fee in
  let discount := _calculate_discount quantity in
  let discount_amount := subtotal * discount in
  let total_price := subtotal - discount_amount in
  let total_price := round total_price 2 in
  let breakdown := {|
    bd_material_cost := round material_cost 2;
    bd_processing_cost := round processing_cost 2;
    bd_mold_base_cost := round mold_base_cost 2;
    bd_setup_fee := round setup_fee 2;
    bd_subtotal := round subtotal 2;
    bd_discount_percent := pretty (round_half_even (discount * 100)) +:+ "%";
    bd_discount_amount := round discount_amount 2;
    bd_quantity := quantity;
    bd_price_per_piece :=
      if (quantity >? 0)%Z then round (total_price / inject_Z quantity) 2 else 0
  |} in
  recommendations ← get manufacturing "process_recommendations" (PyList []);
  mret {|
    total_price := total_price;
    breakdown := breakdown;
    material_cost := material_cost;
    processing_cost := processing_cost;
    mold_base_cost := mold_base_cost;
    setup_fee := setup_fee;
    discount := discount;
    final_price := total_price;
    material_info_of := MATERIAL_PRICES !! material;
    finish_info_of := FINISH_MULTIPLIERS !! finish;
    manufacturing_recommendations := recommendations
  |}.

End BudgetCalculator.

(** ** [backend/main.py]: the simple per-piece pricing path *)

(** The simple path in exact arithmetic: no operation rounds, and none
    overflows. *)
Module Main.

Local Open Scope Q_scope.

(** The pydantic model [GeometryStats]: every field is typed, so the
    simple path never meets a value of the wrong dynamic type. *)
Record GeometryStats := {
  volume_cm3 : Q;
  area_cm2 : Q;
  dimensions : gmap string Q;
  center_of_mass : list Q;
  bounding_box : gmap string (list Q);
  vertices_count : Z;
  faces_count : Z;
  is_watertight : bool;
  is_manifold : bool
}.

Record material_config := {
  price : Q;
  name : string;
  hardness : string
}.

Record finish_config := {
  multiplier : Q;
  finish_name : string
}.

Definition materials : gmap string material_config :=
  list_to_map [
    ("H13", {| price := 0.85; name := "Aço H13"; hardness := "48-52 HRC" |});
    ("P20", {| price := 0.65; name := "Aço P20"; hardness := "28-32 HRC" |});
    ("718", {| price := 0.75; name := "Aço 718"; hardness := "32-38 HRC" |});
    ("ALUMINUM", {| price := 0.45; name := "Alumínio 7075"; hardness := "60-65 HB" |});
    ("S7", {| price := 0.70; name := "Aço S7"; hardness := "54-58 HRC" |})
  ].

Definition finishes : gmap string finish_config :=
  list_to_map [
    ("machined", {| multiplier := 1.0; finish_name := "Maquinado" |});
    ("ground", {| multiplier := 1.3; finish_name := "Retificado" |});
    ("polished", {| multiplier := 1.5; finish_name := "Polido" |});
    ("textured", {| multiplier := 1.8; finish_name := "Texturizado" |});
    ("edm", {| multiplier := 2.2; finish_name := "Eletroerosão (EDM)" |})
  ].

(** The value of the local variable [quantity_discount] after the
    [if]/[elif] chain: a multiplier, not a rate. *)
Definition quantity_discount (quantity : Z) : Q :=
  let quantity_discount := 1.0 in
  if (quantity >=? 100)%Z then 0.85
  else if (quantity >=? 50)%Z then 0.90
  else if (quantity >=? 10)%Z then 0.95
  else quantity_discount.

(** The dictionary returned by [calculate_budget_from_stats].  The
    entry ["quantity_discount"], a percent label obtained by truncating
    a binary floating-point product, is left out of the exact model. *)
Record SimpleBudget := {
  unit_price : Q;
  total_price : Q;
  currency : string;
  material : string;
  material_hardness : string;
  finish : string;
  setup_fee : Q;
  material_cost : Q;
  finish_cost : Q;
  production_time_days : Z;
  out_volume_cm3 : Q;
  out_area_cm2 : Q
}.

(** [calculate_budget_from_stats(stats, material, finish, quantity)] *)
Definition calculate_budget_from_stats (stats : GeometryStats)
    (material finish : string) (quantity : Z) : exn SimpleBudget :=
  p20 ← getitem materials "P20";
  let mat_config := default p20 (materials !! material) in
  machined ← getitem finishes "machined";
  let fin_config := default machined (finishes !! finish) in
  let material_cost := volume_cm3 stats * price mat_config in
  let finish_cost := material_cost * (multiplier fin_config - 1.0) in
  let setup_fee := 500.0 in
  let quantity_discount := quantity_discount quantity in
  let piece_cost := (material_cost + finish_cost + setup_fee) * quantity_discount in
  let total := piece_cost * inject_Z quantity in
  let production_time := Z.max 5 (int (inject_Z quantity / 10) + 3) in
  mret {|
    unit_price := round piece_cost 2;
    total_price := round total 2;
    currency := "EUR";
    material := name mat_config;
    material_hardness := hardness mat_config;
    finish := finish_name fin_config;
    setup_fee := round (setup_fee * quantity_discount) 2;
    material_cost := round (material_cost * quantity_discount) 2;
    finish_cost := round (finish_cost * quantity_discount) 2;
    production_time_days := production_time;
    out_volume_cm3 := round (volume_cm3 stats) 2;
    out_area_cm2 := round (area_cm2 stats) 2
  |}.

End Main.

(** ** [backend/services/geometry_analyzer.py] *)

Module GeometryAnalyzer.

Local Open Scope Q_scope.

Definition vec3 : Type := Q * Q * Q.

Definition vsub (a b : vec3) : vec3 :=
  let '(ax, ay, az) := a in
  let '(bx, by_, bz) := b in
  (ax - bx, ay - by_, az - bz).

Definition vadd (a b : vec3) : vec3 :=
  let '(ax, ay, az) := a in
  let '(bx, by_, bz) := b in
  (ax + bx, ay + by_, az + bz).

Definition vscale (k : Q) (a : vec3) : vec3 :=
  let '(ax, ay, az) := a in (k * ax, k * ay, k * az).

Definition tolist (a : vec3) : list Q :=
  let '(ax, ay, az) := a in [ax; ay; az].

(** Modelled from the spec: the triangulated mesh of the external
    mesh-processing library ([trimesh.Trimesh]), of which the repository
    holds no declaration.  The record lists the read-only properties the
    analyzer consults, with the values the library hands back; [bounds]
    is absent ([None]) when the library has no corner to report. *)
Record Trimesh := {
  vertices : list vec3;
  faces : list (nat * nat * nat);
  volume : Q;
  area : Q;
  is_watertight : bool;
  is_convex : bool;
  bounds : option (vec3 * vec3);
  centroid : vec3;
  moment_inertia : list (list Q);
  edges_unique : list (nat * nat);
  face_angles : list (Q * Q * Q);
  face_normals : list vec3;
  euler_number : Z;
  vertex_neighbors : list (list nat);
  vertex_normals : list vec3
}.

(** Modelled from the spec: the invariant of the mesh in the data model,
    every face index is in range. *)
Definition face_in_range (m : Trimesh) (f : nat * nat * nat) : Prop :=
  let '(i, j, k) := f in
  (i < length (vertices m))%nat /\ (j < length (vertices m))%nat /\
  (k < length (vertices m))%nat.

Definition faces_in_range (m : Trimesh) : Prop :=
  Forall (face_in_range m) (faces m).

(** Modelled from the spec: the per-vertex neighbour lists and normals
    of the mesh line up with its vertices. *)
Definition neighbors_in_range (m : Trimesh) : Prop :=
  (length (vertex_neighbors m) <= length (vertices m))%nat /\
  (length (vertex_neighbors m) <= length (vertex_normals m))%nat /\
  Forall (Forall (fun n => (n < length (vertices m))%nat)) (vertex_neighbors m).

(** Python's [max(a, b)] and [min(a, b)]: the first argument wins ties. *)
Definition max2 (a b : Q) : Q := if Qltb a b then b else a.
Definition min2 (a b : Q) : Q := if Qltb b a then b else a.

(** [max(l)] and [min(l)] of a list with head [x]. *)
Definition max_list (x : Q) (l : list Q) : Q := fold_left max2 l x.
Definition min_list (x : Q) (l : list Q) : Q := fold_left min2 l x.

Definition sum_list (l : list Q) : Q := fold_right Qplus 0 l.

(** [np.mean(l)] of a non-empty list. *)
Definition mean (l : list Q) : Q := sum_list l / inject_Z (Z.of_nat (length l)).

(** [np.var(l)] *)
Definition var (l : list Q) : Q :=
  let mu := mean l in mean (map (fun x => (x - mu) * (x - mu)) l).

(** [l[i]] on a list *)
Definition index {A} (l : list A) (i : nat) : exn A :=
  match l !! i with
  | Some a => Ok a
  | None => Raise IndexError
  end.

(** [mesh.vertices[face]] *)
Definition vertices_of (m : Trimesh) (face : nat * nat * nat) : exn (vec3 * vec3 * vec3) :=
  let '(i, j, k) := face in
  v0 ← index (vertices m) i;
  v1 ← index (vertices m) j;
  v2 ← index (vertices m) k;
  mret (v0, v1, v2).

Record Dimensions := {
  width : Q;
  height : Q;
  depth : Q;
  dim_max : Q;
  dim_min : Q
}.

(** [dimensions.values()] *)
Definition values (d : Dimensions) : list Q :=
  [width d; height d; depth d; dim_max d; dim_min d].

Record FaceTypes := {
  acute : Z;
  right : Z;
  obtuse : Z
}.

Record BoundingBox := {
  bb_min : list Q;
  bb_max : list Q;
  bb_center : list Q;
  bb_size : list Q
}.

Record MeshInfo := {
  vertex_count : nat;
  face_count : nat;
  edge_count : nat;
  face_types : FaceTypes;
  info_is_watertight : bool;
  info_is_convex : bool;
  info_euler_number : Z;
  genus : option Z;
  orientation : string
}.

Record ComplexityMetrics := {
  surface_volume_ratio : Q;
  compactness : Q;
  triangle_density : Q;
  average_aspect_ratio : Q;
  complexity_score : Q;
  difficulty_rating : string
}.

Record ThicknessAnalysis := {
  estimated_min_thickness : Q;
  estimated_max_thickness : Q;
  note : string;
  recommendation : string
}.

Record Curvature := {
  mean_curvature : Q;
  max_curvature : Q;
  curvature_variance : Q;
  complex_curvature_regions : Z
}.

Record ManufacturingAnalysis := {
  machining_difficulty : string;
  estimated_machining_hours : Q;
  material_recommendation : string;
  finish_recommendation : string;
  critical_features : list string;
  process_recommendations : list string
}.

(** A sub-analysis hands back its dictionary, or [{"error": str(e)}]. *)
Inductive or_error (A : Type) :=
| Computed (a : A)
| ErrorDict (e : pyexn).
Arguments Computed {A} a.
Arguments ErrorDict {A} e.

(** The dictionary returned by [analyze]. *)
Record GeometryStatistics := {
  stat_volume : Q;
  stat_area : Q;
  dimensions : Dimensions;
  center_of_mass : list Q;
  inertia_tensor : list (list Q);
  bounding_box : BoundingBox;
  mesh_info : MeshInfo;
  complexity_metrics : ComplexityMetrics;
  thickness_analysis : or_error ThicknessAnalysis;
  curvature : or_error Curvature;
  manufacturing_analysis : or_error ManufacturingAnalysis
}.

(** A quotient of numpy scalars: division by zero yields an infinity or
    a NaN instead of raising. *)
Inductive npfloat :=
| Finite (q : Q)
| PosInf
| NegInf
| NaN.

Definition np_div (a b : Q) : npfloat :=
  if Qeq_bool b 0 then
    if Qeq_bool a 0 then NaN
    else if Qltb 0 a then PosInf else NegInf
  else Finite (a / b).

(** [np.maximum] on two scalars: NaN propagates. *)
Definition np_max2 (a b : npfloat) : npfloat :=
  match a, b with
  | NaN, _ | _, NaN => NaN
  | PosInf, _ | _, PosInf => PosInf
  | NegInf, y => y
  | x, NegInf => x
  | Finite x, Finite y => Finite (max2 x y)
  end.

(** [np.max(l)]: raises on an empty sequence. *)
Definition np_max (l : list npfloat) : exn npfloat :=
  match l with
  | [] => Raise ValueError
  | x :: l' => Ok (fold_left np_max2 l' x)
  end.

(** [x > bound] for a numpy scalar. *)
Definition np_gtb (x : npfloat) (bound : Q) : bool :=
  match x with
  | Finite q => Qgtb q bound
  | PosInf => true
  | NegInf | NaN => false
  end.

(** [np.isclose(a, b, atol=atol)], with numpy's default [rtol] of 1e-05. *)
Definition isclose (a b atol : Q) : bool :=
  Qle_bool (Qabs (a - b)) (atol + (1 # 100000) * Qabs b).

Definition identity_tensor : list (list Q) :=
  [[1.0; 0.0; 0.0];
   [0.0; 1.0; 0.0];
   [0.0; 0.0; 1.0]].

(** [_get_difficulty_rating(score)] *)
Definition _get_difficulty_rating (score : Q) : string :=
  if Qltb score 25 then "Baixa"
  else if Qltb score 50 then "Média"
  else if Qltb score 75 then "Alta"
  else "Muito Alta".

(** [_calculate_inertia(mesh, volume)].  Nothing in the body raises once
    the mesh property is at hand, so the [except] branch is not taken. *)
Definition _calculate_inertia (mesh : Trimesh) (volume : Q) : list (list Q) :=
  if Qgtb volume 0 then moment_inertia mesh
  else identity_tensor.

(** [_analyze_face_types(mesh)] *)
Definition _analyze_face_types (mesh : Trimesh) : FaceTypes :=
  fold_left
    (fun triangles angles =>
       let '(a, b, c) := angles in
       if isclose a 90 1 || isclose b 90 1 || isclose c 90 1 then
         {| acute := acute triangles; right := (right triangles + 1)%Z;
            obtuse := obtuse triangles |}
       else if Qltb a 90 && Qltb b 90 && Qltb c 90 then
         {| acute := (acute triangles + 1)%Z; right := right triangles;
            obtuse := obtuse triangles |}
       else
         {| acute := acute triangles; right := right triangles;
            obtuse := (obtuse triangles + 1)%Z |})
    (face_angles mesh)
    {| acute := 0; right := 0; obtuse := 0 |}.

(** [_analyze_thickness(mesh, bounds)] *)
Definition _analyze_thickness (mesh : Trimesh) (bounds : vec3 * vec3)
    : or_error ThicknessAnalysis :=
  let '(sx, sy, sz) := vsub (snd bounds) (fst bounds) in
  let min_thickness := min_list sx [sy; sz] / 10 in
  Computed {|
    estimated_min_thickness := round min_thickness 2;
    estimated_max_thickness := round (max_list sx [sy; sz] / 2) 2;
    note := "Análise detalhada requer algoritmo de ray casting";
    recommendation := "Considere usar análise CAE para otimização"
  |}.

(** [_recommend_material(complexity)] *)
Definition _recommend_material (complexity : ComplexityMetrics) : string :=
  let score := complexity_score complexity in
  if Qgtb score 75 then "H13 (Aço para trabalho a quente - alta resistência)"
  else if Qgtb score 50 then "P20 (Aço para moldes - bom equilíbrio)"
  else "718 (Aço pré-endurecido - económico)".

(** [_recommend_finish(mesh, complexity)] *)
Definition _recommend_finish (mesh : Trimesh) (complexity : ComplexityMetrics) : string :=
  if Qgtb (complexity_score complexity) 70 then
    "EDM (Eletroerosão para geometrias complexas)"
  else if is_convex mesh then "Polido (Superfície acessível para polimento)"
  else "Texturizado (Para superfícies com detalhes)".

(** [_get_process_recommendations(mesh, complexity)] *)
Definition _get_process_recommendations (mesh : Trimesh)
    (complexity : ComplexityMetrics) : list string :=
  let score := complexity_score complexity in
  let recommendations := [] in
  let recommendations :=
    if Qltb score 40
    then recommendations ++ ["CNC 3-eixos para cavidades principais"]
    else recommendations in
  let recommendations :=
    if Qgeb score 40
    then recommendations ++ ["CNC 5-eixos para acesso completo"]
    else recommendations in
  let recommendations :=
    if Qgtb (average_aspect_ratio complexity) 3
    then recommendations ++ ["EDM para detalhes e arestas vivas"]
    else recommendations in
  let recommendations :=
    if Qgtb score 60
    then recommendations ++ ["DMLS para canais de refrigeração conformal"]
    else recommendations in
  recommendations.

Section Analyzer.

(** The square root of numpy ([np.linalg.norm], [np.std]), whatever its
    rounding. *)
Variable sqrtQ : Q -> Q.

(** [np.linalg.norm(v)] *)
Definition norm (v : vec3) : Q :=
  let '(x, y, z) := v in sqrtQ (x * x + y * y + z * z).

(** The three edge lengths of a face, in the order of the source. *)
Definition edges_of (v : vec3 * vec3 * vec3) : Q * Q * Q :=
  let '(v0, v1, v2) := v in
  (norm (vsub v1 v0), norm (vsub v2 v1), norm (vsub v0 v2)).

(** The guarded terms of [_calculate_complexity]. *)
Definition surface_volume_ratio_of (volume area : Q) : Q :=
  if Qgtb volume 0 then area / volume else 0.

Definition compactness_of (dimensions : Dimensions) : Q :=
  let max_dim := max_list (hd 0 (values dimensions)) (tail (values dimensions)) in
  let min_dim := min_list (hd 0 (values dimensions)) (tail (values dimensions)) in
  if Qgtb max_dim 0 then min_dim / max_dim else 0.

Definition triangle_density_of (mesh : Trimesh) (area : Q) : Q :=
  if Qgtb area 0 then inject_Z (Z.of_nat (length (faces mesh))) / area else 0.

Definition aspect_ratio_of (mesh : Trimesh) (face : nat * nat * nat) : exn Q :=
  v ← vertices_of mesh face;
  let '(e0, e1, e2) := edges_of v in
  mret (if Qgtb (min_list e0 [e1; e2]) 0
        then max_list e0 [e1; e2] / min_list e0 [e1; e2]
        else 1).

Definition avg_aspect_ratio_of (mesh : Trimesh) : exn Q :=
  aspect_ratios ← mapM (aspect_ratio_of mesh) (faces mesh);
  mret (match aspect_ratios with
        | [] => 1
        | _ => mean aspect_ratios
        end).

(** The value of the local variable [complexity_score], before the
    dictionary is built. *)
Definition complexity_score_of
    (surface_volume_ratio compactness triangle_density avg_aspect_ratio : Q) : Q :=
  min2 100
    (surface_volume_ratio * 10 +
     (1 - compactness) * 50 +
     triangle_density * 0.001 +
     (avg_aspect_ratio - 1) * 10).

(** [_calculate_complexity(mesh, volume, area, dimensions)] *)
Definition _calculate_complexity (mesh : Trimesh) (volume area : Q)
    (dimensions : Dimensions) : ComplexityMetrics :=
  try_except
    (let surface_volume_ratio := surface_volume_ratio_of volume area in
     let compactness := compactness_of dimensions in
     let triangle_density := triangle_density_of mesh area in
     avg_aspect_ratio ← avg_aspect_ratio_of mesh;
     let complexity_score :=
       complexity_score_of surface_volume_ratio compactness triangle_density
         avg_aspect_ratio in
     mret {|
       surface_volume_ratio := round surface_volume_ratio 4;
       compactness := round compactness 4;
       triangle_density := round triangle_density 4;
       average_aspect_ratio := round avg_aspect_ratio 4;
       complexity_score := round complexity_score 2;
       difficulty_rating := _get_difficulty_rating complexity_score
     |})
    (fun _ => {|
       surface_volume_ratio := 0;
       compactness := 1;
       triangle_density := 0;
       average_aspect_ratio := 1;
       complexity_score := 50;
       difficulty_rating := "Média"
     |}).

(** [np.std(l)] *)
Definition std (l : list Q) : Q := sqrtQ (var l).

(** The curvature proxy of vertex [i] in [_analyze_curvature]. *)
Definition vertex_curvature (mesh : Trimesh) (i : nat) (neighbors : list nat) : exn Q :=
  v ← index (vertices mesh) i;
  normal ← index (vertex_normals mesh) i;
  variations ← mapM (fun n => vn ← index (vertices mesh) n; mret (norm (vsub vn v)))
                    (take 5 neighbors);
  mret (match variations with [] => 0 | _ => std variations end).

(** [_analyze_curvature(mesh)] *)
Definition _analyze_curvature (mesh : Trimesh) : or_error Curvature :=
  try_except
    (curvatures ←
       mapM (fun '(i, neighbors) => vertex_curvature mesh i neighbors)
            (filter (fun p => (3 <= length (snd p))%nat)
                    (imap (fun i neighbors => (i, neighbors)) (vertex_neighbors mesh)));
     mret (Computed
       match curvatures with
       | [] =>
           {| mean_curvature := 0; max_curvature := 0;
              curvature_variance := 0; complex_curvature_regions := 0 |}
       | c :: cs =>
           {| mean_curvature := round (mean curvatures) 4;
              max_curvature := round (max_list c cs) 4;
              curvature_variance := round (var curvatures) 6;
              complex_curvature_regions :=
                Z.of_nat (length (filter (fun x => Qgtb x (mean curvatures * 2) = true)
                                         curvatures)) |}
       end))
    (fun e => ErrorDict e).

(** [_identify_critical_features(mesh)] *)
Definition _identify_critical_features (mesh : Trimesh) : list string :=
  let features := [] in
  try_except
    (let edges := edges_unique mesh in
     let features :=
       if Qgtb (inject_Z (Z.of_nat (length edges)))
               (inject_Z (Z.of_nat (length (faces mesh))) * 1.5)
       then features ++ ["Furos/Multicavidades"] else features in
     let features :=
       if negb (is_convex mesh)
       then features ++ ["Geometria não-convexa"] else features in
     aspect_ratios ←
       mapM (fun face =>
               v ← vertices_of mesh face;
               let '(e0, e1, e2) := edges_of v in
               mret (np_div (max_list e0 [e1; e2]) (min_list e0 [e1; e2])))
            (take (Nat.min 100 (length (faces mesh))) (faces mesh));
     worst ← np_max aspect_ratios;
     let features :=
       if np_gtb worst 5
       then features ++ ["Paredes finas detetadas"] else features in
     let features :=
       match features with
       | [] => features ++ ["Geometria padrão"]
       | _ => features
       end in
     mret features)
    (fun _ => ["Análise não disponível"]).

(** [_analyze_manufacturing(mesh, complexity)].  Every key the body asks
    of [complexity] is present in the dictionary [_calculate_complexity]
    builds, so no default of a [get] is taken. *)
Definition _analyze_manufacturing (mesh : Trimesh) (complexity : ComplexityMetrics)
    : or_error ManufacturingAnalysis :=
  let machining_difficulty := difficulty_rating complexity in
  let volume := volume mesh in
  let base_time := volume * 0.01 in
  let complexity_factor := complexity_score complexity / 50 in
  let estimated_machining_hours := round (base_time * complexity_factor) 1 in
  let material_recommendation := _recommend_material complexity in
  let finish_recommendation := _recommend_finish mesh complexity in
  Computed {|
    machining_difficulty := machining_difficulty;
    estimated_machining_hours := estimated_machining_hours;
    material_recommendation := material_recommendation;
    finish_recommendation := finish_recommendation;
    critical_features := _identify_critical_features mesh;
    process_recommendations := _get_process_recommendations mesh complexity
  |}.

(** [analyze(mesh)].  Subscripting absent bounds is Python's
    [TypeError]; the [except Exception: ... raise] wrapper logs and
    re-raises it. *)
Definition analyze (mesh : Trimesh) : exn GeometryStatistics :=
  let volume := if is_watertight mesh then volume mesh else 0.0 in
  let area := area mesh in
  match bounds mesh with
  | None => Raise TypeError
  | Some bounds =>
      let '(lo, hi) := bounds in
      let '(sx, sy, sz) := vsub hi lo in
      let dimensions := {|
        width := sx;
        height := sy;
        depth := sz;
        dim_max := max_list sx [sy; sz];
        dim_min := min_list sx [sy; sz]
      |} in
      let center_of_mass := tolist (centroid mesh) in
      let inertia_tensor := _calculate_inertia mesh volume in
      let bounding_box := {|
        bb_min := tolist lo;
        bb_max := tolist hi;
        bb_center := tolist (vscale (1 / 2) (vadd lo hi));
        bb_size := tolist (vsub hi lo)
      |} in
      let mesh_info := {|
        vertex_count := length (vertices mesh);
        face_count := length (faces mesh);
        edge_count := length (edges_unique mesh);
        face_types := _analyze_face_types mesh;
        info_is_watertight := is_watertight mesh;
        info_is_convex := is_convex mesh;
        info_euler_number := euler_number mesh;
        genus := if is_watertight mesh
                 then Some (int ((2 - inject_Z (euler_number mesh)) / 2))
                 else None;
        orientation := match face_normals mesh with
                       | [] => "unknown"
                       | _ => "consistent"
                       end
      |} in
      let complexity_metrics := _calculate_complexity mesh volume area dimensions in
      let thickness_analysis := _analyze_thickness mesh bounds in
      let curvature := _analyze_curvature mesh in
      mret {|
        stat_volume := volume;
        stat_area := area;
        dimensions := dimensions;
        center_of_mass := center_of_mass;
        inertia_tensor := inertia_tensor;
        bounding_box := bounding_box;
        mesh_info := mesh_info;
        complexity_metrics := complexity_metrics;
        thickness_analysis := thickness_analysis;
        curvature := curvature;
        manufacturing_analysis := _analyze_manufacturing mesh complexity_metrics
      |}
  end.

End Analyzer.

End GeometryAnalyzer.

(** ** Concrete inputs *)

Module Examples.

Import GeometryAnalyzer.
Local Open Scope Q_scope.

(** A square root rounded down to twelve decimals. *)
Definition sqrt12 (x : Q) : Q :=
  inject_Z (Z.sqrt (Qfloor (x * inject_Z (10 ^ 24)))) / inject_Z (10 ^ 12).

(** The axis-aligned cube of side [s] with a corner at the origin, as
    twelve outward-facing triangles. *)
Definition cube (s : Q) : Trimesh := {|
  vertices := [(0, 0, 0); (s, 0, 0); (s, s, 0); (0, s, 0);
               (0, 0, s); (s, 0, s); (s, s, s); (0, s, s)];
  faces := [(0, 2, 1); (0, 3, 2); (4, 5, 6); (4, 6, 7);
            (0, 1, 5); (0, 5, 4); (2, 3, 7); (2, 7, 6);
            (0, 4, 7); (0, 7, 3); (1, 2, 6); (1, 6, 5)]%nat;
  volume := s * s * s;
  area := 6 * s * s;
  is_watertight := true;
  is_convex := true;
  bounds := Some ((0, 0, 0), (s, s, s));
  centroid := (s / 2, s / 2, s / 2);
  moment_inertia :=
    let i := s * s * s * s * s / 6 in [[i; 0; 0]; [0; i; 0]; [0; 0; i]];
  edges_unique := [(0, 1); (1, 2); (2, 3); (0, 3); (4, 5); (5, 6); (6, 7); (4, 7);
                   (0, 4); (1, 5); (2, 6); (3, 7);
                   (0, 2); (4, 6); (0, 5); (2, 7); (0, 7); (1, 6)]%nat;
  face_angles := repeat (0.7853981634, 1.5707963268, 0.7853981634) 12;
  face_normals := [(0, 0, -1); (0, 0, -1); (0, 0, 1); (0, 0, 1);
                   (0, -1, 0); (0, -1, 0); (0, 1, 0); (0, 1, 0);
                   (-1, 0, 0); (-1, 0, 0); (1, 0, 0); (1, 0, 0)];
  euler_number := 2;
  vertex_neighbors := [[1; 2; 3; 4; 5; 7]; [0; 2; 5; 6]; [0; 1; 3; 6; 7]; [0; 2; 7];
                       [0; 5; 6; 7]; [0; 1; 4; 6]; [1; 2; 4; 5; 7]; [0; 2; 3; 4; 6]]%nat;
  vertex_normals :=
    let c := 0.577350269 in
    [(-c, -c, -c); (c, -c, -c); (c, c, -c); (-c, c, -c);
     (-c, -c, c); (c, -c, c); (c, c, c); (-c, c, c)]
|}.

(** The empty mesh: no vertex, no face, and no bounds reported. *)
Definition empty_mesh : Trimesh := {|
  vertices := [];
  faces := [];
  volume := 0;
  area := 0;
  is_watertight := false;
  is_convex := false;
  bounds := None;
  centroid := (0, 0, 0);
  moment_inertia := [[0; 0; 0]; [0; 0; 0]; [0; 0; 0]];
  edges_unique := [];
  face_angles := [];
  face_normals := [];
  euler_number := 0;
  vertex_neighbors := [];
  vertex_normals := []
|}.

(** An open sheet: two triangles spanning the unit square. *)
Definition open_square : Trimesh := {|
  vertices := [(0, 0, 0); (1, 0, 0); (1, 1, 0); (0, 1, 0)];
  faces := [(0, 1, 2); (0, 2, 3)]%nat;
  volume := 0;
  area := 1;
  is_watertight := false;
  is_convex := false;
  bounds := Some ((0, 0, 0), (1, 1, 0));
  centroid := (1 / 2, 1 / 2, 0);
  moment_inertia := [[0; 0; 0]; [0; 0; 0]; [0; 0; 0]];
  edges_unique := [(0, 1); (1, 2); (0, 2); (2, 3); (0, 3)]%nat;
  face_angles := repeat (0.7853981634, 1.5707963268, 0.7853981634) 2;
  face_normals := [(0, 0, 1); (0, 0, 1)];
  euler_number := 1;
  vertex_neighbors := [[1; 2; 3]; [0; 2]; [0; 1; 3]; [0; 2]]%nat;
  vertex_normals := [(0, 0, 1); (0, 0, 1); (0, 0, 1); (0, 0, 1)]
|}.

End Examples.

(** ** Notions used to state the properties *)

Module Notions.

Local Open Scope Q_scope.

(** The subtotal, recomputed from the unrounded components of a result
    of the detailed calculator. *)
Definition subtotal_of (b : BudgetCalculator.Budget) : Q :=
  BudgetCalculator.material_cost b + BudgetCalculator.processing_cost b +
  BudgetCalculator.mold_base_cost b + BudgetCalculator.setup_fee b.

(** The ["price_per_piece"] entry of the breakdown. *)
Definition price_per_piece (b : BudgetCalculator.Budget) : Q :=
  BudgetCalculator.bd_price_per_piece (BudgetCalculator.breakdown b).

(** Dynamic types the detailed calculator can work with. *)
Definition is_num (v : pyval) : bool :=
  match v with PyNum _ | PyBool _ => true | _ => false end.

Definition is_dict (v : pyval) : bool :=
  match v with PyDict _ => true | _ => false end.

Definition is_hashable (v : pyval) : bool :=
  match v with PyList _ | PyDict _ => false | _ => true end.

(** Every statistics field the calculator reads is absent or of the
    type it is used at. *)
Definition stats_ok (stats : gmap string pyval) : bool :=
  is_num (dict_get stats "volume" (PyNum 100)) &&
  match dict_get stats "complexity_metrics" (PyDict ∅) with
  | PyDict complexity => is_num (dict_get complexity "complexity_score" (PyNum 50))
  | _ => false
  end &&
  is_dict (dict_get stats "manufacturing_analysis" (PyDict ∅)).

(** The mould-base configuration in use has entries of the type they are
    used at. *)
Definition config_ok (mold_base_config cad_base_config : option (gmap string pyval)) : bool :=
  if config_truthy cad_base_config then
    let cfg := default ∅ cad_base_config in
    is_hashable (dict_get cfg "supplier" (PyStr "HASCO Standard")) &&
    is_hashable (dict_get cfg "plateMaterial" (PyStr "Aço 1.1730 (C45W)"))
  else if config_truthy mold_base_config then
    let cfg := default ∅ mold_base_config in
    is_num (dict_get cfg "plateWidth" (PyNum 296)) &&
    is_num (dict_get cfg "plateLength" (PyNum 296))
  else true.

(** The clamp of the specification. *)
Definition clamp (lo hi x : Q) : Q :=
  if Qltb x lo then lo else if Qltb hi x then hi else x.

End Notions.

Import Notions.

(** ** [backend/main.py]: geometry statistics of the simple path *)

Module MainStatistics.

Import GeometryAnalyzer.
Local Open Scope Q_scope.

(** [calculate_geometry_stats(mesh)].  The body has no handler of its
    own: subscripting absent bounds raises Python's [TypeError]. *)
Definition calculate_geometry_stats (mesh : Trimesh) : exn Main.GeometryStats :=
  let volume := volume mesh / 1000.0 in
  let area := area mesh / 100.0 in
  match bounds mesh with
  | None => Raise TypeError
  | Some bounds =>
      let '(lo, hi) := bounds in
      let '(lox, loy, loz) := lo in
      let '(hix, hiy, hiz) := hi in
      let dimensions : gmap string Q :=
        <["depth" := hiz - loz]> (<["height" := hiy - loy]> (<["width" := hix - lox]> ∅)) in
      let center_of_mass := tolist (centroid mesh) in
      let bounding_box : gmap string (list Q) :=
        <["max" := tolist hi]> (<["min" := tolist lo]> ∅) in
      mret {|
        Main.volume_cm3 := volume;
        Main.area_cm2 := area;
        Main.dimensions := dimensions;
        Main.center_of_mass := center_of_mass;
        Main.bounding_box := bounding_box;
        Main.vertices_count := Z.of_nat (length (vertices mesh));
        Main.faces_count := Z.of_nat (length (faces mesh));
        Main.is_watertight := is_watertight mesh;
        Main.is_manifold := is_watertight mesh
      |}
  end.

End MainStatistics.

(** ** [streamlit_app.py]: the pricing of the dashboard *)

(** The dashboard pricing in exact arithmetic: no operation rounds, and
    none overflows. *)
Module Dashboard.

Local Open Scope Q_scope.

Record MaterialInfo := {
  name : string;
  density : Q;
  cost_factor : Q;
  hardness : string
}.

Record FinishInfo := {
  factor : Q;
  ra : string;
  desc : string
}.

Definition MATERIALS : gmap string MaterialInfo :=
  list_to_map [
    ("Aço H13", {| name := "Aço H13"; density := 7.8; cost_factor := 1.0;
                   hardness := "48-52 HRC" |});
    ("Aço P20", {| name := "Aço P20"; density := 7.85; cost_factor := 0.75;
                   hardness := "28-32 HRC" |});
    ("Aço 718", {| name := "Aço 718"; density := 7.9; cost_factor := 0.85;
                   hardness := "32-38 HRC" |});
    ("Alumínio 7075", {| name := "Alumínio 7075"; density := 2.81; cost_factor := 0.55;
                         hardness := "60-65 HB" |});
    ("Aço S7", {| name := "Aço S7"; density := 7.7; cost_factor := 0.80;
                  hardness := "54-58 HRC" |})
  ].

Definition FINISHES : gmap string FinishInfo :=
  list_to_map [
    ("Maquinado (Padrão)", {| factor := 1.0; ra := "Ra 1.6 μm"; desc := "Acabamento padrão" |});
    ("Retificado", {| factor := 1.3; ra := "Ra 0.8 μm"; desc := "Superfície de precisão" |});
    ("Polido Espelhado", {| factor := 1.6; ra := "Ra 0.2 μm"; desc := "Polimento espelhado" |});
    ("Eletroerosão (EDM)", {| factor := 2.2; ra := "Ra 0.4 μm";
                              desc := "Para geometrias complexas" |})
  ].

(** The dictionary returned by [calculate_budget]. *)
Record Budget := {
  setup_fee : Q;
  material_cost : Q;
  machining_cost : Q;
  finish_cost : Q;
  qa_cost : Q;
  subtotal : Q;
  discount_percent : string;
  discount_amount : Q;
  total : Q;
  total_per_piece : Q
}.

(** [calculate_budget(volume_cm3, material_key, finish_key, quantity)] *)
Definition calculate_budget (volume_cm3 : Q) (material_key finish_key : string)
    (quantity : Z) : exn Budget :=
  material ← getitem MATERIALS material_key;
  finish ← getitem FINISHES finish_key;
  let finish_factor := factor finish in
  let setup_fee := 500.0 in
  let machining_base_rate := 0.15 in
  let material_cost := volume_cm3 * density material * 0.01 in
  let machining_cost := volume_cm3 * machining_base_rate * finish_factor * 1.2 in
  let finish_cost := volume_cm3 * 0.05 * finish_factor in
  let qa_cost := 50.0 + (volume_cm3 * 0.02) in
  let subtotal := setup_fee + material_cost + machining_cost + finish_cost + qa_cost in
  let discount :=
    if (quantity >=? 100)%Z then 0.15
    else if (quantity >=? 50)%Z then 0.10
    else if (quantity >=? 10)%Z then 0.05
    else 0.0 in
  let total := subtotal * (1 - discount) in
  let total_per_piece :=
    if (quantity >? 0)%Z then total / inject_Z quantity else total in
  mret {|
    setup_fee := setup_fee;
    material_cost := round material_cost 2;
    machining_cost := round machining_cost 2;
    finish_cost := round finish_cost 2;
    qa_cost := round qa_cost 2;
    subtotal := round subtotal 2;
    discount_percent := pretty (round_half_even (discount * 100)) +:+ "%";
    discount_amount := round (subtotal * discount) 2;
    total := round total 2;
    total_per_piece := round total_per_piece 2
  |}.

End Dashboard.

(** ** Further concrete inputs *)

Module MoreExamples.

Local Open Scope Q_scope.

(** The statistics of a small closed part, as the simple path holds them. *)
Definition small_part : Main.GeometryStats := {|
  Main.volume_cm3 := 12;
  Main.area_cm2 := 40;
  Main.dimensions := ∅;
  Main.center_of_mass := [];
  Main.bounding_box := ∅;
  Main.vertices_count := 8;
  Main.faces_count := 12;
  Main.is_watertight := true;
  Main.is_manifold := true
|}.

(** An open sheet of the area of [open_square] and another shape: two
    triangles spanning a rectangle of 2 by 1/2. *)
Definition open_strip : GeometryAnalyzer.Trimesh := {|
  GeometryAnalyzer.vertices := [(0, 0, 0); (2, 0, 0); (2, 1 / 2, 0); (0, 1 / 2, 0)];
  GeometryAnalyzer.faces := [(0, 1, 2); (0, 2, 3)]%nat;
  GeometryAnalyzer.volume := 0;
  GeometryAnalyzer.area := 1;
  GeometryAnalyzer.is_watertight := false;
  GeometryAnalyzer.is_convex := false;
  GeometryAnalyzer.bounds := Some ((0, 0, 0), (2, 1 / 2, 0));
  GeometryAnalyzer.centroid := (1, 1 / 4, 0);
  GeometryAnalyzer.moment_inertia := [[0; 0; 0]; [0; 0; 0]; [0; 0; 0]];
  GeometryAnalyzer.edges_unique := [(0, 1); (1, 2); (0, 2); (2, 3); (0, 3)]%nat;
  GeometryAnalyzer.face_angles :=
    [(0.2449786631, 1.5707963268, 1.3258176637);
     (1.3258176637, 0.2449786631, 1.5707963268)];
  GeometryAnalyzer.face_normals := [(0, 0, 1); (0, 0, 1)];
  GeometryAnalyzer.euler_number := 1;
  GeometryAnalyzer.vertex_neighbors := [[1; 2; 3]; [0; 2]; [0; 1; 3]; [0; 2]]%nat;
  GeometryAnalyzer.vertex_normals := [(0, 0, 1); (0, 0, 1); (0, 0, 1); (0, 0, 1)]
|}.

End MoreExamples.

Import MoreExamples.

(** * The pricing paths in double precision

    The model above computes prices as exact rationals, which is what
    the order and bound properties below need.  The modules that follow
    embed the same functions over IEEE 754 binary64, Python's [float],
    with Python's mixing of [int] and [float] and the exceptions the
    conversions raise; the statements about the exact values returned
    and about failure are made on them. *)

Module Binary64.

(** ** Python's [float] *)

Module Float.

Definition prec : Z := 53.
Definition emax : Z := 1024.

Definition float : Type := spec_float.

Definition add (x y : float) : float := SFadd prec emax x y.
Definition sub (x y : float) : float := SFsub prec emax x y.
Definition mul (x y : float) : float := SFmul prec emax x y.

(** [x < y] and [x > y]: false as soon as one side is a NaN. *)
Definition ltb (x y : float) : bool := SFltb x y.
Definition gtb (x y : float) : bool := SFltb y x.

Definition is_zero (x : float) : bool :=
  match x with S754_zero _ => true | _ => false end.

(** The double nearest to [n / d], ties to even, with sign [s]. *)
Definition nearest (s : bool) (n d : positive) : float :=
  let '(m, e, l) := SFdiv_core_binary prec emax (Z.pos n) 0 (Z.pos d) 0 in
  binary_round_aux prec emax s m e l.

Definition of_ratio (n : Z) (d : positive) : float :=
  match n with
  | Z0 => S754_zero false
  | Z.pos p => nearest false p d
  | Z.neg p => nearest true p d
  end.

(** A decimal literal of the source, read as the parser reads it: the
    double nearest to the decimal it spells. *)
Definition literal (q : Q) : float := of_ratio (Qnum q) (Qden q).

(** [float(z)] for an int [z], as the arithmetic operators apply it to
    an int operand. *)
Definition of_int (z : Z) : exn float :=
  match binary_normalize prec emax z 0 false with
  | S754_infinity _ => Raise OverflowError
  | f => Ok f
  end.

(** [x / y] on two floats. *)
Definition div (x y : float) : exn float :=
  if is_zero y then Raise ZeroDivisionError else Ok (SFdiv prec emax x y).

(** [x / z] for a float [x] and an int [z]: the int is converted first
    (a non-zero int never converts to zero). *)
Definition div_int (x : float) (z : Z) : exn float :=
  y ← of_int z;
  if (z =? 0)%Z then Raise ZeroDivisionError else Ok (SFdiv prec emax x y).

(** [a / b] on two ints: the correctly rounded quotient. *)
Definition int_truediv (a b : Z) : exn float :=
  match b with
  | Z0 => Raise ZeroDivisionError
  | _ =>
      let q := match a with
               | Z0 => S754_zero (b <? 0)%Z
               | _ => nearest (xorb (a <? 0)%Z (b <? 0)%Z)
                              (Z.to_pos (Z.abs a)) (Z.to_pos (Z.abs b))
               end in
      match q with
      | S754_infinity _ => Raise OverflowError
      | _ => Ok q
      end
  end.

(** The exact value of a finite float. *)
Definition to_Q (x : float) : Q :=
  match x with
  | S754_finite s m e =>
      (if s then Qopp else id) (inject_Z (Z.pos m) * Qpower 2 e)%Q
  | _ => 0%Q
  end.

(** [round(x, ndigits)] on a float: the exact value is rounded to
    [ndigits] decimals, ties to even, and the double nearest to that
    decimal is returned; infinities and NaN are returned as they are. *)
Definition round (x : float) (ndigits : nat) : float :=
  match x with
  | S754_finite s m e =>
      match round_half_even (inject_Z (Z.pos m) * Qpower 2 e * pow10 ndigits)%Q with
      | Z.pos k => nearest s k (Z.to_pos (10 ^ Z.of_nat ndigits))
      | _ => S754_zero s
      end
  | _ => x
  end.

(** [int(x)] on a float: truncation toward zero. *)
Definition to_int (x : float) : exn Z :=
  match x with
  | S754_zero _ => Ok 0%Z
  | S754_finite _ _ _ => Ok (int (to_Q x))
  | S754_infinity _ => Raise OverflowError
  | S754_nan => Raise ValueError
  end.

(** [f"{x:.0f}"] *)
Definition format_0f (x : float) : string :=
  match x with
  | S754_zero s => if s then "-0" else "0"
  | S754_finite s m e =>
      (if s then "-" else "")
      +:+ pretty (round_half_even (inject_Z (Z.pos m) * Qpower 2 e)%Q)
  | S754_infinity s => if s then "-inf" else "inf"
  | S754_nan => "nan"
  end.

End Float.

(** ** Python values with both kinds of number *)

Module Values.

Import Float.

(** A Python number: an [int] or a [float]. *)
Inductive num :=
| Int (z : Z)
| Flt (f : float).

Inductive value :=
| VNone
| VBool (b : bool)
| VInt (z : Z)
| VFloat (f : float)
| VStr (s : string)
| VList (l : list value)
| VDict (d : gmap string value).

Definition value_of_num (n : num) : value :=
  match n with Int z => VInt z | Flt f => VFloat f end.

(** The operand of an arithmetic operator: [bool] is an [int]. *)
Definition as_num (v : value) : exn num :=
  match v with
  | VInt z => Ok (Int z)
  | VBool b => Ok (Int (if b then 1 else 0))
  | VFloat f => Ok (Flt f)
  | _ => Raise TypeError
  end.

Definition to_float (n : num) : exn float :=
  match n with
  | Int z => of_int z
  | Flt f => Ok f
  end.

(** [a + b] and [a * b] on numbers: exact on two ints, in floats
    otherwise. *)
Definition num_add (a b : num) : exn num :=
  match a, b with
  | Int x, Int y => Ok (Int (x + y))
  | _, _ => x ← to_float a; y ← to_float b; mret (Flt (add x y))
  end.

Definition num_mul (a b : num) : exn num :=
  match a, b with
  | Int x, Int y => Ok (Int (x * y))
  | _, _ => x ← to_float a; y ← to_float b; mret (Flt (mul x y))
  end.

(** [a / b] on numbers. *)
Definition num_truediv (a b : num) : exn float :=
  match a, b with
  | Int x, Int y => int_truediv x y
  | _, Int y => x ← to_float a; div_int x y
  | _, Flt y => x ← to_float a; div x y
  end.

(** [round(n, ndigits)]: an int is returned as it is. *)
Definition num_round (n : num) (ndigits : nat) : num :=
  match n with
  | Int z => Int z
  | Flt f => Flt (round f ndigits)
  end.

(** [v * x] for a float [x]. *)
Definition times_float (v : value) (x : float) : exn float :=
  n ← as_num v;
  f ← to_float n;
  mret (mul f x).

(** The count of a sequence repetition has to fit a machine index. *)
Definition index_sized (z : Z) : bool :=
  ((- 2 ^ 63 <=? z) && (z <? 2 ^ 63))%Z.

Definition repeat_string (s : string) (count : Z) : string :=
  String.concat "" (replicate (Z.to_nat count) s).

(** [a * b] on arbitrary values: the product of two numbers, or a
    sequence repeated by an int.  The memory a long repetition needs is
    not modelled. *)
Definition times (a b : value) : exn value :=
  match as_num a, as_num b with
  | Ok x, Ok y => n ← num_mul x y; mret (value_of_num n)
  | Ok (Int count), _ =>
      match b with
      | VStr s =>
          if index_sized count then Ok (VStr (repeat_string s count))
          else Raise OverflowError
      | VList l =>
          if index_sized count then Ok (VList (mjoin (replicate (Z.to_nat count) l)))
          else Raise OverflowError
      | _ => Raise TypeError
      end
  | _, Ok (Int count) =>
      match a with
      | VStr s =>
          if index_sized count then Ok (VStr (repeat_string s count))
          else Raise OverflowError
      | VList l =>
          if index_sized count then Ok (VList (mjoin (replicate (Z.to_nat count) l)))
          else Raise OverflowError
      | _ => Raise TypeError
      end
  | _, _ => Raise TypeError
  end.

(** [v / z] for an int [z]. *)
Definition over_int (v : value) (z : Z) : exn float :=
  n ← as_num v;
  num_truediv n (Int z).

(** [bool(v)] *)
Definition truthy (v : value) : bool :=
  match v with
  | VNone => false
  | VBool b => b
  | VInt z => negb (z =? 0)%Z
  | VFloat f => negb (is_zero f)
  | VStr s => negb (String.eqb s "")
  | VList l => match l with [] => false | _ => true end
  | VDict d => match map_to_list d with [] => false | _ => true end
  end.

(** [v.get(key, dflt)]: only dictionaries have [get]. *)
Definition get (v : value) (key : string) (dflt : value) : exn value :=
  match v with
  | VDict d => Ok (default dflt (d !! key))
  | _ => Raise AttributeError
  end.

(** [d.get(key, dflt)] and [d.get(key)] on a value known to be a dict. *)
Definition dict_get (d : gmap string value) (key : string) (dflt : value) : value :=
  default dflt (d !! key).

(** [table.get(v, dflt)] on a catalog keyed by strings, with an arbitrary
    value as key: lists and dictionaries are unhashable, any other
    non-string is simply not a key of the table. *)
Definition table_get {A} (table : gmap string A) (v : value) (dflt : A) : exn A :=
  match v with
  | VStr s => Ok (default dflt (table !! s))
  | VList _ | VDict _ => Raise TypeError
  | _ => Ok dflt
  end.

(** [if cfg:] for an [Optional[Dict]]. *)
Definition config_truthy (cfg : option (gmap string value)) : bool :=
  match cfg with
  | Some d => truthy (VDict d)
  | None => false
  end.

End Values.

(** ** [backend/services/budget_calculator.py] in double precision *)

Module BudgetCalculator.

Import Float Values.
Local Open Scope Q_scope.

Record material_info := {
  price : float;
  name : string;
  hardness : string;
  density : float
}.

Record finish_info := {
  multiplier : float;
  finish_name : string;
  ra : float
}.

Record cad_base_info := {
  base : Z;
  series : string
}.

Definition MATERIAL_PRICES : gmap string material_info :=
  list_to_map [
    ("H13", {| price := literal 0.85; name := "Aço H13"; hardness := "48-52 HRC";
               density := literal 7.8 |});
    ("P20", {| price := literal 0.65; name := "Aço P20"; hardness := "28-32 HRC";
               density := literal 7.85 |});
    ("718", {| price := literal 0.75; name := "Aço 718"; hardness := "32-38 HRC";
               density := literal 7.9 |});
    ("ALUMINUM", {| price := literal 0.45; name := "Alumínio 7075"; hardness := "60-65 HB";
                    density := literal 2.81 |});
    ("S7", {| price := literal 0.70; name := "Aço S7"; hardness := "54-58 HRC";
              density := literal 7.7 |})
  ].

Definition FINISH_MULTIPLIERS : gmap string finish_info :=
  list_to_map [
    ("machined", {| multiplier := literal 1.0; finish_name := "Maquinado";
                    ra := literal 1.6 |});
    ("ground", {| multiplier := literal 1.3; finish_name := "Retificado";
                  ra := literal 0.8 |});
    ("polished", {| multiplier := literal 1.5; finish_name := "Polido";
                    ra := literal 0.2 |});
    ("textured", {| multiplier := literal 1.8; finish_name := "Texturizado";
                    ra := literal 3.2 |});
    ("edm", {| multiplier := literal 2.2; finish_name := "Eletroerosão (EDM)";
               ra := literal 0.4 |})
  ].

Definition BASE_FIXED_FEE : float := literal 2500.0.

Definition MOLD_BASE_EXTRAS : gmap string float :=
  list_to_map [
    ("HOT_RUNNER", literal 3500.0);
    ("CONFORMAL_COOLING", literal 5000.0);
    ("DOUBLE_EXTRACTION", literal 1500.0);
    ("LIFTING_HOLES", literal 300.0);
    ("INSULATION", literal 800.0)
  ].

(** The base prices and the plate additions are ints in the source. *)
Definition CAD_MOLD_BASE_PRICES : gmap string cad_base_info :=
  list_to_map [
    ("HASCO Standard", {| base := 3500; series := "Z40/41" |});
    ("HASCO Premium", {| base := 4500; series := "Z40/41 Premium" |});
    ("DME Standard", {| base := 3200; series := "Mega" |});
    ("DME Premium", {| base := 4200; series := "Mega Premium" |});
    ("FUTABA Standard", {| base := 3000; series := "NB/NP" |});
    ("FUTABA Premium", {| base := 4000; series := "NB/NP Premium" |})
  ].

Definition PLATE_MATERIAL_ADDONS : gmap string Z :=
  list_to_map [
    ("Aço 1.1730 (C45W)", 0);
    ("Aço 1.2311 (P20)", 200);
    ("Aço 1.2312 (P20+S)", 350);
    ("Aço 1.2344 (H13)", 800);
    ("Alumínio 7075", -500);
    ("Aço 1.2767 (H13 Mod)", 1200)
  ]%Z.

Definition HOURLY_RATES : gmap string float :=
  list_to_map [
    ("cnc3Axis", literal 55.0);
    ("cnc5Axis", literal 85.0);
    ("edm", literal 75.0);
    ("finishing", literal 45.0);
    ("assembly", literal 50.0);
    ("quality", literal 60.0)
  ].

(** [_calculate_material_cost(volume, material)] *)
Definition _calculate_material_cost (volume : value) (material : string) : exn float :=
  p20 ← getitem MATERIAL_PRICES "P20";
  let material_info := default p20 (MATERIAL_PRICES !! material) in
  let price_per_cm3 := price material_info in
  gross_volume ← times_float volume (literal 1.15);
  mret (mul gross_volume price_per_cm3).

(** [_calculate_processing_cost(volume, material, finish, complexity,
    manufacturing)].  An int constant next to a float operand is the
    float it converts to. *)
Definition _calculate_processing_cost (volume : value) (material finish : string)
    (complexity manufacturing : value) : exn float :=
  let base_rate := literal 0.5 in
  score ← get complexity "complexity_score" (VInt 50);
  complexity_factor ← over_int score 50;
  v_base ← times_float volume base_rate;
  let machining_minutes :=
    mul v_base (add (literal 1) (mul complexity_factor (literal 0.5))) in
  hourly_rate ←
    (if gtb complexity_factor (literal 0.7) then getitem HOURLY_RATES "cnc5Axis"
     else if gtb complexity_factor (literal 0.4) then getitem HOURLY_RATES "cnc3Axis"
     else r ← getitem HOURLY_RATES "cnc3Axis"; mret (mul r (literal 0.9)));
  minutes_per_60 ← div_int machining_minutes 60;
  let machining_cost := mul minutes_per_60 hourly_rate in
  machined ← getitem FINISH_MULTIPLIERS "machined";
  let finish_info := default machined (FINISH_MULTIPLIERS !! finish) in
  let finish_multiplier := multiplier finish_info in
  let finish_cost :=
    mul (mul machining_cost (sub finish_multiplier (literal 1))) (literal 0.3) in
  edm_cost ←
    (if String.eqb finish "edm" || gtb complexity_factor (literal 0.8) then
       edm_minutes ← times_float volume (literal 0.2);
       edm_per_60 ← div_int edm_minutes 60;
       r ← getitem HOURLY_RATES "edm";
       mret (mul edm_per_60 r)
     else mret (literal 0));
  v_tenth ← times_float volume (literal 0.1);
  let finishing_minutes := mul v_tenth finish_multiplier in
  finishing_per_60 ← div_int finishing_minutes 60;
  finishing_rate ← getitem HOURLY_RATES "finishing";
  let finishing_cost := mul finishing_per_60 finishing_rate in
  let assembly_hours := add (literal 8) (mul complexity_factor (literal 4)) in
  assembly_rate ← getitem HOURLY_RATES "assembly";
  let assembly_cost := mul assembly_hours assembly_rate in
  let qa_hours := add (literal 4) (mul complexity_factor (literal 2)) in
  quality_rate ← getitem HOURLY_RATES "quality";
  let qa_cost := mul qa_hours quality_rate in
  mret (add (add (add (add (add machining_cost finish_cost) edm_cost) finishing_cost)
                 assembly_cost) qa_cost).

(** [_calculate_mold_base_cost(mold_base_config, cad_base_config)].  The
    cost is an int as long as only ints were added to it. *)
Definition _calculate_mold_base_cost
    (mold_base_config cad_base_config : option (gmap string value)) : exn num :=
  let cost := Int 0 in
  if config_truthy cad_base_config then
    let cfg := default ∅ cad_base_config in
    let supplier := dict_get cfg "supplier" (VStr "HASCO Standard") in
    hasco ← getitem CAD_MOLD_BASE_PRICES "HASCO Standard";
    base_info ← table_get CAD_MOLD_BASE_PRICES supplier hasco;
    cost ← num_add cost (Int (base base_info));
    let plate_material := dict_get cfg "plateMaterial" (VStr "Aço 1.1730 (C45W)") in
    addon ← table_get PLATE_MATERIAL_ADDONS plate_material 0%Z;
    cost ← num_add cost (Int addon);
    cost ←
      (if truthy (dict_get cfg "insulationPlates" VNone)
       then x ← getitem MOLD_BASE_EXTRAS "INSULATION"; num_add cost (Flt x)
       else mret cost);
    cost ←
      (if truthy (dict_get cfg "liftingHoles" VNone)
       then x ← getitem MOLD_BASE_EXTRAS "LIFTING_HOLES"; num_add cost (Flt x)
       else mret cost);
    mret cost
  else if config_truthy mold_base_config then
    let cfg := default ∅ mold_base_config in
    let width := dict_get cfg "plateWidth" (VInt 296) in
    let length := dict_get cfg "plateLength" (VInt 296) in
    area ← times width length;
    area_per_10000 ← over_int area 10000;
    let base_cost := mul area_per_10000 (literal 400) in
    cost ← num_add cost (Flt base_cost);
    cost ←
      (if truthy (dict_get cfg "hotRunner" VNone)
       then x ← getitem MOLD_BASE_EXTRAS "HOT_RUNNER"; num_add cost (Flt x)
       else mret cost);
    cost ←
      (if truthy (dict_get cfg "conformalCooling" VNone)
       then x ← getitem MOLD_BASE_EXTRAS "CONFORMAL_COOLING"; num_add cost (Flt x)
       else mret cost);
    cost ←
      (if truthy (dict_get cfg "doubleExtraction" VNone)
       then x ← getitem MOLD_BASE_EXTRAS "DOUBLE_EXTRACTION"; num_add cost (Flt x)
       else mret cost);
    mret cost
  else
    mret (Int 3000).

(** [_calculate_setup_fee(mold_base_config)] *)
Definition _calculate_setup_fee (mold_base_config : option (gmap string value)) : float :=
  let fee := BASE_FIXED_FEE in
  if config_truthy mold_base_config then
    if truthy (dict_get (default ∅ mold_base_config) "conformalCooling" VNone)
    then add fee (literal 1500)
    else fee
  else fee.

(** [_calculate_discount(quantity)] *)
Definition _calculate_discount (quantity : Z) : float :=
  if (quantity >=? 100)%Z then literal 0.15
  else if (quantity >=? 50)%Z then literal 0.10
  else if (quantity >=? 10)%Z then literal 0.05
  else literal 0.0.

(** The ["breakdown"] entry of the result. *)
Record Breakdown := {
  bd_material_cost : float;
  bd_processing_cost : float;
  bd_mold_base_cost : num;
  bd_setup_fee : float;
  bd_subtotal : float;
  bd_discount_percent : string;
  bd_discount_amount : float;
  bd_quantity : Z;
  bd_price_per_piece : num
}.

(** The dictionary returned by [calculate]. *)
Record Budget := {
  total_price : float;
  breakdown : Breakdown;
  material_cost : float;
  processing_cost : float;
  mold_base_cost : num;
  setup_fee : float;
  discount : float;
  final_price : float;
  material_info_of : option material_info;
  finish_info_of : option finish_info;
  manufacturing_recommendations : value
}.

(** [calculate(stats, material, finish, quantity, mold_base_config,
    cad_base_config)].  The [except Exception: ... raise] wrapper logs
    and re-raises, so the exception of the body is the exception of the
    call. *)
Definition calculate (stats : gmap string value) (material finish : string)
    (quantity : Z) (mold_base_config cad_base_config : option (gmap string value))
    : exn Budget :=
  let volume := dict_get stats "volume" (VInt 100) in
  let complexity := dict_get stats "complexity_metrics" (VDict ∅) in
  let manufacturing := dict_get stats "manufacturing_analysis" (VDict ∅) in
  material_cost ← _calculate_material_cost volume material;
  processing_cost ←
    _calculate_processing_cost volume material finish complexity manufacturing;
  mold_base_cost ← _calculate_mold_base_cost mold_base_config cad_base_config;
  let setup_fee := _calculate_setup_fee mold_base_config in
  mold_base ← to_float mold_base_cost;
  let subtotal := add (add (add material_cost processing_cost) mold_base) setup_fee in
  let discount := _calculate_discount quantity in
  let discount_amount := mul subtotal discount in
  let total_price := sub subtotal discount_amount in
  let total_price := round total_price 2 in
  price_per_piece ←
    (if (quantity >? 0)%Z
     then per_piece ← div_int total_price quantity; mret (Flt (round per_piece 2))
     else mret (Int 0));
  let breakdown := {|
    bd_material_cost := round material_cost 2;
    bd_processing_cost := round processing_cost 2;
    bd_mold_base_cost := num_round mold_base_cost 2;
    bd_setup_fee := round setup_fee 2;
    bd_subtotal := round subtotal 2;
    bd_discount_percent := format_0f (mul discount (literal 100)) +:+ "%";
    bd_discount_amount := round discount_amount 2;
    bd_quantity := quantity;
    bd_price_per_piece := price_per_piece
  |} in
  recommendations ← get manufacturing "process_recommendations" (VList []);
  mret {|
    total_price := total_price;
    breakdown := breakdown;
    material_cost := material_cost;
    processing_cost := processing_cost;
    mold_base_cost := mold_base_cost;
    setup_fee := setup_fee;
    discount := discount;
    final_price := total_price;
    material_info_of := MATERIAL_PRICES !! material;
    finish_info_of := FINISH_MULTIPLIERS !! finish;
    manufacturing_recommendations := recommendations
  |}.

End BudgetCalculator.

(** ** [backend/main.py]: the simple path in double precision *)

Module Main.

Import Float Values.
Local Open Scope Q_scope.

Record material_config := {
  price : float;
  name : string;
  hardness : string
}.

Record finish_config := {
  multiplier : float;
  finish_name : string
}.

Definition materials : gmap string material_config :=
  list_to_map [
    ("H13", {| price := literal 0.85; name := "Aço H13"; hardness := "48-52 HRC" |});
    ("P20", {| price := literal 0.65; name := "Aço P20"; hardness := "28-32 HRC" |});
    ("718", {| price := literal 0.75; name := "Aço 718"; hardness := "32-38 HRC" |});
    ("ALUMINUM", {| price := literal 0.45; name := "Alumínio 7075";
                    hardness := "60-65 HB" |});
    ("S7", {| price := literal 0.70; name := "Aço S7"; hardness := "54-58 HRC" |})
  ].

Definition finishes : gmap string finish_config :=
  list_to_map [
    ("machined", {| multiplier := literal 1.0; finish_name := "Maquinado" |});
    ("ground", {| multiplier := literal 1.3; finish_name := "Retificado" |});
    ("polished", {| multiplier := literal 1.5; finish_name := "Polido" |});
    ("textured", {| multiplier := literal 1.8; finish_name := "Texturizado" |});
    ("edm", {| multiplier := literal 2.2; finish_name := "Eletroerosão (EDM)" |})
  ].

(** The value of the local variable [quantity_discount] after the
    [if]/[elif] chain: a multiplier, not a rate. *)
Definition quantity_discount (quantity : Z) : float :=
  let quantity_discount := literal 1.0 in
  if (quantity >=? 100)%Z then literal 0.85
  else if (quantity >=? 50)%Z then literal 0.90
  else if (quantity >=? 10)%Z then literal 0.95
  else quantity_discount.

(** The dictionary returned by [calculate_budget_from_stats]. *)
Record SimpleBudget := {
  unit_price : float;
  total_price : float;
  currency : string;
  material : string;
  material_hardness : string;
  finish : string;
  setup_fee : float;
  material_cost : float;
  finish_cost : float;
  quantity_discount_label : string;
  production_time_days : Z;
  out_volume_cm3 : float;
  out_area_cm2 : float
}.

(** [calculate_budget_from_stats(stats, material, finish, quantity)],
    on the two fields of [stats] it reads, which the pydantic model
    types as floats. *)
Definition calculate_budget_from_stats (volume_cm3 area_cm2 : float)
    (material finish : string) (quantity : Z) : exn SimpleBudget :=
  p20 ← getitem materials "P20";
  let mat_config := default p20 (materials !! material) in
  machined ← getitem finishes "machined";
  let fin_config := default machined (finishes !! finish) in
  let material_cost := mul volume_cm3 (price mat_config) in
  let finish_cost := mul material_cost (sub (multiplier fin_config) (literal 1.0)) in
  let setup_fee := literal 500.0 in
  let quantity_discount := quantity_discount quantity in
  let piece_cost :=
    mul (add (add material_cost finish_cost) setup_fee) quantity_discount in
  pieces ← of_int quantity;
  let total := mul piece_cost pieces in
  tenth ← int_truediv quantity 10;
  tenth ← to_int tenth;
  let production_time := Z.max 5 (tenth + 3) in
  percent ← to_int (mul (sub (literal 1) quantity_discount) (literal 100));
  mret {|
    unit_price := round piece_cost 2;
    total_price := round total 2;
    currency := "EUR";
    material := name mat_config;
    material_hardness := hardness mat_config;
    finish := finish_name fin_config;
    setup_fee := round (mul setup_fee quantity_discount) 2;
    material_cost := round (mul material_cost quantity_discount) 2;
    finish_cost := round (mul finish_cost quantity_discount) 2;
    quantity_discount_label := pretty percent +:+ "%";
    production_time_days := production_time;
    out_volume_cm3 := round volume_cm3 2;
    out_area_cm2 := round area_cm2 2
  |}.

End Main.

End Binary64.

(** ** Notions used to state the properties in double precision *)

Module Binary64Notions.

Import Binary64.Float Binary64.Values.

(** The sum the detailed calculator calls [subtotal], recomputed from
    the unrounded components of a result, in the order of the source. *)
Definition subtotal_of (material_cost processing_cost mold_base setup_fee : float) : float :=
  add (add (add material_cost processing_cost) mold_base) setup_fee.

Definition is_dict (v : value) : bool :=
  match v with VDict _ => true | _ => false end.

Definition is_hashable (v : value) : bool :=
  match v with VList _ | VDict _ => false | _ => true end.

(** A number that [float()] converts: a float, or an int (or bool)
    within the range of the doubles. *)
Definition converts (v : value) : bool :=
  match as_num v with
  | Ok n => succeeds (to_float n)
  | Raise _ => false
  end.

(** A number whose quotient by 50 is a double: a float, or an int whose
    fiftieth is within the range of the doubles. *)
Definition has_fiftieth (v : value) : bool :=
  match as_num v with
  | Ok n => succeeds (num_truediv n (Int 50))
  | Raise _ => false
  end.

(** Every statistics field the calculator reads is absent, or of the
    type it is used at and, if an int, not too large for the float
    arithmetic it enters. *)
Definition stats_ok (stats : gmap string value) : bool :=
  converts (dict_get stats "volume" (VInt 100)) &&
  match dict_get stats "complexity_metrics" (VDict ∅) with
  | VDict complexity => has_fiftieth (dict_get complexity "complexity_score" (VInt 50))
  | _ => false
  end &&
  is_dict (dict_get stats "manufacturing_analysis" (VDict ∅)).

(** Plate dimensions whose area in units of 10000 is a double: two
    numbers, with the int product of two ints, or the int next to a
    float, not too large. *)
Definition plates_ok (width length : value) : bool :=
  match as_num width, as_num length with
  | Ok (Int w), Ok (Int l) => succeeds (int_truediv (w * l) 10000)
  | Ok w, Ok l => succeeds (to_float w) && succeeds (to_float l)
  | _, _ => false
  end.

(** The mould-base configuration in use has entries of the type they are
    used at, and plate dimensions that are not too large. *)
Definition config_ok (mold_base_config cad_base_config : option (gmap string value)) : bool :=
  if config_truthy cad_base_config then
    let cfg := default ∅ cad_base_config in
    is_hashable (dict_get cfg "supplier" (VStr "HASCO Standard")) &&
    is_hashable (dict_get cfg "plateMaterial" (VStr "Aço 1.1730 (C45W)"))
  else if config_truthy mold_base_config then
    let cfg := default ∅ mold_base_config in
    plates_ok (dict_get cfg "plateWidth" (VInt 296)) (dict_get cfg "plateLength" (VInt 296))
  else true.

(** A quantity the price per piece can be computed for: not positive, so
    that no division takes place, or within the range of the doubles. *)
Definition quantity_ok (quantity : Z) : bool :=
  (quantity <=? 0)%Z || succeeds (of_int quantity).

End Binary64Notions.

(** * Properties *)

(** ** Rounding and comparison *)

Section Rounding.

Local Open Scope Q_scope.

Lemma Qltb_lt (x y : Q) : Qltb x y = true <-> x < y.
Proof.
  unfold Qltb. rewrite negb_true_iff.
  split; intros H.
  - apply Qnot_le_lt. intros Hle. apply Qle_bool_iff in Hle. congruence.
  - destruct (Qle_bool y x) eqn:E; [|reflexivity].
    apply Qle_bool_iff in E. exfalso. apply (Qlt_not_le _ _ H E).
Qed.

Lemma Qltb_ge (x y : Q) : Qltb x y = false <-> y <= x.
Proof.
  unfold Qltb. rewrite negb_false_iff. apply Qle_bool_iff.
Qed.

Lemma Qgtb_gt (x y : Q) : Qgtb x y = true <-> y < x.
Proof. unfold Qgtb. apply Qltb_lt. Qed.

Lemma Qgtb_le (x y : Q) : Qgtb x y = false <-> x <= y.
Proof. unfold Qgtb. apply Qltb_ge. Qed.

Lemma round_half_even_comp (x y : Q) :
  x == y -> round_half_even x = round_half_even y.
Proof.
  intros H. unfold round_half_even.
  rewrite (Qfloor_comp _ _ H).
  assert (Hc : Qcompare (x - inject_Z (Qfloor y)) (1 # 2)
               = Qcompare (y - inject_Z (Qfloor y)) (1 # 2)).
  { apply Qcompare_comp; [rewrite H|]; reflexivity. }
  rewrite Hc. reflexivity.
Qed.


Lemma round_half_even_floor (x : Q) :
  (Qfloor x <= round_half_even x <= Qfloor x + 1)%Z.
Proof.
  unfold round_half_even.
  destruct (Qcompare _ _); [destruct (Z.even _)| |]; lia.
Qed.


Lemma round_half_even_mono (x y : Q) :
  x <= y -> (round_half_even x <= round_half_even y)%Z.
Proof.
  intros Hxy.
  pose proof (Qfloor_resp_le _ _ Hxy) as Hf.
  destruct (Z.eq_dec (Qfloor x) (Qfloor y)) as [E|N].
  - unfold round_half_even. rewrite E.
    destruct (Qcompare_spec (x - inject_Z (Qfloor y)) (1 # 2)) as [He|Hl|Hg];
    destruct (Qcompare_spec (y - inject_Z (Qfloor y)) (1 # 2)) as [He'|Hl'|Hg'];
    try (destruct (Z.even _)); try lia; exfalso; lra.
  - pose proof (round_half_even_floor x). pose proof (round_half_even_floor y). lia.
Qed.

Lemma round_half_even_inject_Z (z : Z) : round_half_even (inject_Z z) = z.
Proof.
  unfold round_half_even. rewrite Qfloor_Z.
  destruct (Qcompare_spec (inject_Z z - inject_Z z) (1 # 2)) as [He|Hl|Hg].
  - exfalso. lra.
  - reflexivity.
  - exfalso. lra.
Qed.

Lemma pow10_pos (n : nat) : 0 < pow10 n.
Proof.
  unfold pow10. change 0 with (inject_Z 0). rewrite <- Zlt_Qlt.
  apply Z.pow_pos_nonneg; lia.
Qed.

Lemma round_comp (x y : Q) (n : nat) : x == y -> round x n == round y n.
Proof.
  intros H. unfold round.
  rewrite (round_half_even_comp (x * pow10 n) (y * pow10 n)); [reflexivity|].
  rewrite H. reflexivity.
Qed.

Lemma round_mono (x y : Q) (n : nat) : x <= y -> round x n <= round y n.
Proof.
  intros H. unfold round.
  pose proof (pow10_pos n) as Hp.
  apply Qmult_le_compat_r.
  - rewrite <- Zle_Qle. apply round_half_even_mono.
    apply Qmult_le_compat_r; [exact H | apply Qlt_le_weak, Hp].
  - apply Qlt_le_weak, Qinv_lt_0_compat, Hp.
Qed.



(** A value with at most [n] decimals is its own rounding. *)
Lemma round_exact (z : Z) (n : nat) : round (inject_Z z / pow10 n) n == inject_Z z / pow10 n.
Proof.
  pose proof (pow10_pos n) as Hp.
  unfold round.
  rewrite (round_half_even_comp _ (inject_Z z)).
  - rewrite round_half_even_inject_Z. reflexivity.
  - field. lra.
Qed.

Lemma round_nonneg (x : Q) (n : nat) : 0 <= x -> 0 <= round x n.
Proof.
  intros H. apply (round_mono 0 x n) in H.
  assert (E : round 0 n == 0).
  { rewrite (round_comp 0 (inject_Z 0 / pow10 n)) by reflexivity.
    rewrite round_exact. reflexivity. }
  rewrite E in H. exact H.
Qed.

Lemma round_le_100 (x : Q) : x <= 100 -> round x 2 <= 100.
Proof.
  intros H. apply (round_mono x 100 2) in H.
  assert (E : round 100 2 == 100) by reflexivity.
  rewrite E in H. exact H.
Qed.

End Rounding.

(** ** Quantity discount tiers *)

Section DiscountTiers.

Import BudgetCalculator.
Local Open Scope Q_scope.

(** C2.  The discount rate of the detailed calculator is a step function
    of the quantity alone: 15% from 100 pieces, 10% from 50 to 99, 5% from
    10 to 49 and 0% below 10; in particular 10 pieces give exactly 5%,
    9 pieces give 0% and 100 pieces give 15%. *)
Theorem calculate_discount_tiers (quantity : Z) :
  ((100 <= quantity)%Z -> _calculate_discount quantity = 0.15) /\
  ((50 <= quantity < 100)%Z -> _calculate_discount quantity = 0.10) /\
  ((10 <= quantity < 50)%Z -> _calculate_discount quantity = 0.05) /\
  ((quantity < 10)%Z -> _calculate_discount quantity = 0.0) /\
  _calculate_discount 10 = 0.05 /\
  _calculate_discount 9 = 0.0 /\
  _calculate_discount 100 = 0.15.
Proof.
  unfold _calculate_discount.
  repeat split; try reflexivity; intros H.
  - destruct (Z.geb_spec quantity 100); [reflexivity | lia].
  - destruct (Z.geb_spec quantity 100); [lia|].
    destruct (Z.geb_spec quantity 50); [reflexivity | lia].
  - destruct (Z.geb_spec quantity 100); [lia|].
    destruct (Z.geb_spec quantity 50); [lia|].
    destruct (Z.geb_spec quantity 10); [reflexivity | lia].
  - destruct (Z.geb_spec quantity 100); [lia|].
    destruct (Z.geb_spec quantity 50); [lia|].
    destruct (Z.geb_spec quantity 10); [lia | reflexivity].
Qed.

Lemma calculate_discount_tiers_witness :
  (10 <= 10 < 50)%Z /\ _calculate_discount 10 = 0.05 /\
  (50 <= 73 < 100)%Z /\ _calculate_discount 73 = 0.10 /\
  (100 <= 250)%Z /\ _calculate_discount 250 = 0.15 /\
  (-4 < 10)%Z /\ _calculate_discount (-4) = 0.0.
Proof.
  split; [lia|]. split; [apply (calculate_discount_tiers 10); lia|].
  split; [lia|]. split; [apply (calculate_discount_tiers 73); lia|].
  split; [lia|]. split; [apply (calculate_discount_tiers 250); lia|].
  split; [lia|]. apply (calculate_discount_tiers (-4)); lia.
Defined.

Lemma calculate_discount_below_10 (quantity : Z) :
  (quantity < 10)%Z -> _calculate_discount quantity = 0.0.
Proof.
  intros H. unfold _calculate_discount.
  destruct (Z.geb_spec quantity 100); [lia|].
  destruct (Z.geb_spec quantity 50); [lia|].
  destruct (Z.geb_spec quantity 10); [lia | reflexivity].
Qed.




(** C9.  Tier by tier, the multiplier of the simple pricing path is one
    minus the discount rate of the detailed calculator: 0.85, 0.90, 0.95
    and 1.0 against 0.15, 0.10, 0.05 and 0.0, with the same tier floors
    100, 50 and 10. *)
Theorem simple_multiplier_is_one_minus_discount (quantity : Z) :
  Main.quantity_discount quantity == 1 - _calculate_discount quantity /\
  ((100 <= quantity)%Z ->
     Main.quantity_discount quantity = 0.85 /\ _calculate_discount quantity = 0.15) /\
  ((50 <= quantity < 100)%Z ->
     Main.quantity_discount quantity = 0.90 /\ _calculate_discount quantity = 0.10) /\
  ((10 <= quantity < 50)%Z ->
     Main.quantity_discount quantity = 0.95 /\ _calculate_discount quantity = 0.05) /\
  ((quantity < 10)%Z ->
     Main.quantity_discount quantity = 1.0 /\ _calculate_discount quantity = 0.0).
Proof.
  unfold Main.quantity_discount, _calculate_discount.
  destruct (Z.geb_spec quantity 100);
    [|destruct (Z.geb_spec quantity 50); [|destruct (Z.geb_spec quantity 10)]];
    (split; [reflexivity|]); repeat split; intros; solve [reflexivity | lia].
Qed.

Lemma simple_multiplier_is_one_minus_discount_witness :
  (50 <= 60 < 100)%Z /\
  Main.quantity_discount 60 = 0.90 /\ _calculate_discount 60 = 0.10 /\
  Main.quantity_discount 60 == 1 - _calculate_discount 60.
Proof.
  split; [lia|].
  pose proof (simple_multiplier_is_one_minus_discount 60) as (Heq & _ & H50 & _).
  destruct H50 as [Hm Hd]; [lia|].
  split; [exact Hm|]. split; [exact Hd | exact Heq].
Defined.

End DiscountTiers.

(** ** The detailed calculator *)

Section DetailedCalculator.

Import BudgetCalculator.
Local Open Scope Q_scope.

(** What a returned budget is made of. *)
Lemma calculate_inv stats material finish quantity mold_base_config cad_base_config b :
  calculate stats material finish quantity mold_base_config cad_base_config = Ok b ->
  _calculate_material_cost (dict_get stats "volume" (PyNum 100)) material
    = Ok (material_cost b) /\
  _calculate_processing_cost (dict_get stats "volume" (PyNum 100)) material finish
      (dict_get stats "complexity_metrics" (PyDict ∅))
      (dict_get stats "manufacturing_analysis" (PyDict ∅))
    = Ok (processing_cost b) /\
  _calculate_mold_base_cost mold_base_config cad_base_config = Ok (mold_base_cost b) /\
  setup_fee b = _calculate_setup_fee mold_base_config /\
  discount b = _calculate_discount quantity /\
  total_price b = round (subtotal_of b - subtotal_of b * discount b) 2 /\
  final_price b = total_price b /\
  bd_subtotal (breakdown b) = round (subtotal_of b) 2 /\
  bd_discount_amount (breakdown b) = round (subtotal_of b * discount b) 2 /\
  bd_material_cost (breakdown b) = round (material_cost b) 2 /\
  bd_processing_cost (breakdown b) = round (processing_cost b) 2 /\
  bd_mold_base_cost (breakdown b) = round (mold_base_cost b) 2 /\
  bd_setup_fee (breakdown b) = round (setup_fee b) 2 /\
  price_per_piece b =
    (if (quantity >? 0)%Z then round (total_price b / inject_Z quantity) 2 else 0).
Proof.
  unfold calculate. intros H.
  destruct (_calculate_material_cost _ _) as [mc|e]; [|discriminate H].
  destruct (_calculate_processing_cost _ _ _ _ _) as [pc|e]; [|discriminate H].
  destruct (_calculate_mold_base_cost _ _) as [mb|e]; [|discriminate H].
  cbn [mbind exn_bind] in H.
  destruct (get _ _ _) as [recs|e]; [|discriminate H].
  cbn [mbind exn_bind mret exn_ret] in H.
  injection H as <-. unfold subtotal_of, price_per_piece. cbn.
  repeat split; reflexivity.
Qed.



(** Scenario A of the specification: 1000 cm³ of P20 cost 747.5. *)
Example calculate_scenario_A :
  exists b,
    calculate (<["volume" := PyNum 1000]> ∅) "P20" "machined" 1 None None = Ok b /\
    material_cost b == 747.5 /\ bd_material_cost (breakdown b) == 747.5.
Proof.
  eexists. split; [vm_compute; reflexivity|]. split; reflexivity.
Qed.

End DetailedCalculator.

(** ** Setup fee: per piece in the simple path, per order in the detailed one *)

Section SetupFee.

Local Open Scope Q_scope.

Lemma materials_P20 :
  getitem Main.materials "P20"
  = Ok {| Main.price := 0.65; Main.name := "Aço P20"; Main.hardness := "28-32 HRC" |}.
Proof. reflexivity. Qed.

Lemma finishes_machined :
  getitem Main.finishes "machined"
  = Ok {| Main.multiplier := 1.0; Main.finish_name := "Maquinado" |}.
Proof. reflexivity. Qed.


(** A hundred pieces carry a hundred setup fees in the simple path:
    for a part of no volume the total is [100 × 500 × 0.85]. *)
Example simple_path_hundred_setup_fees :
  exists r,
    Main.calculate_budget_from_stats
      {| Main.volume_cm3 := 0; Main.area_cm2 := 0; Main.dimensions := ∅;
         Main.center_of_mass := []; Main.bounding_box := ∅;
         Main.vertices_count := 0; Main.faces_count := 0;
         Main.is_watertight := true; Main.is_manifold := true |}
      "P20" "machined" 100 = Ok r /\
    Main.total_price r == 42500 /\ Main.unit_price r == 425 /\ Main.setup_fee r == 425.
Proof.
  eexists. split; [vm_compute; reflexivity|]. repeat split; reflexivity.
Qed.

End SetupFee.

(** ** When the detailed calculator fails *)

Section PricingFailures.

Import BudgetCalculator.
Local Open Scope Q_scope.

(** C3 as first stated fails: statistics with neither [volume] nor
    [complexity_metrics] are priced, with the defaults, instead of being
    refused. *)
Lemma calculate_accepts_missing_fields :
  (∅ : gmap string pyval) !! "volume" = None /\
  (∅ : gmap string pyval) !! "complexity_metrics" = None /\
  (exists b,
     calculate ∅ "P20" "machined" 1 None None = Ok b /\
     total_price b == 6673.5 /\
     material_cost b == 100 * 1.15 * 0.65) /\
  (exists b,
     Binary64.BudgetCalculator.calculate ∅ "P20" "machined" 1 None None = Ok b /\
     Binary64.BudgetCalculator.total_price b = Binary64.Float.literal 6673.5).
Proof.
  split; [reflexivity|]. split; [reflexivity|]. split.
  - eexists. split; [vm_compute; reflexivity|]. split; reflexivity.
  - eexists. split; vm_compute; reflexivity.
Qed.

(** A quantity of zero, or a negative one, is priced as well: no
    discount, and a per-piece price of 0. *)
Example calculate_accepts_quantity_zero :
  exists b,
    calculate ∅ "P20" "machined" 0 None None = Ok b /\
    discount b == 0 /\ price_per_piece b = 0.
Proof.
  eexists. split; [vm_compute; reflexivity|]. split; reflexivity.
Qed.

(** What does make it fail: a field of the wrong type. *)
Example calculate_rejects_textual_volume :
  calculate (<["volume" := PyStr "large"]> ∅) "P20" "machined" 1 None None
  = Raise TypeError.
Proof. vm_compute. reflexivity. Qed.

End PricingFailures.

(** ** The subtotal of an order with non-negative measures *)

Section SubtotalLowerBound.

Import BudgetCalculator.
Local Open Scope Q_scope.


Ltac case_entries E :=
  apply elem_of_list_to_map_2 in E;
  repeat (apply elem_of_cons in E; destruct E as [E|E];
          [injection E as _ ->; cbn; lra|]);
  apply elem_of_nil in E; destruct E.



Lemma cad_base_ge_3000 (supplier : string) (dflt : cad_base_info) :
  3000 <= base dflt -> 3000 <= base (default dflt (CAD_MOLD_BASE_PRICES !! supplier)).
Proof.
  intros Hd.
  destruct (CAD_MOLD_BASE_PRICES !! supplier) as [info|] eqn:E; [|exact Hd].
  cbn [default]. case_entries E.
Qed.

Lemma plate_addon_ge (plate : string) : -500 <= default 0 (PLATE_MATERIAL_ADDONS !! plate).
Proof.
  destruct (PLATE_MATERIAL_ADDONS !! plate) as [addon|] eqn:E;
    cbn [from_option id]; [|lra].
  case_entries E.
Qed.





End SubtotalLowerBound.

(** ** Price per piece against quantity *)

Section PricePerPiece.

Import BudgetCalculator.
Local Open Scope Q_scope.






End PricePerPiece.

Section PricePerPieceOfCalculate.

Import BudgetCalculator.
Local Open Scope Q_scope.




End PricePerPieceOfCalculate.

(** ** The geometry analyzer *)

Section AnalyzerProperties.

Import GeometryAnalyzer.
Local Open Scope Q_scope.

Variable sqrtQ : Q -> Q.

Lemma max2_ge_l (a b : Q) : a <= max2 a b.
Proof.
  unfold max2. destruct (Qltb a b) eqn:E.
  - apply Qltb_lt in E. lra.
  - lra.
Qed.

Lemma min2_le_l (a b : Q) : min2 a b <= a.
Proof.
  unfold min2. destruct (Qltb b a) eqn:E.
  - apply Qltb_lt in E. lra.
  - lra.
Qed.

Lemma max_list_ge (l : list Q) (x : Q) : x <= max_list x l.
Proof.
  unfold max_list. revert x.
  induction l as [|y l IH]; intros x; cbn [fold_left].
  - lra.
  - apply Qle_trans with (max2 x y); [apply max2_ge_l | apply IH].
Qed.

Lemma min_list_le (l : list Q) (x : Q) : min_list x l <= x.
Proof.
  unfold min_list. revert x.
  induction l as [|y l IH]; intros x; cbn [fold_left].
  - lra.
  - apply Qle_trans with (min2 x y); [apply IH | apply min2_le_l].
Qed.

Lemma min_list_le_max_list (l : list Q) (x : Q) : min_list x l <= max_list x l.
Proof.
  apply Qle_trans with x; [apply min_list_le | apply max_list_ge].
Qed.

(** [mapM] in the exception monad returns exactly when every call does. *)
Lemma mapM_Ok {A B} (f : A -> exn B) (l : list A) (ys : list B) :
  mapM f l = Ok ys <-> Forall2 (fun x y => f x = Ok y) l ys.
Proof.
  revert ys. induction l as [|x l IH]; intros ys; cbn [mapM].
  - split.
    + intros H. injection H as <-. constructor.
    + intros H. inversion H. reflexivity.
  - split.
    + intros H. destruct (f x) as [y|e] eqn:Ef; [|discriminate H].
      cbn [mbind exn_bind] in H.
      destruct (mapM f l) as [k|e] eqn:Ek; [|discriminate H].
      cbn [mbind exn_bind mret exn_ret] in H. injection H as <-.
      constructor; [exact Ef | apply IH; reflexivity].
    + intros H. inversion H as [|x' y l' k Ef Hk]; subst.
      rewrite Ef. cbn [mbind exn_bind].
      apply IH in Hk. rewrite Hk. reflexivity.
Qed.

Lemma mapM_succeeds {A B} (f : A -> exn B) (l : list A) :
  Forall (fun x => exists y, f x = Ok y) l -> exists ys, mapM f l = Ok ys.
Proof.
  induction 1 as [|x l [y Hy] _ [ys IH]].
  - exists []. reflexivity.
  - exists (y :: ys). apply mapM_Ok. constructor; [exact Hy | apply mapM_Ok, IH].
Qed.

Lemma index_in_range {A} (l : list A) (i : nat) :
  (i < length l)%nat -> exists a, index l i = Ok a.
Proof.
  intros H. unfold index.
  destruct (lookup_lt_is_Some_2 l i H) as [a Ha].
  exists a. rewrite Ha. reflexivity.
Qed.

(** The aspect ratio of a face whose indices are in range is computed,
    and is at least 1. *)
Lemma aspect_ratio_in_range (m : Trimesh) (face : nat * nat * nat) :
  face_in_range m face ->
  exists a, aspect_ratio_of sqrtQ m face = Ok a /\ 1 <= a.
Proof.
  destruct face as [[i j] k]. intros (Hi & Hj & Hk).
  unfold aspect_ratio_of, vertices_of.
  destruct (index_in_range _ _ Hi) as [v0 ->].
  destruct (index_in_range _ _ Hj) as [v1 ->].
  destruct (index_in_range _ _ Hk) as [v2 ->].
  cbn [mbind exn_bind mret exn_ret].
  destruct (edges_of sqrtQ (v0, v1, v2)) as [[e0 e1] e2].
  eexists. split; [reflexivity|].
  pose proof (min_list_le_max_list [e1; e2] e0) as Hle.
  destruct (Qgtb (min_list e0 [e1; e2]) 0) eqn:E; [|lra].
  apply Qgtb_gt in E.
  apply Qle_shift_div_l; [exact E | lra].
Qed.

Lemma sum_list_ge (l : list Q) :
  Forall (fun a => 1 <= a) l -> inject_Z (Z.of_nat (length l)) <= sum_list l.
Proof.
  induction 1 as [|a l Ha _ IH].
  - apply Qle_refl.
  - cbn [length sum_list fold_right].
    rewrite Nat2Z.inj_succ. unfold Z.succ. rewrite inject_Z_plus.
    fold (sum_list l). change (inject_Z 1) with 1. lra.
Qed.

Lemma mean_ge_1 (l : list Q) :
  l <> [] -> Forall (fun a => 1 <= a) l -> 1 <= mean l.
Proof.
  intros Hne Hall. unfold mean.
  assert (Hlen : 0 < inject_Z (Z.of_nat (length l))).
  { change 0 with (inject_Z 0). rewrite <- Zlt_Qlt. destruct l; [congruence|cbn; lia]. }
  apply Qle_shift_div_l; [exact Hlen|].
  pose proof (sum_list_ge l Hall). lra.
Qed.

Lemma avg_aspect_ratio_in_range (m : Trimesh) :
  faces_in_range m ->
  exists avg, avg_aspect_ratio_of sqrtQ m = Ok avg /\ 1 <= avg.
Proof.
  intros Hr. unfold avg_aspect_ratio_of.
  assert (H : exists ratios, mapM (aspect_ratio_of sqrtQ m) (faces m) = Ok ratios /\
                             Forall (fun a => 1 <= a) ratios).
  { unfold faces_in_range in Hr.
    induction Hr as [|face l Hf _ (ratios & Hm & Hall)].
    - exists []. split; [reflexivity | constructor].
    - destruct (aspect_ratio_in_range m face Hf) as (a & Ha & Ha1).
      exists (a :: ratios). split; [|constructor; assumption].
      apply mapM_Ok. constructor; [exact Ha | apply mapM_Ok, Hm]. }
  destruct H as (ratios & -> & Hall).
  cbn [mbind exn_bind mret exn_ret].
  eexists. split; [reflexivity|].
  destruct ratios as [|a ratios]; [lra|].
  apply mean_ge_1; [discriminate | exact Hall].
Qed.

Lemma compactness_le_1 (d : Dimensions) : compactness_of d <= 1.
Proof.
  unfold compactness_of.
  set (x := hd 0 (values d)). set (l := tail (values d)).
  pose proof (min_list_le_max_list l x) as Hle.
  destruct (Qgtb (max_list x l) 0) eqn:E; [|lra].
  apply Qgtb_gt in E.
  apply Qle_shift_div_r; [exact E | lra].
Qed.

(** On a non-negative sum, capping at 100 is clamping to [0, 100]. *)
Lemma min2_100_clamp (x : Q) : 0 <= x -> min2 100 x == clamp 0 100 x.
Proof.
  intros H. unfold min2, clamp.
  destruct (Qltb x 0) eqn:E0; [apply Qltb_lt in E0; lra|].
  destruct (Qltb x 100) eqn:E1; destruct (Qltb 100 x) eqn:E2;
    try reflexivity.
  - apply Qltb_lt in E1. apply Qltb_lt in E2. lra.
  - apply Qltb_ge in E1. apply Qltb_ge in E2. lra.
Qed.

Lemma min2_100_le (x : Q) : min2 100 x <= 100.
Proof. apply min2_le_l. Qed.

Lemma min2_100_nonneg (x : Q) : 0 <= x -> 0 <= min2 100 x.
Proof.
  intros H. unfold min2. destruct (Qltb x 100); lra.
Qed.

(** With neighbour lists in range the curvature estimate is computed. *)
Lemma analyze_curvature_computed (m : Trimesh) :
  neighbors_in_range m -> exists c, _analyze_curvature sqrtQ m = Computed c.
Proof.
  intros (Hlen & Hnorm & Hall). unfold _analyze_curvature.
  match goal with
  | |- context [mapM ?f ?l] => destruct (mapM_succeeds f l) as [curvatures ->]
  end.
  - apply Forall_forall. intros [i neighbors] Hin.
    apply list_elem_of_filter in Hin as [_ Hin].
    apply elem_of_lookup_imap_1 in Hin as (j & y & Heq & Hl).
    injection Heq as -> ->.
    pose proof (lookup_lt_Some _ _ _ Hl) as Hj.
    unfold vertex_curvature.
    destruct (index_in_range (vertices m) j ltac:(lia)) as [v ->].
    destruct (index_in_range (vertex_normals m) j ltac:(lia)) as [normal ->].
    cbn [mbind exn_bind].
    match goal with
    | |- context [mapM ?f ?l] => destruct (mapM_succeeds f l) as [variations ->]
    end.
    + apply Forall_take.
      eapply Forall_impl; [exact (Forall_lookup_1 _ _ _ _ Hall Hl)|].
      intros n Hn. cbn beta in Hn.
      destruct (index_in_range (vertices m) n Hn) as [vn ->].
      eexists. reflexivity.
    + eexists. reflexivity.
  - cbn [mbind exn_bind mret exn_ret try_except]. eexists. reflexivity.
Qed.

(** What a returned statistics bundle is made of. *)
Lemma analyze_inv (m : Trimesh) (r : GeometryStatistics) :
  analyze sqrtQ m = Ok r ->
  exists lo hi sx sy sz,
    bounds m = Some (lo, hi) /\
    vsub hi lo = (sx, sy, sz) /\
    dimensions r = {| width := sx; height := sy; depth := sz;
                      dim_max := max_list sx [sy; sz];
                      dim_min := min_list sx [sy; sz] |} /\
    stat_volume r = (if is_watertight m then volume m else 0.0) /\
    stat_area r = area m /\
    inertia_tensor r = _calculate_inertia m (stat_volume r) /\
    complexity_metrics r
      = _calculate_complexity sqrtQ m (stat_volume r) (stat_area r) (dimensions r) /\
    vertex_count (mesh_info r) = length (vertices m) /\
    face_count (mesh_info r) = length (faces m) /\
    (exists t, thickness_analysis r = Computed t) /\
    curvature r = _analyze_curvature sqrtQ m /\
    (exists a, manufacturing_analysis r = Computed a).
Proof.
  unfold analyze. intros H.
  destruct (bounds m) as [[lo hi]|]; [|discriminate H].
  exists lo, hi.
  destruct (vsub hi lo) as [[sx sy] sz] eqn:Es.
  exists sx, sy, sz.
  cbn [mret exn_ret] in H. injection H as <-.
  cbn [dimensions stat_volume stat_area inertia_tensor complexity_metrics
       mesh_info vertex_count face_count thickness_analysis curvature
       manufacturing_analysis].
  repeat (split; [reflexivity|]).
  split; [|split; [reflexivity|]].
  - unfold _analyze_thickness. cbn [fst snd]. rewrite Es. eexists. reflexivity.
  - unfold _analyze_manufacturing. eexists. reflexivity.
Qed.

Lemma analyze_succeeds (m : Trimesh) (b : vec3 * vec3) :
  bounds m = Some b -> exists r, analyze sqrtQ m = Ok r.
Proof.
  intros H. unfold analyze. rewrite H.
  destruct b as [lo hi]. destruct (vsub hi lo) as [[sx sy] sz].
  eexists. reflexivity.
Qed.

Lemma analyze_fails (m : Trimesh) :
  bounds m = None -> analyze sqrtQ m = Raise TypeError.
Proof.
  intros H. unfold analyze. rewrite H. reflexivity.
Qed.

End AnalyzerProperties.

Section AnalyzerClaims.

Import GeometryAnalyzer.
Local Open Scope Q_scope.

Variable sqrtQ : Q -> Q.

(** C4, as amended.  [analyze] has no check of its own on the number of
    vertices or faces, and the source has no failure of the kind
    InvalidGeometry: the call fails exactly when the mesh reports no
    bounds, the failure is the re-raised [TypeError] of subscripting
    them, and it carries no statistics.  A mesh with bounds is analysed
    to a full statistics bundle: the counts are those of the mesh, the
    thickness and manufacturing analyses are computed, and so are the
    curvature estimate, when the neighbour lists are in range, and the
    complexity metrics, when the face indices are. *)
Theorem analyze_fails_iff_no_bounds (m : Trimesh) :
  ((exists e, analyze sqrtQ m = Raise e) <-> bounds m = None) /\
  (bounds m = None -> analyze sqrtQ m = Raise TypeError) /\
  (forall e, analyze sqrtQ m = Raise e -> e = TypeError) /\
  (forall b, bounds m = Some b ->
   exists r, analyze sqrtQ m = Ok r /\
             vertex_count (mesh_info r) = length (vertices m) /\
             face_count (mesh_info r) = length (faces m) /\
             (exists t, thickness_analysis r = Computed t) /\
             (exists a, manufacturing_analysis r = Computed a) /\
             (neighbors_in_range m -> exists c, curvature r = Computed c) /\
             (faces_in_range m ->
              exists avg, avg_aspect_ratio_of sqrtQ m = Ok avg /\
                          average_aspect_ratio (complexity_metrics r) = round avg 4)).
Proof.
  split; [split|split; [|split]].
  - intros [e He].
    destruct (bounds m) as [b|] eqn:Eb; [|reflexivity].
    destruct (analyze_succeeds sqrtQ m b Eb) as [r Hr]. congruence.
  - intros Hb. exists TypeError. apply analyze_fails, Hb.
  - apply analyze_fails.
  - intros e He.
    destruct (bounds m) as [b|] eqn:Eb.
    + destruct (analyze_succeeds sqrtQ m b Eb) as [r Hr]. congruence.
    + rewrite (analyze_fails sqrtQ m Eb) in He. congruence.
  - intros b Eb.
    destruct (analyze_succeeds sqrtQ m b Eb) as [r Hr].
    exists r. split; [exact Hr|].
    destruct (analyze_inv sqrtQ m r Hr)
      as (? & ? & ? & ? & ? & _ & _ & _ & _ & _ & _ & Hcm & Hvc & Hfc & Ht & Hcu & Hma).
    repeat (split; [assumption|]). split.
    + intros Hn. rewrite Hcu. apply analyze_curvature_computed, Hn.
    + intros Hr'. destruct (avg_aspect_ratio_in_range sqrtQ m Hr') as (avg & Havg & _).
      exists avg. split; [exact Havg|].
      rewrite Hcm. unfold _calculate_complexity. rewrite Havg. reflexivity.
Qed.

(** C5.  For a mesh that is not watertight the analysis reports a volume
    of 0 and the identity matrix as inertia tensor, while the area is the
    area of the mesh; and such a mesh is analysed as soon as it has
    bounds. *)
Theorem non_watertight_volume_and_inertia (m : Trimesh) :
  is_watertight m = false ->
  (forall r, analyze sqrtQ m = Ok r ->
     stat_volume r == 0 /\
     inertia_tensor r = [[1.0; 0.0; 0.0]; [0.0; 1.0; 0.0]; [0.0; 0.0; 1.0]] /\
     stat_area r = area m) /\
  (forall b, bounds m = Some b -> exists r, analyze sqrtQ m = Ok r).
Proof.
  intros Hw. split.
  - intros r Hr.
    destruct (analyze_inv sqrtQ m r Hr)
      as (? & ? & ? & ? & ? & _ & _ & _ & Hv & Ha & Hi & _).
    rewrite Hw in Hv.
    split; [rewrite Hv; reflexivity|]. split; [|exact Ha].
    rewrite Hi, Hv. reflexivity.
  - intros b Hb. exact (analyze_succeeds sqrtQ m b Hb).
Qed.

(** C6, as amended.  For a mesh with in-range faces whose reported
    volume and area are positive, the reported complexity score is the
    clamp to [0, 100] of the weighted sum of the four guarded terms,
    rounded to 2 decimals, and it lies in [0, 100].  The source caps the
    sum at 100 only; the sum is never negative on such a mesh. *)
Theorem complexity_score_rounded_clamp (m : Trimesh) (r : GeometryStatistics) :
  analyze sqrtQ m = Ok r ->
  faces_in_range m ->
  0 < stat_volume r ->
  0 < stat_area r ->
  exists avg_aspect_ratio,
    avg_aspect_ratio_of sqrtQ m = Ok avg_aspect_ratio /\
    let surface_volume_ratio := surface_volume_ratio_of (stat_volume r) (stat_area r) in
    let compactness := compactness_of (dimensions r) in
    let triangle_density := triangle_density_of m (stat_area r) in
    surface_volume_ratio = stat_area r / stat_volume r /\
    triangle_density = inject_Z (Z.of_nat (length (faces m))) / stat_area r /\
    complexity_score (complexity_metrics r) ==
      round (clamp 0 100
               (surface_volume_ratio * 10 + (1 - compactness) * 50 +
                triangle_density * 0.001 + (avg_aspect_ratio - 1) * 10)) 2 /\
    0 <= complexity_score (complexity_metrics r) <= 100.
Proof.
  intros Hr Hrange Hvol Harea.
  destruct (analyze_inv sqrtQ m r Hr)
    as (? & ? & ? & ? & ? & _ & _ & _ & _ & _ & _ & Hcm & _).
  destruct (avg_aspect_ratio_in_range sqrtQ m Hrange) as (avg & Havg & Havg1).
  exists avg. split; [exact Havg|].
  intros svr c td.
  assert (Esvr : svr = stat_area r / stat_volume r).
  { subst svr. unfold surface_volume_ratio_of.
    apply Qgtb_gt in Hvol. rewrite Hvol. reflexivity. }
  assert (Etd : td = inject_Z (Z.of_nat (length (faces m))) / stat_area r).
  { subst td. unfold triangle_density_of.
    apply Qgtb_gt in Harea. rewrite Harea. reflexivity. }
  assert (Hsvr : 0 <= svr).
  { rewrite Esvr. apply Qle_shift_div_l; [exact Hvol | lra]. }
  assert (Htd : 0 <= td).
  { rewrite Etd. apply Qle_shift_div_l; [exact Harea|].
    assert (0 <= inject_Z (Z.of_nat (length (faces m)))).
    { change 0 with (inject_Z 0). rewrite <- Zle_Qle. lia. }
    lra. }
  assert (Hc : c <= 1) by apply compactness_le_1.
  set (total := svr * 10 + (1 - c) * 50 + td * 0.001 + (avg - 1) * 10).
  assert (Htotal : 0 <= total) by (subst total; lra).
  assert (Escore : complexity_score (complexity_metrics r) = round (min2 100 total) 2).
  { rewrite Hcm. unfold _calculate_complexity. rewrite Havg. reflexivity. }
  split; [exact Esvr|]. split; [exact Etd|]. split.
  - rewrite Escore. apply round_comp. apply min2_100_clamp, Htotal.
  - rewrite Escore. split.
    + apply round_nonneg, min2_100_nonneg, Htotal.
    + apply round_le_100, min2_100_le.
Qed.

Lemma get_difficulty_rating_thresholds (score : Q) :
  (score < 25 -> _get_difficulty_rating score = "Baixa") /\
  (25 <= score < 50 -> _get_difficulty_rating score = "Média") /\
  (50 <= score < 75 -> _get_difficulty_rating score = "Alta") /\
  (75 <= score -> _get_difficulty_rating score = "Muito Alta").
Proof.
  unfold _get_difficulty_rating.
  destruct (Qltb score 25) eqn:E25;
    [apply Qltb_lt in E25 | apply Qltb_ge in E25];
  (destruct (Qltb score 50) eqn:E50;
    [apply Qltb_lt in E50 | apply Qltb_ge in E50]);
  (destruct (Qltb score 75) eqn:E75;
    [apply Qltb_lt in E75 | apply Qltb_ge in E75]);
  repeat split; intros; try reflexivity; exfalso; lra.
Qed.

(** C7, as amended.  For every analysis of a mesh whose face indices
    are in range, the difficulty rating is a function, by the fixed
    thresholds 25, 50 and 75, of the complexity score as computed, before
    it is rounded to 2 decimals for the report: Low ("Baixa") below 25,
    Medium ("Média") from 25 to below 50, High ("Alta") from 50 to below
    75, VeryHigh ("Muito Alta") from 75 on, so that scores of exactly 25,
    50 and 75 rate Medium, High and VeryHigh.  The reported score is that
    score rounded. *)
Theorem difficulty_rating_of_unrounded_score (m : Trimesh) (r : GeometryStatistics) :
  analyze sqrtQ m = Ok r ->
  faces_in_range m ->
  (exists avg_aspect_ratio score,
     avg_aspect_ratio_of sqrtQ m = Ok avg_aspect_ratio /\
     score = complexity_score_of
               (surface_volume_ratio_of (stat_volume r) (stat_area r))
               (compactness_of (dimensions r))
               (triangle_density_of m (stat_area r))
               avg_aspect_ratio /\
     complexity_score (complexity_metrics r) = round score 2 /\
     difficulty_rating (complexity_metrics r) = _get_difficulty_rating score) /\
  (forall score : Q,
     (score < 25 -> _get_difficulty_rating score = "Baixa") /\
     (25 <= score < 50 -> _get_difficulty_rating score = "Média") /\
     (50 <= score < 75 -> _get_difficulty_rating score = "Alta") /\
     (75 <= score -> _get_difficulty_rating score = "Muito Alta")) /\
  _get_difficulty_rating 25 = "Média" /\
  _get_difficulty_rating 50 = "Alta" /\
  _get_difficulty_rating 75 = "Muito Alta".
Proof.
  intros Hr Hrange.
  destruct (analyze_inv sqrtQ m r Hr)
    as (? & ? & ? & ? & ? & _ & _ & _ & _ & _ & _ & Hcm & _).
  destruct (avg_aspect_ratio_in_range sqrtQ m Hrange) as (avg & Havg & _).
  split; [|split; [exact get_difficulty_rating_thresholds | repeat split; reflexivity]].
  rewrite Hcm. unfold _calculate_complexity. rewrite Havg.
  exists avg. eexists. repeat split; reflexivity.
Qed.

End AnalyzerClaims.

(** ** The analyzer on concrete meshes *)

Section AnalyzerExamples.

Import GeometryAnalyzer Examples.
Local Open Scope Q_scope.

Lemma cube_faces_in_range (s : Q) : faces_in_range (cube s).
Proof.
  unfold faces_in_range. cbn [faces cube].
  repeat constructor; cbn; lia.
Qed.

(** The analysis of a cube, without evaluating the sub-analyses that
    play no part below. *)
Lemma cube_analysis (s : Q) :
  exists r,
    analyze sqrt12 (cube s) = Ok r /\
    stat_volume r = s * s * s /\
    stat_area r = 6 * s * s /\
    dimensions r = {| width := s - 0; height := s - 0; depth := s - 0;
                      dim_max := max_list (s - 0) [s - 0; s - 0];
                      dim_min := min_list (s - 0) [s - 0; s - 0] |} /\
    complexity_metrics r
      = _calculate_complexity sqrt12 (cube s) (stat_volume r) (stat_area r) (dimensions r).
Proof.
  destruct (analyze_succeeds sqrt12 (cube s) _ eq_refl) as [r Hr].
  exists r. split; [exact Hr|].
  destruct (analyze_inv sqrt12 (cube s) r Hr)
    as (lo & hi & sx & sy & sz & Hb & Hs & Hd & Hv & Ha & _ & Hcm & _).
  cbn [bounds cube] in Hb. injection Hb as <- <-.
  cbn [vsub] in Hs. injection Hs as <- <- <-.
  repeat split; assumption.
Qed.

Lemma cube_neighbors_in_range (s : Q) : neighbors_in_range (cube s).
Proof.
  unfold neighbors_in_range. cbn [vertex_neighbors vertices vertex_normals cube length].
  split; [lia|]. split; [lia|].
  repeat constructor; lia.
Qed.

Lemma analyze_fails_iff_no_bounds_witness :
  bounds (cube 10) = Some ((0, 0, 0), (10, 10, 10)) /\
  (exists r, analyze sqrt12 (cube 10) = Ok r /\
             vertex_count (mesh_info r) = 8%nat /\
             face_count (mesh_info r) = 12%nat /\
             (exists t, thickness_analysis r = Computed t) /\
             (exists a, manufacturing_analysis r = Computed a) /\
             (exists c, curvature r = Computed c)) /\
  bounds empty_mesh = None /\
  (exists e, analyze sqrt12 empty_mesh = Raise e).
Proof.
  split; [reflexivity|]. split.
  - destruct (analyze_fails_iff_no_bounds sqrt12 (cube 10)) as (_ & _ & _ & Hok).
    destruct (Hok _ eq_refl) as (r & Hr & Hvc & Hfc & Ht & Hma & Hcu & _).
    exists r. split; [exact Hr|]. split; [exact Hvc|]. split; [exact Hfc|].
    split; [exact Ht|]. split; [exact Hma|].
    apply Hcu, cube_neighbors_in_range.
  - split; [reflexivity|].
    destruct (analyze_fails_iff_no_bounds sqrt12 empty_mesh) as (Hiff & _).
    apply Hiff. reflexivity.
Defined.

(** C4 as first stated fails: the mesh without vertices and faces is
    refused, but what the call raises is Python's [TypeError], from the
    subscript on the absent bounds; no exception class of the source
    stands for invalid geometry. *)
Lemma analyze_empty_mesh_raises_type_error :
  length (vertices empty_mesh) = 0%nat /\
  length (faces empty_mesh) = 0%nat /\
  bounds empty_mesh = None /\
  analyze sqrt12 empty_mesh = Raise TypeError /\
  (forall e, analyze sqrt12 empty_mesh = Raise e -> e = TypeError).
Proof.
  split; [reflexivity|]. split; [reflexivity|]. split; [reflexivity|].
  split; [reflexivity|].
  intros e H. injection H as <-. reflexivity.
Qed.

Lemma non_watertight_volume_and_inertia_witness :
  is_watertight open_square = false /\
  exists r, analyze sqrt12 open_square = Ok r /\
            stat_volume r == 0 /\
            inertia_tensor r = [[1.0; 0.0; 0.0]; [0.0; 1.0; 0.0]; [0.0; 0.0; 1.0]] /\
            stat_area r = 1.
Proof.
  split; [reflexivity|].
  pose proof (non_watertight_volume_and_inertia sqrt12 open_square eq_refl) as [Hall Hex].
  destruct (Hex _ eq_refl) as [r Hr].
  exists r. split; [exact Hr|]. exact (Hall r Hr).
Defined.

Lemma complexity_score_rounded_clamp_witness :
  exists r,
    analyze sqrt12 (cube 10) = Ok r /\
    faces_in_range (cube 10) /\
    0 < stat_volume r /\
    0 < stat_area r /\
    0 <= complexity_score (complexity_metrics r) <= 100.
Proof.
  destruct (cube_analysis 10) as (r & Hr & Ev & Ea & _).
  assert (Hv : 0 < stat_volume r) by (rewrite Ev; reflexivity).
  assert (Ha : 0 < stat_area r) by (rewrite Ea; reflexivity).
  exists r. split; [exact Hr|]. split; [apply cube_faces_in_range|].
  split; [exact Hv|]. split; [exact Ha|].
  destruct (complexity_score_rounded_clamp sqrt12 (cube 10) r Hr
              (cube_faces_in_range 10) Hv Ha) as (avg & _ & H).
  apply H.
Defined.

(** C6 as first stated fails: on the cube of side 2.877 the clamped sum
    lies strictly between 24.997 and 24.998, and the score reported is 25. *)
Lemma reported_score_is_not_the_clamp :
  exists r avg_aspect_ratio,
    analyze sqrt12 (cube 2.877) = Ok r /\
    0 < stat_volume r /\
    0 < stat_area r /\
    avg_aspect_ratio_of sqrt12 (cube 2.877) = Ok avg_aspect_ratio /\
    let clamped :=
      clamp 0 100
        (surface_volume_ratio_of (stat_volume r) (stat_area r) * 10 +
         (1 - compactness_of (dimensions r)) * 50 +
         triangle_density_of (cube 2.877) (stat_area r) * 0.001 +
         (avg_aspect_ratio - 1) * 10) in
    24.997 < clamped < 24.998 /\
    complexity_score (complexity_metrics r) == 25 /\
    ~ complexity_score (complexity_metrics r) == clamped.
Proof.
  destruct (cube_analysis 2.877) as (r & Hr & Ev & Ea & Ed & Ecm).
  exists r. eexists.
  split; [exact Hr|].
  split; [rewrite Ev; reflexivity|].
  split; [rewrite Ea; reflexivity|].
  split; [vm_compute; reflexivity|].
  cbv zeta. rewrite Ecm, Ed, Ev, Ea.
  split; [split; vm_compute; reflexivity|].
  split; [vm_compute; reflexivity|].
  vm_compute. intros H. discriminate H.
Qed.

Lemma difficulty_rating_of_unrounded_score_witness :
  exists r,
    analyze sqrt12 (cube 10) = Ok r /\
    faces_in_range (cube 10) /\
    exists avg_aspect_ratio score,
      avg_aspect_ratio_of sqrt12 (cube 10) = Ok avg_aspect_ratio /\
      score = complexity_score_of
                (surface_volume_ratio_of (stat_volume r) (stat_area r))
                (compactness_of (dimensions r))
                (triangle_density_of (cube 10) (stat_area r))
                avg_aspect_ratio /\
      complexity_score (complexity_metrics r) = round score 2 /\
      difficulty_rating (complexity_metrics r) = _get_difficulty_rating score.
Proof.
  destruct (cube_analysis 10) as (r & Hr & _).
  exists r. split; [exact Hr|]. split; [apply cube_faces_in_range|].
  exact (proj1 (difficulty_rating_of_unrounded_score sqrt12 (cube 10) r Hr
                  (cube_faces_in_range 10))).
Defined.

(** C7 as first stated fails: the cube of side 2.877 is reported with a
    score of exactly 25 and rated Low ("Baixa"), whereas the thresholds
    applied to the reported score give Medium ("Média"). *)
Lemma reported_25_rated_low :
  exists r,
    analyze sqrt12 (cube 2.877) = Ok r /\
    complexity_score (complexity_metrics r) == 25 /\
    difficulty_rating (complexity_metrics r) = "Baixa" /\
    _get_difficulty_rating (complexity_score (complexity_metrics r)) = "Média" /\
    difficulty_rating (complexity_metrics r)
      <> _get_difficulty_rating (complexity_score (complexity_metrics r)).
Proof.
  destruct (cube_analysis 2.877) as (r & Hr & Ev & Ea & Ed & Ecm).
  exists r.
  split; [exact Hr|].
  rewrite Ecm, Ed, Ev, Ea.
  split; [vm_compute; reflexivity|].
  split; [vm_compute; reflexivity|].
  split; [vm_compute; reflexivity|].
  vm_compute. intros H. discriminate H.
Qed.

End AnalyzerExamples.


(** * The pricing paths in double precision: properties *)

(** ** The total of the detailed calculator *)

Section DoublePrecisionCalculator.

Import Binary64.Float Binary64.Values Binary64.BudgetCalculator Binary64Notions.

Lemma calculate_inv64 stats material finish quantity mold_base_config cad_base_config b :
  calculate stats material finish quantity mold_base_config cad_base_config = Ok b ->
  exists mold_base : float,
    to_float (mold_base_cost b) = Ok mold_base /\
    _calculate_material_cost (dict_get stats "volume" (VInt 100)) material
      = Ok (material_cost b) /\
    _calculate_processing_cost (dict_get stats "volume" (VInt 100)) material finish
        (dict_get stats "complexity_metrics" (VDict ∅))
        (dict_get stats "manufacturing_analysis" (VDict ∅))
      = Ok (processing_cost b) /\
    _calculate_mold_base_cost mold_base_config cad_base_config = Ok (mold_base_cost b) /\
    setup_fee b = _calculate_setup_fee mold_base_config /\
    discount b = _calculate_discount quantity /\
    let subtotal :=
      subtotal_of (material_cost b) (processing_cost b) mold_base (setup_fee b) in
    total_price b = round (sub subtotal (mul subtotal (discount b))) 2 /\
    final_price b = total_price b /\
    bd_material_cost (breakdown b) = round (material_cost b) 2 /\
    bd_processing_cost (breakdown b) = round (processing_cost b) 2 /\
    bd_mold_base_cost (breakdown b) = num_round (mold_base_cost b) 2 /\
    bd_setup_fee (breakdown b) = round (setup_fee b) 2 /\
    bd_subtotal (breakdown b) = round subtotal 2 /\
    bd_discount_amount (breakdown b) = round (mul subtotal (discount b)) 2 /\
    bd_quantity (breakdown b) = quantity /\
    ((quantity <= 0)%Z -> bd_price_per_piece (breakdown b) = Int 0) /\
    ((0 < quantity)%Z ->
     exists per_piece,
       div_int (total_price b) quantity = Ok per_piece /\
       bd_price_per_piece (breakdown b) = Flt (round per_piece 2)).
Proof.
  unfold calculate. intros H.
  destruct (_calculate_material_cost _ _) as [mc|e]; [|discriminate H].
  destruct (_calculate_processing_cost _ _ _ _ _) as [pc|e]; [|discriminate H].
  destruct (_calculate_mold_base_cost _ _) as [mb|e]; [|discriminate H].
  cbn [mbind exn_bind] in H.
  destruct (to_float mb) as [mbf|e] eqn:Emb; [|discriminate H].
  cbn [mbind exn_bind] in H.
  exists mbf.
  destruct (Z.gtb_spec quantity 0) as [Hq|Hq].
  - destruct (div_int _ quantity) as [pp|e] eqn:Epp; [|discriminate H].
    cbn [mbind exn_bind mret exn_ret] in H.
    destruct (get _ _ _) as [recs|e]; [|discriminate H].
    cbn [mbind exn_bind mret exn_ret] in H.
    injection H as <-. unfold subtotal_of.
    cbn [total_price breakdown material_cost processing_cost mold_base_cost setup_fee
         discount final_price bd_material_cost bd_processing_cost bd_mold_base_cost
         bd_setup_fee bd_subtotal bd_discount_amount bd_quantity bd_price_per_piece].
    split; [exact Emb|].
    repeat (split; [reflexivity|]). split; [intros; lia|].
    intros _. exists pp. split; [exact Epp | reflexivity].
  - cbn [mbind exn_bind mret exn_ret] in H.
    destruct (get _ _ _) as [recs|e]; [|discriminate H].
    cbn [mbind exn_bind mret exn_ret] in H.
    injection H as <-. unfold subtotal_of.
    cbn [total_price breakdown material_cost processing_cost mold_base_cost setup_fee
         discount final_price bd_material_cost bd_processing_cost bd_mold_base_cost
         bd_setup_fee bd_subtotal bd_discount_amount bd_quantity bd_price_per_piece].
    split; [exact Emb|].
    repeat (split; [reflexivity|]).
    try (split; [intros _; reflexivity|]).
    intros Hq'. lia.
Qed.

(** C1, as amended.  Whenever the detailed calculator returns, the total
    it returns is [subtotal − subtotal × discount_rate] rounded to 2
    decimals, every operation in double precision as the source writes
    it; the subtotal is the sum, from left to right, of the four
    components, and the discount the rate of the quantity's tier.  The
    components come back unrounded, exactly as the helpers computed
    them: rounding is applied to the total and to the entries of the
    breakdown only.  The price per piece is the rounded total divided by
    the quantity and rounded again when the quantity is positive, and
    the int 0 otherwise. *)
Theorem total_price_is_rounded_difference
    stats material finish quantity mold_base_config cad_base_config b :
  calculate stats material finish quantity mold_base_config cad_base_config = Ok b ->
  exists mold_base : float,
    to_float (mold_base_cost b) = Ok mold_base /\
    let subtotal :=
      add (add (add (material_cost b) (processing_cost b)) mold_base) (setup_fee b) in
    discount b = _calculate_discount quantity /\
    total_price b = round (sub subtotal (mul subtotal (discount b))) 2 /\
    final_price b = total_price b /\
    _calculate_material_cost (dict_get stats "volume" (VInt 100)) material
      = Ok (material_cost b) /\
    _calculate_processing_cost (dict_get stats "volume" (VInt 100)) material finish
        (dict_get stats "complexity_metrics" (VDict ∅))
        (dict_get stats "manufacturing_analysis" (VDict ∅))
      = Ok (processing_cost b) /\
    _calculate_mold_base_cost mold_base_config cad_base_config = Ok (mold_base_cost b) /\
    setup_fee b = _calculate_setup_fee mold_base_config /\
    bd_material_cost (breakdown b) = round (material_cost b) 2 /\
    bd_processing_cost (breakdown b) = round (processing_cost b) 2 /\
    bd_mold_base_cost (breakdown b) = num_round (mold_base_cost b) 2 /\
    bd_setup_fee (breakdown b) = round (setup_fee b) 2 /\
    bd_subtotal (breakdown b) = round subtotal 2 /\
    bd_discount_amount (breakdown b) = round (mul subtotal (discount b)) 2 /\
    ((quantity <= 0)%Z -> bd_price_per_piece (breakdown b) = Int 0) /\
    ((0 < quantity)%Z ->
     exists per_piece,
       div_int (total_price b) quantity = Ok per_piece /\
       bd_price_per_piece (breakdown b) = Flt (round per_piece 2)).
Proof.
  intros H.
  destruct (calculate_inv64 _ _ _ _ _ _ _ H)
    as (mold_base & Hmb & Hmc & Hpc & Hmbc & Hsf & Hd & Ht & Hf & Hbm & Hbp & Hbb & Hbs
        & Hs & Hda & _ & Hz & Hp).
  exists mold_base. split; [exact Hmb|].
  unfold subtotal_of in Ht, Hs, Hda. cbv zeta in *.
  repeat (split; [assumption|]). exact Hp.
Qed.

Lemma total_price_is_rounded_difference_witness :
  exists b,
    calculate (<["volume" := VInt 1000]> ∅) "P20" "machined" 50 None None = Ok b /\
    total_price b
    = round (sub (add (add (add (material_cost b) (processing_cost b)) (literal 3000))
                      (setup_fee b))
                 (mul (add (add (add (material_cost b) (processing_cost b)) (literal 3000))
                           (setup_fee b))
                      (discount b))) 2 /\
    (exists per_piece,
       div_int (total_price b) 50 = Ok per_piece /\
       bd_price_per_piece (breakdown b) = Flt (round per_piece 2)) /\
    total_price b = literal 7735.5.
Proof.
  assert (H : exists b,
    calculate (<["volume" := VInt 1000]> ∅) "P20" "machined" 50 None None = Ok b).
  { eexists. vm_compute. reflexivity. }
  destruct H as (b & H). exists b. split; [exact H|].
  destruct (total_price_is_rounded_difference _ _ _ _ _ _ b H)
    as (mold_base & Hmb & _ & Ht & _ & _ & _ & Hmbc & _ & _ & _ & _ & _ & _ & _ & _ & Hp).
  assert (E : mold_base = literal 3000).
  { assert (E0 : _calculate_mold_base_cost None None = Ok (Int 3000)) by reflexivity.
    rewrite E0 in Hmbc. injection Hmbc as Hmbc. rewrite <- Hmbc in Hmb.
    assert (E1 : to_float (Int 3000) = Ok (literal 3000)) by (vm_compute; reflexivity).
    rewrite E1 in Hmb. injection Hmb as <-. reflexivity. }
  rewrite E in Ht. split; [exact Ht|].
  split; [apply Hp; lia|].
  assert (Hb : exists b',
    calculate (<["volume" := VInt 1000]> ∅) "P20" "machined" 50 None None = Ok b' /\
    total_price b' = literal 7735.5).
  { eexists. split; vm_compute; reflexivity. }
  destruct Hb as (b' & Hb' & Hv). rewrite H in Hb'. injection Hb' as <-. exact Hv.
Defined.

(** C1 as first stated fails: for a part of 190 cm³ in H13, 50 pieces,
    the subtotal is 6909.35 and the total returned is 6218.41, whereas
    [subtotal × (1 − discount_rate)] rounded to 2 decimals is 6218.42,
    be the product taken in double precision or exactly. *)
Lemma total_price_is_not_the_rounded_product :
  exists b subtotal,
    calculate (<["volume" := VInt 190]> ∅) "H13" "machined" 50 None None = Ok b /\
    mold_base_cost b = Int 3000 /\
    subtotal = add (add (add (material_cost b) (processing_cost b)) (literal 3000))
                   (setup_fee b) /\
    subtotal = literal 6909.35 /\
    discount b = literal 0.10 /\
    total_price b = literal 6218.41 /\
    round (mul subtotal (sub (literal 1) (discount b))) 2 = literal 6218.42 /\
    (Py.round (to_Q subtotal * (1 - to_Q (discount b))) 2 == 6218.42)%Q /\
    (Py.round (to_Q subtotal * (1 - 0.10)) 2 == 6218.42)%Q /\
    total_price b <> round (mul subtotal (sub (literal 1) (discount b))) 2.
Proof.
  eexists. eexists.
  split; [vm_compute; reflexivity|].
  split; [reflexivity|].
  split; [reflexivity|].
  split; [vm_compute; reflexivity|].
  split; [vm_compute; reflexivity|].
  split; [vm_compute; reflexivity|].
  split; [vm_compute; reflexivity|].
  split; [vm_compute; reflexivity|].
  split; [vm_compute; reflexivity|].
  vm_compute. intros H. discriminate H.
Qed.

(** A tie of the exact value: for 1 cm³ of 718, 50 pieces, the subtotal
    is 6462.25 and the total returned 5816.02. *)
Example total_of_a_small_order :
  exists b,
    calculate (<["volume" := VInt 1]> ∅) "718" "machined" 50 None None = Ok b /\
    bd_subtotal (breakdown b) = literal 6462.25 /\
    total_price b = literal 5816.02.
Proof.
  eexists. split; [vm_compute; reflexivity|]. split; vm_compute; reflexivity.
Qed.

End DoublePrecisionCalculator.

(** ** When the detailed calculator fails, in double precision *)

Section DoublePrecisionFailures.

Import Binary64.Float Binary64.Values Binary64.BudgetCalculator Binary64Notions.

(** Replace every lookup of a catalog at a literal key by its entry. *)
Ltac eval_catalog :=
  repeat match goal with
  | |- context [getitem ?table ?key] =>
      let entry := eval vm_compute in (getitem table key) in
      change (getitem table key) with entry
  end.

Lemma div_int_60 (x : float) : div_int x 60 = Ok (SFdiv prec emax x (literal 60)).
Proof.
  unfold div_int.
  assert (E : of_int 60 = Ok (literal 60)) by (vm_compute; reflexivity).
  rewrite E. reflexivity.
Qed.

Lemma times_float_succeeds (volume : value) (x : float) :
  succeeds (times_float volume x) = converts volume.
Proof.
  unfold times_float, converts.
  destruct (as_num volume) as [n|e]; [|reflexivity].
  cbn [mbind exn_bind]. destruct (to_float n); reflexivity.
Qed.

Lemma material_cost_succeeds64 (volume : value) (material : string) :
  succeeds (_calculate_material_cost volume material) = converts volume.
Proof.
  unfold _calculate_material_cost. eval_catalog. cbn [mbind exn_bind].
  rewrite <- (times_float_succeeds volume (literal 1.15)).
  destruct (times_float volume (literal 1.15)); reflexivity.
Qed.

Lemma succeeds_bind64 {A B} (m : exn A) (f : A -> exn B) :
  succeeds (m ≫= f) = match m with Ok a => succeeds (f a) | Raise _ => false end.
Proof. destruct m; reflexivity. Qed.

Lemma processing_cost_succeeds64 (volume : value) (material finish : string)
    (complexity manufacturing : value) :
  succeeds (_calculate_processing_cost volume material finish complexity manufacturing)
  = match complexity with
    | VDict c => has_fiftieth (dict_get c "complexity_score" (VInt 50))
    | _ => false
    end && converts volume.
Proof.
  unfold _calculate_processing_cost. eval_catalog.
  destruct complexity as [| | | | | |c]; try reflexivity.
  cbn [get mbind exn_bind]. unfold dict_get, has_fiftieth, over_int.
  destruct (as_num (default (VInt 50) (c !! "complexity_score"))) as [n|e];
    [|reflexivity].
  cbn [mbind exn_bind].
  destruct (num_truediv n (Int 50)) as [cf|e]; [|reflexivity].
  cbn [mbind exn_bind succeeds andb].
  pose proof (times_float_succeeds volume (literal 0.5)) as H1.
  pose proof (times_float_succeeds volume (literal 0.2)) as H2.
  pose proof (times_float_succeeds volume (literal 0.1)) as H3.
  destruct (times_float volume (literal 0.5)) as [v1|e]; cbn [succeeds] in H1;
    rewrite <- H1 in *; [|reflexivity].
  destruct (times_float volume (literal 0.1)) as [v3|e]; [|discriminate H3].
  destruct (times_float volume (literal 0.2)) as [v2|e]; [|discriminate H2].
  cbn [mbind exn_bind]. rewrite !div_int_60.
  repeat match goal with
  | |- context [if ?c then _ else _] => destruct c
  end; reflexivity.
Qed.

Lemma as_num_value_of_num (n : num) : as_num (value_of_num n) = Ok n.
Proof. destruct n; reflexivity. Qed.

Lemma num_add_float (a : num) (x : float) :
  succeeds (to_float a) = true ->
  exists f, num_add a (Flt x) = Ok (Flt f).
Proof.
  intros H. unfold num_add. destruct a as [z|f]; cbn [to_float] in *.
  - destruct (of_int z) as [y|e]; [|discriminate H]. eexists. reflexivity.
  - eexists. reflexivity.
Qed.

(** The ints of the CAD catalogs convert. *)
Lemma cad_ints_convert (supplier plate_material : value)
    (hasco base_info : cad_base_info) (addon : Z) :
  getitem CAD_MOLD_BASE_PRICES "HASCO Standard" = Ok hasco ->
  table_get CAD_MOLD_BASE_PRICES supplier hasco = Ok base_info ->
  table_get PLATE_MATERIAL_ADDONS plate_material 0%Z = Ok addon ->
  succeeds (of_int (0 + base base_info + addon)) = true.
Proof.
  intros Hh Hb Ha. vm_compute in Hh. injection Hh as <-.
  assert (Hbase : In (base base_info) [3500; 4500; 3200; 4200; 3000; 4000]%Z).
  { destruct supplier; cbn [table_get] in Hb; try discriminate Hb;
      injection Hb as <-; try (cbn; tauto).
    destruct (CAD_MOLD_BASE_PRICES !! s) as [info|] eqn:E; cbn [default from_option id];
      [|cbn; tauto].
    apply elem_of_list_to_map_2 in E.
    repeat (apply elem_of_cons in E; destruct E as [E|E];
            [injection E as _ ->; cbn; tauto|]).
    apply elem_of_nil in E. destruct E. }
  assert (Haddon : In addon [0; 200; 350; 800; -500; 1200]%Z).
  { destruct plate_material; cbn [table_get] in Ha; try discriminate Ha;
      injection Ha as <-; try (cbn; tauto).
    destruct (PLATE_MATERIAL_ADDONS !! s) as [ad|] eqn:E; cbn [default from_option id];
      [|cbn; tauto].
    apply elem_of_list_to_map_2 in E.
    repeat (apply elem_of_cons in E; destruct E as [E|E];
            [injection E as _ ->; cbn; tauto|]).
    apply elem_of_nil in E. destruct E. }
  cbn [In] in Hbase, Haddon.
  repeat (destruct Hbase as [<-|Hbase]); try (destruct Hbase);
    repeat (destruct Haddon as [<-|Haddon]); try (destruct Haddon);
    vm_compute; reflexivity.
Qed.

Lemma mold_base_cost_succeeds64 (mold_base_config cad_base_config : option (gmap string value)) :
  match _calculate_mold_base_cost mold_base_config cad_base_config with
  | Ok cost =>
      config_ok mold_base_config cad_base_config = true /\ succeeds (to_float cost) = true
  | Raise _ => config_ok mold_base_config cad_base_config = false
  end.
Proof.
  unfold _calculate_mold_base_cost, config_ok.
  destruct (config_truthy cad_base_config).
  - destruct (getitem CAD_MOLD_BASE_PRICES "HASCO Standard") as [hasco|] eqn:Eh;
      [|vm_compute in Eh; discriminate Eh].
    cbn [mbind exn_bind].
    set (supplier := dict_get _ "supplier" _).
    set (plate := dict_get _ "plateMaterial" _).
    destruct (table_get CAD_MOLD_BASE_PRICES supplier hasco) as [bi|e] eqn:Eb.
    2: { destruct supplier; cbn [table_get] in Eb; try discriminate Eb; reflexivity. }
    assert (Hs : is_hashable supplier = true).
    { destruct supplier; cbn [table_get] in Eb; try discriminate Eb; reflexivity. }
    rewrite Hs. cbn [mbind exn_bind num_add andb].
    destruct (table_get PLATE_MATERIAL_ADDONS plate 0%Z) as [ad|e] eqn:Ea.
    2: { destruct plate; cbn [table_get] in Ea; try discriminate Ea; reflexivity. }
    assert (Hp : is_hashable plate = true).
    { destruct plate; cbn [table_get] in Ea; try discriminate Ea; reflexivity. }
    rewrite Hp. cbn [mbind exn_bind num_add].
    pose proof (cad_ints_convert _ _ _ _ _ Eh Eb Ea) as Hc.
    eval_catalog.
    destruct (of_int (0 + base bi + ad)) as [f|e] eqn:Ef; [|discriminate Hc].
    repeat match goal with
    | |- context [if truthy ?c then _ else _] => destruct (truthy c)
    end;
    cbn [mbind exn_bind mret exn_ret num_add to_float]; rewrite ?Ef;
    cbn [mbind exn_bind mret exn_ret num_add to_float succeeds];
    split; reflexivity.
  - destruct (config_truthy mold_base_config); [|split; reflexivity].
    set (width := dict_get _ "plateWidth" _).
    set (length := dict_get _ "plateLength" _).
    unfold times, plates_ok, over_int.
    assert (E0 : of_int 0 = Ok (literal 0)) by (vm_compute; reflexivity).
    assert (E1 : forall x, div_int x 10000
                           = Ok (SFdiv prec emax x (literal 10000))).
    { intros x. unfold div_int.
      assert (E : of_int 10000 = Ok (literal 10000)) by (vm_compute; reflexivity).
      rewrite E. reflexivity. }
    eval_catalog.
    destruct (as_num width) as [[w|w]|ew] eqn:Ew;
      destruct (as_num length) as [[l|l]|el] eqn:El;
      cbn [num_mul mbind exn_bind mret exn_ret to_float value_of_num as_num num_truediv
           succeeds andb].
    + destruct (int_truediv (w * l) 10000) as [a|e]; [|reflexivity].
      cbn [mbind exn_bind num_add to_float succeeds]. rewrite E0.
      repeat match goal with
      | |- context [if truthy ?c then _ else _] => destruct (truthy c)
      end;
      cbn [mbind exn_bind mret exn_ret num_add to_float succeeds]; split; reflexivity.
    + destruct (of_int w) as [wf|e]; [|reflexivity].
      cbn [mbind exn_bind mret exn_ret value_of_num as_num num_truediv to_float succeeds
           andb].
      rewrite E1. cbn [mbind exn_bind num_add to_float succeeds]. rewrite E0.
      repeat match goal with
      | |- context [if truthy ?c then _ else _] => destruct (truthy c)
      end;
      cbn [mbind exn_bind mret exn_ret num_add to_float succeeds]; split; reflexivity.
    + destruct length; try discriminate El; destruct (index_sized w); reflexivity.
    + destruct (of_int l) as [lf|e]; [|reflexivity].
      cbn [mbind exn_bind mret exn_ret value_of_num as_num num_truediv to_float succeeds
           andb].
      rewrite E1. cbn [mbind exn_bind num_add to_float succeeds]. rewrite E0.
      repeat match goal with
      | |- context [if truthy ?c then _ else _] => destruct (truthy c)
      end;
      cbn [mbind exn_bind mret exn_ret num_add to_float succeeds]; split; reflexivity.
    + rewrite E1. cbn [mbind exn_bind num_add to_float succeeds]. rewrite E0.
      repeat match goal with
      | |- context [if truthy ?c then _ else _] => destruct (truthy c)
      end;
      cbn [mbind exn_bind mret exn_ret num_add to_float succeeds]; split; reflexivity.
    + destruct length; try discriminate El; reflexivity.
    + destruct width; try discriminate Ew; destruct (index_sized l); reflexivity.
    + destruct width; try discriminate Ew; reflexivity.
    + destruct width; try discriminate Ew; destruct length; try discriminate El;
        reflexivity.
Qed.

Lemma dict_get_insert_absent64 (d : gmap string value) (key : string) (dflt : value) :
  d !! key = None -> dict_get (<[key := dflt]> d) key dflt = dict_get d key dflt.
Proof.
  intros H. unfold dict_get. rewrite lookup_insert_eq, H. reflexivity.
Qed.

Lemma dict_get_insert_other64 (d : gmap string value) (key key' : string) (v dflt : value) :
  key <> key' -> dict_get (<[key := v]> d) key' dflt = dict_get d key' dflt.
Proof.
  intros H. unfold dict_get. rewrite lookup_insert_ne by exact H. reflexivity.
Qed.

(** C3, as amended.  The detailed calculator returns a cost breakdown
    exactly when every field it reads is absent or of the type it is used
    at, and no int of the request is too large for the float arithmetic
    it enters: the volume, the fiftieth of the complexity score, the
    plate area of a legacy configuration in use, and a positive
    quantity.  An absent [volume] is priced as 100 and an absent
    [complexity_metrics] as the empty dictionary, that is with a
    complexity score of 50.  Whether it returns does not depend on the
    material and finish identifiers; a quantity of zero or below never
    makes it fail and is priced without discount, at a per-piece price
    of 0. *)
Theorem calculate_succeeds_iff_typed_and_in_range
    stats material finish (quantity : Z) mold_base_config cad_base_config :
  succeeds (calculate stats material finish quantity mold_base_config cad_base_config)
    = stats_ok stats && config_ok mold_base_config cad_base_config
      && quantity_ok quantity /\
  ((quantity <= 0)%Z -> quantity_ok quantity = true) /\
  (stats !! "volume" = None ->
   calculate stats material finish quantity mold_base_config cad_base_config
   = calculate (<["volume" := VInt 100]> stats) material finish quantity
       mold_base_config cad_base_config) /\
  (stats !! "complexity_metrics" = None ->
   calculate stats material finish quantity mold_base_config cad_base_config
   = calculate (<["complexity_metrics" := VDict ∅]> stats) material finish quantity
       mold_base_config cad_base_config /\
   calculate stats material finish quantity mold_base_config cad_base_config
   = calculate (<["complexity_metrics" := VDict {["complexity_score" := VInt 50]}]> stats)
       material finish quantity mold_base_config cad_base_config) /\
  (forall b,
     calculate stats material finish quantity mold_base_config cad_base_config = Ok b ->
     (quantity <= 0)%Z ->
     discount b = literal 0.0 /\ bd_price_per_piece (breakdown b) = Int 0).
Proof.
  split; [|split; [|split; [|split]]].
  - unfold calculate, stats_ok.
    set (volume := dict_get stats "volume" (VInt 100)).
    set (complexity := dict_get stats "complexity_metrics" (VDict ∅)).
    set (manufacturing := dict_get stats "manufacturing_analysis" (VDict ∅)).
    pose proof (material_cost_succeeds64 volume material) as Hm.
    pose proof (processing_cost_succeeds64 volume material finish complexity manufacturing)
      as Hp.
    pose proof (mold_base_cost_succeeds64 mold_base_config cad_base_config) as Hb.
    destruct (_calculate_material_cost volume material) as [mc|e]; cbn [succeeds] in Hm;
      rewrite <- Hm in *; [|reflexivity].
    rewrite andb_true_r in Hp. cbn [andb].
    destruct (_calculate_processing_cost _ _ _ _ _) as [pc|e]; cbn [succeeds] in Hp;
      rewrite <- Hp; [|reflexivity].
    cbn [mbind exn_bind andb].
    destruct (_calculate_mold_base_cost _ _) as [mb|e].
    2: { rewrite Hb. rewrite andb_false_r. reflexivity. }
    destruct Hb as [Hb1 Hb2]. rewrite Hb1.
    cbn [mbind exn_bind]. destruct (to_float mb) as [mbf|e]; [|discriminate Hb2].
    cbn [mbind exn_bind]. unfold quantity_ok, div_int.
    destruct (Z.gtb_spec quantity 0) as [Hq|Hq].
    + destruct (Z.leb_spec quantity 0) as [Hq'|_]; [lia|].
      destruct (of_int quantity) as [y|e]; cbn [mbind exn_bind succeeds orb];
        [|rewrite andb_false_r; reflexivity].
      destruct (Z.eqb_spec quantity 0) as [Hq0|_]; [lia|].
      cbn [mbind exn_bind mret exn_ret]. rewrite andb_true_r.
      destruct manufacturing; reflexivity.
    + destruct (Z.leb_spec quantity 0) as [_|Hq']; [|lia].
      cbn [mbind exn_bind mret exn_ret orb]. rewrite andb_true_r.
      destruct manufacturing; reflexivity.
  - intros Hq. unfold quantity_ok. destruct (Z.leb_spec quantity 0); [reflexivity | lia].
  - intros H. unfold calculate.
    rewrite (dict_get_insert_absent64 stats "volume" (VInt 100) H).
    rewrite !(dict_get_insert_other64 stats "volume") by discriminate.
    reflexivity.
  - intros H. split.
    + unfold calculate.
      rewrite (dict_get_insert_absent64 stats "complexity_metrics" (VDict ∅) H).
      rewrite !(dict_get_insert_other64 stats "complexity_metrics") by discriminate.
      reflexivity.
    + unfold calculate.
      rewrite !(dict_get_insert_other64 stats "complexity_metrics") by discriminate.
      assert (E1 : dict_get stats "complexity_metrics" (VDict ∅) = VDict ∅).
      { unfold dict_get. rewrite H. reflexivity. }
      assert (E2 : dict_get
                     (<["complexity_metrics" := VDict {["complexity_score" := VInt 50]}]>
                        stats)
                     "complexity_metrics" (VDict ∅)
                   = VDict {["complexity_score" := VInt 50]}).
      { unfold dict_get. rewrite lookup_insert_eq. reflexivity. }
      rewrite E1, E2.
      assert (E3 : forall v mf,
                 _calculate_processing_cost v material finish (VDict ∅) mf
                 = _calculate_processing_cost v material finish
                     (VDict {["complexity_score" := VInt 50]}) mf).
      { intros v mf. unfold _calculate_processing_cost, get.
        rewrite lookup_empty, lookup_singleton_eq. reflexivity. }
      rewrite E3. reflexivity.
  - intros b H Hq.
    destruct (calculate_inv64 _ _ _ _ _ _ _ H)
      as (mold_base & _ & _ & _ & _ & _ & Hd & _ & _ & _ & _ & _ & _ & _ & _ & _ & Hp & _).
    split; [|exact (Hp Hq)].
    rewrite Hd. unfold _calculate_discount.
    destruct (Z.geb_spec quantity 100); [lia|].
    destruct (Z.geb_spec quantity 50); [lia|].
    destruct (Z.geb_spec quantity 10); [lia|]. reflexivity.
Qed.

Lemma calculate_succeeds_iff_typed_and_in_range_witness :
  (∅ : gmap string value) !! "volume" = None /\
  (0 <= 0)%Z /\
  succeeds (calculate ∅ "P20" "machined" 0 None None) = true /\
  calculate ∅ "P20" "machined" 0 None None
  = calculate (<["volume" := VInt 100]> ∅) "P20" "machined" 0 None None.
Proof.
  pose proof (calculate_succeeds_iff_typed_and_in_range ∅ "P20" "machined" 0 None None)
    as (Hs & Hq & Hv & _).
  split; [reflexivity|]. split; [lia|]. split.
  - rewrite Hs, (Hq ltac:(lia)). vm_compute. reflexivity.
  - apply Hv. reflexivity.
Defined.

(** What does make it fail besides a field of the wrong type: an int
    beyond the range of the doubles. *)
Example calculate_rejects_huge_quantity :
  calculate ∅ "P20" "machined" (10 ^ 400) None None = Raise OverflowError.
Proof. vm_compute. reflexivity. Qed.

End DoublePrecisionFailures.

(** ** Setup fee: per piece in the simple path, per order in the detailed one *)

Section DoublePrecisionSetupFee.

Import Binary64.Float Binary64.Values Binary64Notions.

Lemma simple_material_entries (material : string) (p20 : Binary64.Main.material_config) :
  getitem Binary64.Main.materials "P20" = Ok p20 ->
  In (Binary64.Main.price (default p20 (Binary64.Main.materials !! material)))
     [literal 0.85; literal 0.65; literal 0.75; literal 0.45; literal 0.70]%Q.
Proof.
  intros H. vm_compute in H. injection H as <-.
  destruct (Binary64.Main.materials !! material) as [c|] eqn:E; cbn [default from_option id].
  - apply elem_of_list_to_map_2 in E.
    repeat (apply elem_of_cons in E; destruct E as [E|E];
            [injection E as _ ->; vm_compute; tauto|]).
    apply elem_of_nil in E. destruct E.
  - vm_compute. tauto.
Qed.

Lemma simple_finish_entries (finish : string) (machined : Binary64.Main.finish_config) :
  getitem Binary64.Main.finishes "machined" = Ok machined ->
  In (Binary64.Main.multiplier (default machined (Binary64.Main.finishes !! finish)))
     [literal 1.0; literal 1.3; literal 1.5; literal 1.8; literal 2.2]%Q.
Proof.
  intros H. vm_compute in H. injection H as <-.
  destruct (Binary64.Main.finishes !! finish) as [c|] eqn:E; cbn [default from_option id].
  - apply elem_of_list_to_map_2 in E.
    repeat (apply elem_of_cons in E; destruct E as [E|E];
            [injection E as _ ->; vm_compute; tauto|]).
    apply elem_of_nil in E. destruct E.
  - vm_compute. tauto.
Qed.

Lemma detailed_setup_fee_cases (mold_base_config : option (gmap string value)) :
  Binary64.BudgetCalculator._calculate_setup_fee mold_base_config = literal 2500.0%Q \/
  Binary64.BudgetCalculator._calculate_setup_fee mold_base_config = literal 4000.0%Q.
Proof.
  unfold Binary64.BudgetCalculator._calculate_setup_fee,
    Binary64.BudgetCalculator.BASE_FIXED_FEE.
  destruct (config_truthy _); [destruct (truthy _)|]; [right | left | left];
    vm_compute; reflexivity.
Qed.

(** C10.  In the simple path the 500 EUR setup fee is added to the
    material and finish cost of one piece, the sum is multiplied by the
    quantity multiplier, and that per-piece cost is multiplied by the
    quantity: the total is the rounding of [piece_cost × q], and for a
    part of no volume, whose material and finish cost nothing, it is the
    rounding of [(500 × multiplier) × q].  In the detailed calculator
    the setup fee (2500, or 4000 with conformal cooling) does not depend
    on the quantity and enters the subtotal once. *)
Theorem setup_fee_per_piece_or_per_order :
  (forall volume_cm3 area_cm2 material finish quantity r p20 machined,
     getitem Binary64.Main.materials "P20" = Ok p20 ->
     getitem Binary64.Main.finishes "machined" = Ok machined ->
     Binary64.Main.calculate_budget_from_stats volume_cm3 area_cm2 material finish quantity
       = Ok r ->
     let mat_config := default p20 (Binary64.Main.materials !! material) in
     let fin_config := default machined (Binary64.Main.finishes !! finish) in
     let material_cost := mul volume_cm3 (Binary64.Main.price mat_config) in
     let finish_cost :=
       mul material_cost (sub (Binary64.Main.multiplier fin_config) (literal 1.0%Q)) in
     let multiplier := Binary64.Main.quantity_discount quantity in
     let piece_cost :=
       mul (add (add material_cost finish_cost) (literal 500.0%Q)) multiplier in
     exists pieces,
       of_int quantity = Ok pieces /\
       Binary64.Main.unit_price r = round piece_cost 2 /\
       Binary64.Main.total_price r = round (mul piece_cost pieces) 2 /\
       Binary64.Main.setup_fee r = round (mul (literal 500.0%Q) multiplier) 2 /\
       (is_zero volume_cm3 = true ->
        piece_cost = mul (literal 500.0%Q) multiplier /\
        Binary64.Main.total_price r
        = round (mul (mul (literal 500.0%Q) multiplier) pieces) 2)) /\
  (forall stats material finish mold_base_config cad_base_config q1 q2 b1 b2,
     Binary64.BudgetCalculator.calculate stats material finish q1
       mold_base_config cad_base_config = Ok b1 ->
     Binary64.BudgetCalculator.calculate stats material finish q2
       mold_base_config cad_base_config = Ok b2 ->
     Binary64.BudgetCalculator.setup_fee b1 = Binary64.BudgetCalculator.setup_fee b2 /\
     (Binary64.BudgetCalculator.setup_fee b1 = literal 2500.0%Q \/
      Binary64.BudgetCalculator.setup_fee b1 = literal 4000.0%Q) /\
     Binary64.BudgetCalculator.material_cost b1 = Binary64.BudgetCalculator.material_cost b2 /\
     Binary64.BudgetCalculator.processing_cost b1
     = Binary64.BudgetCalculator.processing_cost b2 /\
     Binary64.BudgetCalculator.mold_base_cost b1
     = Binary64.BudgetCalculator.mold_base_cost b2 /\
     exists mold_base,
       to_float (Binary64.BudgetCalculator.mold_base_cost b1) = Ok mold_base /\
       let subtotal :=
         add (add (add (Binary64.BudgetCalculator.material_cost b1)
                       (Binary64.BudgetCalculator.processing_cost b1)) mold_base)
             (Binary64.BudgetCalculator.setup_fee b1) in
       Binary64.BudgetCalculator.bd_subtotal (Binary64.BudgetCalculator.breakdown b1)
       = round subtotal 2 /\
       Binary64.BudgetCalculator.bd_subtotal (Binary64.BudgetCalculator.breakdown b2)
       = round subtotal 2 /\
       Binary64.BudgetCalculator.total_price b1
       = round (sub subtotal (mul subtotal (Binary64.BudgetCalculator.discount b1))) 2).
Proof.
  split.
  - intros volume_cm3 area_cm2 material finish quantity r p20 machined Hp Hm H.
    pose proof (simple_material_entries material p20 Hp) as Hprice.
    pose proof (simple_finish_entries finish machined Hm) as Hmult.
    unfold Binary64.Main.calculate_budget_from_stats in H.
    rewrite Hp, Hm in H. cbn [mbind exn_bind] in H.
    cbv zeta.
    set (mat_config := default p20 (Binary64.Main.materials !! material)) in *.
    set (fin_config := default machined (Binary64.Main.finishes !! finish)) in *.
    destruct (of_int quantity) as [pieces|e]; [|discriminate H].
    cbn [mbind exn_bind] in H.
    destruct (int_truediv quantity 10) as [tenth|e]; [|discriminate H].
    cbn [mbind exn_bind] in H.
    destruct (to_int tenth) as [days|e]; [|discriminate H].
    cbn [mbind exn_bind] in H.
    destruct (to_int _) as [percent|e]; [|discriminate H].
    cbn [mbind exn_bind mret exn_ret] in H. injection H as <-.
    cbn [Binary64.Main.unit_price Binary64.Main.total_price Binary64.Main.setup_fee].
    exists pieces. split; [reflexivity|]. split; [reflexivity|].
    split; [reflexivity|]. split; [reflexivity|].
    intros Hz.
    assert (E : add (add (mul volume_cm3 (Binary64.Main.price mat_config))
                         (mul (mul volume_cm3 (Binary64.Main.price mat_config))
                              (sub (Binary64.Main.multiplier fin_config) (literal 1.0%Q))))
                    (literal 500.0%Q)
                = literal 500.0%Q).
    { destruct volume_cm3 as [s| | |]; try discriminate Hz.
      cbn [In] in Hprice, Hmult.
      repeat (destruct Hprice as [<-|Hprice]); try (destruct Hprice);
        repeat (destruct Hmult as [<-|Hmult]); try (destruct Hmult);
        destruct s; vm_compute; reflexivity. }
    rewrite E. split; reflexivity.
  - intros stats material finish mbc cbc q1 q2 b1 b2 H1 H2.
    destruct (calculate_inv64 _ _ _ _ _ _ _ H1)
      as (mb1 & Hmb1 & Hmc1 & Hpc1 & Hmbc1 & Hsf1 & _ & Ht1 & _ & _ & _ & _ & _ & Hs1 & _).
    destruct (calculate_inv64 _ _ _ _ _ _ _ H2)
      as (mb2 & Hmb2 & Hmc2 & Hpc2 & Hmbc2 & Hsf2 & _ & _ & _ & _ & _ & _ & _ & Hs2 & _).
    assert (Emc : Binary64.BudgetCalculator.material_cost b1
                  = Binary64.BudgetCalculator.material_cost b2) by congruence.
    assert (Epc : Binary64.BudgetCalculator.processing_cost b1
                  = Binary64.BudgetCalculator.processing_cost b2) by congruence.
    assert (Emb : Binary64.BudgetCalculator.mold_base_cost b1
                  = Binary64.BudgetCalculator.mold_base_cost b2) by congruence.
    assert (Esf : Binary64.BudgetCalculator.setup_fee b1
                  = Binary64.BudgetCalculator.setup_fee b2) by congruence.
    split; [exact Esf|]. split; [rewrite Hsf1; apply detailed_setup_fee_cases|].
    split; [exact Emc|]. split; [exact Epc|]. split; [exact Emb|].
    exists mb1. split; [exact Hmb1|].
    unfold subtotal_of in *. cbv zeta in *.
    split; [exact Hs1|]. split; [|exact Ht1].
    rewrite Hs2. rewrite <- Emb in Hmb2. rewrite Hmb1 in Hmb2. injection Hmb2 as <-.
    rewrite <- Emc, <- Epc, <- Esf. reflexivity.
Qed.

Lemma setup_fee_per_piece_or_per_order_witness :
  exists r pieces b1 b100,
    Binary64.Main.calculate_budget_from_stats (literal 0) (literal 0) "P20" "machined" 100
      = Ok r /\
    of_int 100 = Ok pieces /\
    Binary64.Main.total_price r
    = round (mul (mul (literal 500.0%Q) (Binary64.Main.quantity_discount 100)) pieces) 2 /\
    Binary64.Main.total_price r = literal 42500 /\
    Binary64.BudgetCalculator.calculate ∅ "H13" "polished" 1 None None = Ok b1 /\
    Binary64.BudgetCalculator.calculate ∅ "H13" "polished" 100 None None = Ok b100 /\
    Binary64.BudgetCalculator.setup_fee b1 = Binary64.BudgetCalculator.setup_fee b100.
Proof.
  assert (H : exists r b1 b100,
    Binary64.Main.calculate_budget_from_stats (literal 0) (literal 0) "P20" "machined" 100
      = Ok r /\
    Binary64.Main.total_price r = literal 42500 /\
    Binary64.BudgetCalculator.calculate ∅ "H13" "polished" 1 None None = Ok b1 /\
    Binary64.BudgetCalculator.calculate ∅ "H13" "polished" 100 None None = Ok b100).
  { eexists. eexists. eexists.
    split; [vm_compute; reflexivity|]. split; [vm_compute; reflexivity|].
    split; vm_compute; reflexivity. }
  destruct H as (r & b1 & b100 & Hr & Ht & H1 & H100).
  destruct setup_fee_per_piece_or_per_order as [Hsimple Hdetailed].
  destruct (Hsimple (literal 0) (literal 0) "P20" "machined" 100%Z r _ _ eq_refl eq_refl Hr)
    as (pieces & Hp & _ & _ & _ & Hzero).
  destruct (Hzero eq_refl) as [_ Htotal].
  destruct (Hdetailed _ _ _ _ _ _ _ _ _ H1 H100) as (Hsf & _).
  exists r, pieces, b1, b100.
  repeat (split; [assumption|]). exact Hsf.
Defined.

(** The production time is computed from a quotient in double
    precision: for 99999999999999999 pieces it is one day more than the
    tenth of the quantity plus 3. *)
Example production_time_of_a_huge_order :
  exists r,
    Binary64.Main.calculate_budget_from_stats
      (literal 12) (literal 40) "P20" "machined" 99999999999999999 = Ok r /\
    Binary64.Main.production_time_days r = 10000000000000003%Z /\
    (99999999999999999 / 10 + 3 = 10000000000000002)%Z.
Proof.
  eexists. split; [vm_compute; reflexivity|]. split; reflexivity.
Qed.

(** The percent label of the simple path truncates a product in double
    precision: the multiplier 0.90 is shown as 9%. *)
Example quantity_discount_label_of_fifty :
  exists r,
    Binary64.Main.calculate_budget_from_stats
      (literal 12) (literal 40) "P20" "machined" 50 = Ok r /\
    Binary64.Main.quantity_discount_label r = "9%".
Proof.
  eexists. split; vm_compute; reflexivity.
Qed.

(** The simple path fails on a quantity that no double holds. *)
Example simple_path_rejects_huge_quantity :
  Binary64.Main.calculate_budget_from_stats
    (literal 12) (literal 40) "P20" "machined" (10 ^ 400) = Raise OverflowError.
Proof. vm_compute. reflexivity. Qed.

End DoublePrecisionSetupFee.


(** ** Catalog fallbacks of both paths, in double precision *)

Section DoublePrecisionFallbacks.

Import Binary64.Float Binary64.Values Binary64Notions.

Lemma material_cost_unknown (volume : value) (material : string) :
  Binary64.BudgetCalculator.MATERIAL_PRICES !! material = None ->
  Binary64.BudgetCalculator._calculate_material_cost volume material
  = Binary64.BudgetCalculator._calculate_material_cost volume "P20".
Proof.
  intros H. unfold Binary64.BudgetCalculator._calculate_material_cost.
  assert (E : getitem Binary64.BudgetCalculator.MATERIAL_PRICES "P20"
              = Ok {| Binary64.BudgetCalculator.price := literal 0.65;
                      Binary64.BudgetCalculator.name := "Aço P20";
                      Binary64.BudgetCalculator.hardness := "28-32 HRC";
                      Binary64.BudgetCalculator.density := literal 7.85 |}) by reflexivity.
  rewrite E. cbn [mbind exn_bind]. rewrite H.
  assert (E' : Binary64.BudgetCalculator.MATERIAL_PRICES !! "P20"
               = Some {| Binary64.BudgetCalculator.price := literal 0.65;
                         Binary64.BudgetCalculator.name := "Aço P20";
                         Binary64.BudgetCalculator.hardness := "28-32 HRC";
                         Binary64.BudgetCalculator.density := literal 7.85 |}) by reflexivity.
  rewrite E'. reflexivity.
Qed.

Lemma processing_cost_unknown (volume : value) (material material' finish : string)
    (complexity manufacturing : value) :
  Binary64.BudgetCalculator.FINISH_MULTIPLIERS !! finish = None ->
  Binary64.BudgetCalculator._calculate_processing_cost
    volume material finish complexity manufacturing
  = Binary64.BudgetCalculator._calculate_processing_cost
      volume material' "machined" complexity manufacturing.
Proof.
  intros H. unfold Binary64.BudgetCalculator._calculate_processing_cost.
  assert (E : getitem Binary64.BudgetCalculator.FINISH_MULTIPLIERS "machined"
              = Ok {| Binary64.BudgetCalculator.multiplier := literal 1.0;
                      Binary64.BudgetCalculator.finish_name := "Maquinado";
                      Binary64.BudgetCalculator.ra := literal 1.6 |}) by reflexivity.
  rewrite E.
  assert (E' : Binary64.BudgetCalculator.FINISH_MULTIPLIERS !! "machined"
               = Some {| Binary64.BudgetCalculator.multiplier := literal 1.0;
                         Binary64.BudgetCalculator.finish_name := "Maquinado";
                         Binary64.BudgetCalculator.ra := literal 1.6 |}) by reflexivity.
  rewrite H, E'.
  assert (Ee : String.eqb finish "edm" = false).
  { apply String.eqb_neq. intros ->. vm_compute in H. discriminate H. }
  rewrite Ee. reflexivity.
Qed.

(** X1.  A material identifier that is not in the catalog of the
    detailed calculator is priced as "P20": the call returns exactly when
    the call with "P20" does and raises the same exception otherwise,
    and every entry of the result is that of "P20" (total, final price,
    breakdown, the four costs, discount, finish information,
    recommendations) except [material_info], which is empty instead of
    describing P20. *)
Theorem unknown_material_priced_as_P20
    stats material finish quantity mold_base_config cad_base_config :
  Binary64.BudgetCalculator.MATERIAL_PRICES !! material = None ->
  match Binary64.BudgetCalculator.calculate
          stats material finish quantity mold_base_config cad_base_config,
        Binary64.BudgetCalculator.calculate
          stats "P20" finish quantity mold_base_config cad_base_config with
  | Ok b, Ok b' =>
      Binary64.BudgetCalculator.total_price b = Binary64.BudgetCalculator.total_price b' /\
      Binary64.BudgetCalculator.breakdown b = Binary64.BudgetCalculator.breakdown b' /\
      Binary64.BudgetCalculator.material_cost b
      = Binary64.BudgetCalculator.material_cost b' /\
      Binary64.BudgetCalculator.processing_cost b
      = Binary64.BudgetCalculator.processing_cost b' /\
      Binary64.BudgetCalculator.mold_base_cost b
      = Binary64.BudgetCalculator.mold_base_cost b' /\
      Binary64.BudgetCalculator.setup_fee b = Binary64.BudgetCalculator.setup_fee b' /\
      Binary64.BudgetCalculator.discount b = Binary64.BudgetCalculator.discount b' /\
      Binary64.BudgetCalculator.final_price b = Binary64.BudgetCalculator.final_price b' /\
      Binary64.BudgetCalculator.finish_info_of b
      = Binary64.BudgetCalculator.finish_info_of b' /\
      Binary64.BudgetCalculator.manufacturing_recommendations b
      = Binary64.BudgetCalculator.manufacturing_recommendations b' /\
      Binary64.BudgetCalculator.material_info_of b = None /\
      Binary64.BudgetCalculator.material_info_of b'
      = Binary64.BudgetCalculator.MATERIAL_PRICES !! "P20" /\
      is_Some (Binary64.BudgetCalculator.material_info_of b')
  | Raise e, Raise e' => e = e'
  | _, _ => False
  end.
Proof.
  intros Hn. unfold Binary64.BudgetCalculator.calculate.
  rewrite (material_cost_unknown _ _ Hn).
  change (Binary64.BudgetCalculator._calculate_processing_cost ?v material ?f ?c ?m)
    with (Binary64.BudgetCalculator._calculate_processing_cost v "P20" f c m).
  destruct (Binary64.BudgetCalculator._calculate_material_cost _ "P20"); [|reflexivity].
  cbn [mbind exn_bind].
  destruct (Binary64.BudgetCalculator._calculate_processing_cost _ _ _ _ _); [|reflexivity].
  cbn [mbind exn_bind].
  destruct (Binary64.BudgetCalculator._calculate_mold_base_cost _ _) as [mb|]; [|reflexivity].
  cbn [mbind exn_bind].
  destruct (to_float mb); [|reflexivity].
  cbn [mbind exn_bind].
  match goal with
  | |- context [if ?c then _ else _] => destruct c
  end.
  - destruct (div_int _ _); [|reflexivity].
    cbn [mbind exn_bind mret exn_ret].
    destruct (get _ _ _); [|reflexivity].
    cbn [mbind exn_bind mret exn_ret
         Binary64.BudgetCalculator.total_price Binary64.BudgetCalculator.breakdown
         Binary64.BudgetCalculator.material_cost Binary64.BudgetCalculator.processing_cost
         Binary64.BudgetCalculator.mold_base_cost Binary64.BudgetCalculator.setup_fee
         Binary64.BudgetCalculator.discount Binary64.BudgetCalculator.final_price
         Binary64.BudgetCalculator.finish_info_of
         Binary64.BudgetCalculator.manufacturing_recommendations
         Binary64.BudgetCalculator.material_info_of].
    rewrite Hn. repeat (split; [reflexivity|]). eexists. reflexivity.
  - cbn [mbind exn_bind mret exn_ret].
    destruct (get _ _ _); [|reflexivity].
    cbn [mbind exn_bind mret exn_ret
         Binary64.BudgetCalculator.total_price Binary64.BudgetCalculator.breakdown
         Binary64.BudgetCalculator.material_cost Binary64.BudgetCalculator.processing_cost
         Binary64.BudgetCalculator.mold_base_cost Binary64.BudgetCalculator.setup_fee
         Binary64.BudgetCalculator.discount Binary64.BudgetCalculator.final_price
         Binary64.BudgetCalculator.finish_info_of
         Binary64.BudgetCalculator.manufacturing_recommendations
         Binary64.BudgetCalculator.material_info_of].
    rewrite Hn. repeat (split; [reflexivity|]). eexists. reflexivity.
Qed.

Lemma unknown_material_priced_as_P20_witness :
  Binary64.BudgetCalculator.MATERIAL_PRICES !! "UNOBTAINIUM" = None /\
  (exists b b',
     Binary64.BudgetCalculator.calculate ∅ "UNOBTAINIUM" "machined" 1 None None = Ok b /\
     Binary64.BudgetCalculator.calculate ∅ "P20" "machined" 1 None None = Ok b' /\
     Binary64.BudgetCalculator.total_price b = Binary64.BudgetCalculator.total_price b' /\
     Binary64.BudgetCalculator.breakdown b = Binary64.BudgetCalculator.breakdown b' /\
     Binary64.BudgetCalculator.material_info_of b = None) /\
  Binary64.BudgetCalculator.calculate ∅ "UNOBTAINIUM" "machined" (10 ^ 400) None None
  = Binary64.BudgetCalculator.calculate ∅ "P20" "machined" (10 ^ 400) None None.
Proof.
  assert (Hn : Binary64.BudgetCalculator.MATERIAL_PRICES !! "UNOBTAINIUM" = None)
    by reflexivity.
  split; [exact Hn|]. split.
  - assert (H : exists b b',
      Binary64.BudgetCalculator.calculate ∅ "UNOBTAINIUM" "machined" 1 None None = Ok b /\
      Binary64.BudgetCalculator.calculate ∅ "P20" "machined" 1 None None = Ok b').
    { eexists. eexists. split; vm_compute; reflexivity. }
    destruct H as (b & b' & H & H').
    exists b, b'. split; [exact H|]. split; [exact H'|].
    pose proof (unknown_material_priced_as_P20 ∅ "UNOBTAINIUM" "machined" 1 None None Hn)
      as Hall.
    rewrite H, H' in Hall.
    destruct Hall as (Ht & Hb & _ & _ & _ & _ & _ & _ & _ & _ & Hi & _).
    split; [exact Ht|]. split; [exact Hb | exact Hi].
  - pose proof (unknown_material_priced_as_P20 ∅ "UNOBTAINIUM" "machined" (10 ^ 400)
                  None None Hn) as Hall.
    destruct (Binary64.BudgetCalculator.calculate ∅ "UNOBTAINIUM" "machined" (10 ^ 400)
                None None) as [b|e] eqn:E.
    + vm_compute in E. discriminate E.
    + destruct (Binary64.BudgetCalculator.calculate ∅ "P20" "machined" (10 ^ 400)
                  None None) as [b'|e']; [destruct Hall | rewrite Hall; reflexivity].
Defined.

(** X2.  A finish identifier that is not in the catalog of the detailed
    calculator is priced as "machined" (multiplier 1, no EDM surcharge on
    account of the finish): the call returns exactly when the call with
    "machined" does and raises the same exception otherwise, and every
    entry of the result is that of "machined" except [finish_info],
    which is empty. *)
Theorem unknown_finish_priced_as_machined
    stats material finish quantity mold_base_config cad_base_config :
  Binary64.BudgetCalculator.FINISH_MULTIPLIERS !! finish = None ->
  match Binary64.BudgetCalculator.calculate
          stats material finish quantity mold_base_config cad_base_config,
        Binary64.BudgetCalculator.calculate
          stats material "machined" quantity mold_base_config cad_base_config with
  | Ok b, Ok b' =>
      Binary64.BudgetCalculator.total_price b = Binary64.BudgetCalculator.total_price b' /\
      Binary64.BudgetCalculator.breakdown b = Binary64.BudgetCalculator.breakdown b' /\
      Binary64.BudgetCalculator.material_cost b
      = Binary64.BudgetCalculator.material_cost b' /\
      Binary64.BudgetCalculator.processing_cost b
      = Binary64.BudgetCalculator.processing_cost b' /\
      Binary64.BudgetCalculator.mold_base_cost b
      = Binary64.BudgetCalculator.mold_base_cost b' /\
      Binary64.BudgetCalculator.setup_fee b = Binary64.BudgetCalculator.setup_fee b' /\
      Binary64.BudgetCalculator.discount b = Binary64.BudgetCalculator.discount b' /\
      Binary64.BudgetCalculator.final_price b = Binary64.BudgetCalculator.final_price b' /\
      Binary64.BudgetCalculator.material_info_of b
      = Binary64.BudgetCalculator.material_info_of b' /\
      Binary64.BudgetCalculator.manufacturing_recommendations b
      = Binary64.BudgetCalculator.manufacturing_recommendations b' /\
      Binary64.BudgetCalculator.finish_info_of b = None /\
      Binary64.BudgetCalculator.finish_info_of b'
      = Binary64.BudgetCalculator.FINISH_MULTIPLIERS !! "machined" /\
      is_Some (Binary64.BudgetCalculator.finish_info_of b')
  | Raise e, Raise e' => e = e'
  | _, _ => False
  end.
Proof.
  intros Hn. unfold Binary64.BudgetCalculator.calculate.
  rewrite (processing_cost_unknown _ material material finish _ _ Hn).
  destruct (Binary64.BudgetCalculator._calculate_material_cost _ _); [|reflexivity].
  cbn [mbind exn_bind].
  destruct (Binary64.BudgetCalculator._calculate_processing_cost _ _ _ _ _); [|reflexivity].
  cbn [mbind exn_bind].
  destruct (Binary64.BudgetCalculator._calculate_mold_base_cost _ _) as [mb|]; [|reflexivity].
  cbn [mbind exn_bind].
  destruct (to_float mb); [|reflexivity].
  cbn [mbind exn_bind].
  match goal with
  | |- context [if ?c then _ else _] => destruct c
  end.
  - destruct (div_int _ _); [|reflexivity].
    cbn [mbind exn_bind mret exn_ret].
    destruct (get _ _ _); [|reflexivity].
    cbn [mbind exn_bind mret exn_ret
         Binary64.BudgetCalculator.total_price Binary64.BudgetCalculator.breakdown
         Binary64.BudgetCalculator.material_cost Binary64.BudgetCalculator.processing_cost
         Binary64.BudgetCalculator.mold_base_cost Binary64.BudgetCalculator.setup_fee
         Binary64.BudgetCalculator.discount Binary64.BudgetCalculator.final_price
         Binary64.BudgetCalculator.finish_info_of
         Binary64.BudgetCalculator.manufacturing_recommendations
         Binary64.BudgetCalculator.material_info_of].
    rewrite Hn. repeat (split; [reflexivity|]). eexists. reflexivity.
  - cbn [mbind exn_bind mret exn_ret].
    destruct (get _ _ _); [|reflexivity].
    cbn [mbind exn_bind mret exn_ret
         Binary64.BudgetCalculator.total_price Binary64.BudgetCalculator.breakdown
         Binary64.BudgetCalculator.material_cost Binary64.BudgetCalculator.processing_cost
         Binary64.BudgetCalculator.mold_base_cost Binary64.BudgetCalculator.setup_fee
         Binary64.BudgetCalculator.discount Binary64.BudgetCalculator.final_price
         Binary64.BudgetCalculator.finish_info_of
         Binary64.BudgetCalculator.manufacturing_recommendations
         Binary64.BudgetCalculator.material_info_of].
    rewrite Hn. repeat (split; [reflexivity|]). eexists. reflexivity.
Qed.

Lemma unknown_finish_priced_as_machined_witness :
  Binary64.BudgetCalculator.FINISH_MULTIPLIERS !! "mirror" = None /\
  exists b b',
    Binary64.BudgetCalculator.calculate ∅ "H13" "mirror" 1 None None = Ok b /\
    Binary64.BudgetCalculator.calculate ∅ "H13" "machined" 1 None None = Ok b' /\
    Binary64.BudgetCalculator.total_price b = Binary64.BudgetCalculator.total_price b' /\
    Binary64.BudgetCalculator.breakdown b = Binary64.BudgetCalculator.breakdown b' /\
    Binary64.BudgetCalculator.finish_info_of b = None.
Proof.
  assert (Hn : Binary64.BudgetCalculator.FINISH_MULTIPLIERS !! "mirror" = None)
    by reflexivity.
  split; [exact Hn|].
  assert (H : exists b b',
    Binary64.BudgetCalculator.calculate ∅ "H13" "mirror" 1 None None = Ok b /\
    Binary64.BudgetCalculator.calculate ∅ "H13" "machined" 1 None None = Ok b').
  { eexists. eexists. split; vm_compute; reflexivity. }
  destruct H as (b & b' & H & H').
  exists b, b'. split; [exact H|]. split; [exact H'|].
  pose proof (unknown_finish_priced_as_machined ∅ "H13" "mirror" 1 None None Hn) as Hall.
  rewrite H, H' in Hall.
  destruct Hall as (Ht & Hb & _ & _ & _ & _ & _ & _ & _ & _ & Hi & _).
  split; [exact Ht|]. split; [exact Hb | exact Hi].
Defined.

(** X11.  In the simple path an unknown material identifier gives
    exactly the outcome of "P20", name and hardness included, and an
    unknown finish identifier exactly the outcome of "machined": the
    same budget, or the same exception. *)
Theorem simple_path_unknown_identifiers
    (volume_cm3 area_cm2 : float) (material finish : string) (quantity : Z) :
  (Binary64.Main.materials !! material = None ->
   Binary64.Main.calculate_budget_from_stats volume_cm3 area_cm2 material finish quantity
   = Binary64.Main.calculate_budget_from_stats volume_cm3 area_cm2 "P20" finish quantity) /\
  (Binary64.Main.finishes !! finish = None ->
   Binary64.Main.calculate_budget_from_stats volume_cm3 area_cm2 material finish quantity
   = Binary64.Main.calculate_budget_from_stats
       volume_cm3 area_cm2 material "machined" quantity).
Proof.
  unfold Binary64.Main.calculate_budget_from_stats.
  assert (Ep : getitem Binary64.Main.materials "P20"
               = Ok {| Binary64.Main.price := literal 0.65;
                       Binary64.Main.name := "Aço P20";
                       Binary64.Main.hardness := "28-32 HRC" |}) by reflexivity.
  assert (Em : getitem Binary64.Main.finishes "machined"
               = Ok {| Binary64.Main.multiplier := literal 1.0;
                       Binary64.Main.finish_name := "Maquinado" |}) by reflexivity.
  rewrite Ep, Em. cbn [mbind exn_bind].
  split; intros H; rewrite H.
  - assert (E : Binary64.Main.materials !! "P20"
                = Some {| Binary64.Main.price := literal 0.65;
                          Binary64.Main.name := "Aço P20";
                          Binary64.Main.hardness := "28-32 HRC" |}) by reflexivity.
    rewrite E. reflexivity.
  - assert (E : Binary64.Main.finishes !! "machined"
                = Some {| Binary64.Main.multiplier := literal 1.0;
                          Binary64.Main.finish_name := "Maquinado" |}) by reflexivity.
    rewrite E. reflexivity.
Qed.

Lemma simple_path_unknown_identifiers_witness :
  Binary64.Main.materials !! "TITANIUM" = None /\
  Binary64.Main.calculate_budget_from_stats (literal 12) (literal 40) "TITANIUM" "edm" 3
  = Binary64.Main.calculate_budget_from_stats (literal 12) (literal 40) "P20" "edm" 3 /\
  exists r,
    Binary64.Main.calculate_budget_from_stats (literal 12) (literal 40) "TITANIUM" "edm" 3
    = Ok r /\
    Binary64.Main.material r = "Aço P20".
Proof.
  split; [reflexivity|].
  assert (E := proj1 (simple_path_unknown_identifiers (literal 12) (literal 40)
                        "TITANIUM" "edm" 3) eq_refl).
  split; [exact E|].
  rewrite E. eexists. split; vm_compute; reflexivity.
Defined.

End DoublePrecisionFallbacks.


(** ** The two pricing paths of the backend side by side *)

Section PathsSideBySide.

Import Binary64.Float Binary64.Values Binary64Notions.

Lemma material_tables_agree (id : string) :
  match Binary64.BudgetCalculator.MATERIAL_PRICES !! id, Binary64.Main.materials !! id with
  | Some info, Some config =>
      Binary64.BudgetCalculator.price info = Binary64.Main.price config /\
      Binary64.BudgetCalculator.name info = Binary64.Main.name config /\
      Binary64.BudgetCalculator.hardness info = Binary64.Main.hardness config
  | None, None => True
  | _, _ => False
  end.
Proof.
  destruct (Binary64.BudgetCalculator.MATERIAL_PRICES !! id) as [info|] eqn:E.
  - apply elem_of_list_to_map_2 in E.
    repeat (apply elem_of_cons in E; destruct E as [E|E];
            [injection E as -> ->; vm_compute; repeat split; reflexivity|]).
    apply elem_of_nil in E. destruct E.
  - apply not_elem_of_list_to_map_2 in E.
    unfold Binary64.Main.materials.
    rewrite (not_elem_of_list_to_map_1 _ id); [exact I | exact E].
Qed.

Lemma finish_tables_agree (id : string) :
  match Binary64.BudgetCalculator.FINISH_MULTIPLIERS !! id, Binary64.Main.finishes !! id with
  | Some info, Some config =>
      Binary64.BudgetCalculator.multiplier info = Binary64.Main.multiplier config /\
      Binary64.BudgetCalculator.finish_name info = Binary64.Main.finish_name config
  | None, None => True
  | _, _ => False
  end.
Proof.
  destruct (Binary64.BudgetCalculator.FINISH_MULTIPLIERS !! id) as [info|] eqn:E.
  - apply elem_of_list_to_map_2 in E.
    repeat (apply elem_of_cons in E; destruct E as [E|E];
            [injection E as -> ->; vm_compute; repeat split; reflexivity|]).
    apply elem_of_nil in E. destruct E.
  - apply not_elem_of_list_to_map_2 in E.
    unfold Binary64.Main.finishes.
    rewrite (not_elem_of_list_to_map_1 _ id); [exact I | exact E].
Qed.

Lemma calculate_infos stats material finish quantity mold_base_config cad_base_config b :
  Binary64.BudgetCalculator.calculate
    stats material finish quantity mold_base_config cad_base_config = Ok b ->
  Binary64.BudgetCalculator.material_info_of b
  = Binary64.BudgetCalculator.MATERIAL_PRICES !! material /\
  Binary64.BudgetCalculator.finish_info_of b
  = Binary64.BudgetCalculator.FINISH_MULTIPLIERS !! finish.
Proof.
  unfold Binary64.BudgetCalculator.calculate. intros H.
  destruct (Binary64.BudgetCalculator._calculate_material_cost _ _) as [mc|e];
    [|discriminate H].
  destruct (Binary64.BudgetCalculator._calculate_processing_cost _ _ _ _ _) as [pc|e];
    [|discriminate H].
  destruct (Binary64.BudgetCalculator._calculate_mold_base_cost _ _) as [mb|e];
    [|discriminate H].
  cbn [mbind exn_bind] in H.
  destruct (to_float mb) as [mbf|e]; [|discriminate H].
  cbn [mbind exn_bind] in H.
  match type of H with
  | context [if ?c then _ else _] => destruct c
  end.
  - destruct (div_int _ _) as [pp|e]; [|discriminate H].
    cbn [mbind exn_bind mret exn_ret] in H.
    destruct (get _ _ _) as [recs|e]; [|discriminate H].
    cbn [mbind exn_bind mret exn_ret] in H.
    injection H as <-. split; reflexivity.
  - cbn [mbind exn_bind mret exn_ret] in H.
    destruct (get _ _ _) as [recs|e]; [|discriminate H].
    cbn [mbind exn_bind mret exn_ret] in H.
    injection H as <-. split; reflexivity.
Qed.

(** X23.  The simple path and the detailed calculator price materials
    and finishes from tables that agree on every identifier, known or
    not.  For the same volume, a float, and the same identifiers, both
    multiply by the same price per cm³, that of the catalog entry the
    detailed result reports, or of "P20" when it reports none: the
    detailed calculator after adding its 15% of waste to the volume, the
    simple path before it applies the quantity multiplier and rounds.
    The finish cost of the simple path is that product times the
    multiplier of the reported finish entry (of "machined" when there is
    none) minus 1, times the quantity multiplier, rounded.  The material
    name and hardness and the finish name reported by the simple path
    are those of the detailed catalog entries, or of "P20" and
    "machined". *)
Theorem paths_share_catalogs :
  (forall id,
     match Binary64.BudgetCalculator.MATERIAL_PRICES !! id, Binary64.Main.materials !! id with
     | Some info, Some config =>
         Binary64.BudgetCalculator.price info = Binary64.Main.price config /\
         Binary64.BudgetCalculator.name info = Binary64.Main.name config /\
         Binary64.BudgetCalculator.hardness info = Binary64.Main.hardness config
     | None, None => True
     | _, _ => False
     end) /\
  (forall id,
     match Binary64.BudgetCalculator.FINISH_MULTIPLIERS !! id,
           Binary64.Main.finishes !! id with
     | Some info, Some config =>
         Binary64.BudgetCalculator.multiplier info = Binary64.Main.multiplier config /\
         Binary64.BudgetCalculator.finish_name info = Binary64.Main.finish_name config
     | None, None => True
     | _, _ => False
     end) /\
  (forall stats (volume area : float) material finish quantity quantity'
          mold_base_config cad_base_config b r,
     dict_get stats "volume" (VInt 100) = VFloat volume ->
     Binary64.BudgetCalculator.calculate
       stats material finish quantity mold_base_config cad_base_config = Ok b ->
     Binary64.Main.calculate_budget_from_stats volume area material finish quantity' = Ok r ->
     let price :=
       match Binary64.BudgetCalculator.material_info_of b with
       | Some info => Binary64.BudgetCalculator.price info
       | None => literal 0.65%Q
       end in
     let multiplier :=
       match Binary64.BudgetCalculator.finish_info_of b with
       | Some info => Binary64.BudgetCalculator.multiplier info
       | None => literal 1.0%Q
       end in
     Binary64.BudgetCalculator.material_cost b
     = mul (mul volume (literal 1.15%Q)) price /\
     Binary64.Main.material_cost r
     = round (mul (mul volume price) (Binary64.Main.quantity_discount quantity')) 2 /\
     Binary64.Main.finish_cost r
     = round (mul (mul (mul volume price) (sub multiplier (literal 1.0%Q)))
                  (Binary64.Main.quantity_discount quantity')) 2 /\
     Binary64.Main.material r
     = match Binary64.BudgetCalculator.material_info_of b with
       | Some info => Binary64.BudgetCalculator.name info
       | None => "Aço P20"
       end /\
     Binary64.Main.material_hardness r
     = match Binary64.BudgetCalculator.material_info_of b with
       | Some info => Binary64.BudgetCalculator.hardness info
       | None => "28-32 HRC"
       end /\
     Binary64.Main.finish r
     = match Binary64.BudgetCalculator.finish_info_of b with
       | Some info => Binary64.BudgetCalculator.finish_name info
       | None => "Maquinado"
       end).
Proof.
  split; [exact material_tables_agree|]. split; [exact finish_tables_agree|].
  intros stats volume area material finish quantity quantity' mbc cbc b r Ev Hb Hr.
  destruct (calculate_infos _ _ _ _ _ _ _ Hb) as [Emi Efi].
  destruct (calculate_inv64 _ _ _ _ _ _ _ Hb) as (_ & _ & Hmc & _).
  unfold Binary64.BudgetCalculator._calculate_material_cost in Hmc.
  assert (Ep : getitem Binary64.BudgetCalculator.MATERIAL_PRICES "P20"
              = Ok {| Binary64.BudgetCalculator.price := literal 0.65;
                      Binary64.BudgetCalculator.name := "Aço P20";
                      Binary64.BudgetCalculator.hardness := "28-32 HRC";
                      Binary64.BudgetCalculator.density := literal 7.85 |}) by reflexivity.
  rewrite Ep, Ev in Hmc.
  cbn [mbind exn_bind mret exn_ret times_float as_num to_float] in Hmc.
  injection Hmc as Hmc.
  unfold Binary64.Main.calculate_budget_from_stats in Hr.
  assert (Ep' : getitem Binary64.Main.materials "P20"
               = Ok {| Binary64.Main.price := literal 0.65;
                       Binary64.Main.name := "Aço P20";
                       Binary64.Main.hardness := "28-32 HRC" |}) by reflexivity.
  assert (Em' : getitem Binary64.Main.finishes "machined"
               = Ok {| Binary64.Main.multiplier := literal 1.0;
                       Binary64.Main.finish_name := "Maquinado" |}) by reflexivity.
  rewrite Ep', Em' in Hr. cbn [mbind exn_bind] in Hr.
  destruct (of_int quantity') as [pieces|e]; [|discriminate Hr].
  cbn [mbind exn_bind] in Hr.
  destruct (int_truediv quantity' 10) as [tenth|e]; [|discriminate Hr].
  cbn [mbind exn_bind] in Hr.
  destruct (to_int tenth) as [days|e]; [|discriminate Hr].
  cbn [mbind exn_bind] in Hr.
  destruct (to_int _) as [percent|e]; [|discriminate Hr].
  cbn [mbind exn_bind mret exn_ret] in Hr. injection Hr as <-.
  cbn [Binary64.Main.material_cost Binary64.Main.material Binary64.Main.material_hardness
       Binary64.Main.finish Binary64.Main.finish_cost].
  cbv zeta. rewrite Emi, Efi, <- Hmc.
  pose proof (material_tables_agree material) as Hm.
  pose proof (finish_tables_agree finish) as Hf.
  destruct (Binary64.BudgetCalculator.MATERIAL_PRICES !! material) as [mi|];
    destruct (Binary64.Main.materials !! material) as [mc|]; try (exfalso; exact Hm);
    (destruct (Binary64.BudgetCalculator.FINISH_MULTIPLIERS !! finish) as [fi|];
     destruct (Binary64.Main.finishes !! finish) as [fc|]; try (exfalso; exact Hf));
    cbn [default from_option id Binary64.BudgetCalculator.price Binary64.Main.price
         Binary64.Main.name Binary64.Main.hardness Binary64.Main.multiplier
         Binary64.Main.finish_name];
    try destruct Hm as (Hp & Hn & Hh); try destruct Hf as (Hk & Hfn);
    try rewrite <- Hp; try rewrite <- Hk; try rewrite <- Hn; try rewrite <- Hh;
    try rewrite <- Hfn;
    repeat split; reflexivity.
Qed.

Lemma paths_share_catalogs_witness :
  exists b r,
    Binary64.BudgetCalculator.calculate
      (<["volume" := VFloat (literal 12.5)]> ∅) "718" "textured" 1 None None = Ok b /\
    Binary64.Main.calculate_budget_from_stats (literal 12.5) (literal 40) "718" "textured" 20
    = Ok r /\
    Binary64.BudgetCalculator.material_cost b
    = mul (mul (literal 12.5) (literal 1.15)) (literal 0.75) /\
    Binary64.Main.material_cost r
    = round (mul (mul (literal 12.5) (literal 0.75)) (literal 0.95)) 2 /\
    Binary64.Main.material r = "Aço 718".
Proof.
  assert (H : exists b r,
    Binary64.BudgetCalculator.calculate
      (<["volume" := VFloat (literal 12.5)]> ∅) "718" "textured" 1 None None = Ok b /\
    Binary64.Main.calculate_budget_from_stats (literal 12.5) (literal 40) "718" "textured" 20
    = Ok r).
  { eexists. eexists. split; vm_compute; reflexivity. }
  destruct H as (b & r & Hb & Hr).
  exists b, r. split; [exact Hb|]. split; [exact Hr|].
  destruct paths_share_catalogs as (_ & _ & Hall).
  assert (Ev : dict_get (<["volume" := VFloat (literal 12.5)]> ∅) "volume" (VInt 100)
               = VFloat (literal 12.5)).
  { unfold dict_get. rewrite lookup_insert_eq. reflexivity. }
  destruct (Hall (<["volume" := VFloat (literal 12.5)]> ∅) (literal 12.5) (literal 40)
              "718" "textured" 1%Z 20%Z None None b r Ev Hb Hr)
    as (Hmc & Hmr & _ & Hname & _).
  destruct (calculate_infos _ _ _ _ _ _ _ Hb) as [Emi _].
  rewrite Emi in Hmc, Hmr, Hname.
  split; [exact Hmc|]. split; [exact Hmr | exact Hname].
Defined.

End PathsSideBySide.


(** * Further properties of the code *)

(** ** The detailed calculator: catalog fallbacks and configurations *)

Section CalculatorFallbacks.

Import BudgetCalculator.
Local Open Scope Q_scope.

(** X3.  A configuration that is empty counts as no configuration: with
    both configurations absent or empty the call is the call without
    configurations, the mould base costs the flat 3000 and the setup fee
    is the base 2500. *)
Theorem empty_configs_are_absent
    stats material finish quantity mold_base_config cad_base_config :
  config_truthy mold_base_config = false ->
  config_truthy cad_base_config = false ->
  calculate stats material finish quantity mold_base_config cad_base_config
  = calculate stats material finish quantity None None /\
  forall b,
    calculate stats material finish quantity mold_base_config cad_base_config = Ok b ->
    mold_base_cost b = 3000 /\ setup_fee b = 2500.0.
Proof.
  intros Hm Hc.
  assert (Eb : _calculate_mold_base_cost mold_base_config cad_base_config = Ok 3000).
  { unfold _calculate_mold_base_cost. rewrite Hc, Hm. reflexivity. }
  assert (Es : _calculate_setup_fee mold_base_config = 2500.0).
  { unfold _calculate_setup_fee. rewrite Hm. reflexivity. }
  split.
  - unfold calculate. rewrite Eb, Es. reflexivity.
  - intros b H. apply calculate_inv in H.
    destruct H as (_ & _ & Hmb & Hsf & _).
    rewrite Eb in Hmb. injection Hmb as <-. rewrite Hsf, Es. split; reflexivity.
Qed.

Lemma empty_configs_are_absent_witness :
  config_truthy (Some ∅) = false /\
  calculate ∅ "P20" "machined" 1 (Some ∅) (Some ∅)
  = calculate ∅ "P20" "machined" 1 None None.
Proof.
  split; [reflexivity|].
  exact (proj1 (empty_configs_are_absent ∅ "P20" "machined" 1 (Some ∅) (Some ∅)
                  eq_refl eq_refl)).
Defined.

End CalculatorFallbacks.

(** ** The detailed calculator: mould base and setup fee *)

Section MouldBase.

Import BudgetCalculator.
Local Open Scope Q_scope.

Ltac catalog_entries_in H :=
  repeat match type of H with
  | context [getitem ?table ?key] =>
      let entry := eval vm_compute in (getitem table key) in
      change (getitem table key) with entry in H
  end.

Ltac table_entries E :=
  apply elem_of_list_to_map_2 in E;
  repeat (apply elem_of_cons in E; destruct E as [E|E];
          [injection E as _ ->; cbn; lra|]);
  apply elem_of_nil in E; destruct E.

Lemma cad_base_le_4500 (supplier : string) (dflt : cad_base_info) :
  base dflt <= 4500 -> base (default dflt (CAD_MOLD_BASE_PRICES !! supplier)) <= 4500.
Proof.
  intros Hd.
  destruct (CAD_MOLD_BASE_PRICES !! supplier) as [info|] eqn:E; [|exact Hd].
  cbn [default]. table_entries E.
Qed.

Lemma plate_addon_le (plate : string) : default 0 (PLATE_MATERIAL_ADDONS !! plate) <= 1200.
Proof.
  destruct (PLATE_MATERIAL_ADDONS !! plate) as [addon|] eqn:E;
    cbn [from_option id]; [|lra].
  table_entries E.
Qed.

(** An entry that is truthy is an entry of a non-empty dictionary. *)
Lemma truthy_entry_config_truthy (cfg : gmap string pyval) (key : string) :
  truthy (dict_get cfg key PyNone) = true -> config_truthy (Some cfg) = true.
Proof.
  unfold dict_get. intros H.
  destruct (cfg !! key) as [v|] eqn:E; [|discriminate H].
  cbn [config_truthy truthy].
  destruct (map_to_list cfg) eqn:El; [|reflexivity].
  apply map_to_list_empty_iff in El. subst cfg.
  rewrite lookup_empty in E. discriminate E.
Qed.

(** X4.  A CAD configuration that is not empty takes the mould-base
    price over: the legacy configuration given beside it adds nothing to
    the mould-base cost, whatever it holds.  The setup fee, however, is
    still read from the legacy configuration, so that its
    [conformalCooling] entry adds the 1500 of engineering although the
    5000 of the cooling itself are not charged. *)
Theorem cad_config_overrides_legacy
    stats material finish quantity mold_base_config cad_base_config b b' :
  config_truthy cad_base_config = true ->
  calculate stats material finish quantity mold_base_config cad_base_config = Ok b ->
  calculate stats material finish quantity None cad_base_config = Ok b' ->
  _calculate_mold_base_cost mold_base_config cad_base_config
    = _calculate_mold_base_cost None cad_base_config /\
  mold_base_cost b = mold_base_cost b' /\
  setup_fee b' = 2500.0 /\
  (forall cfg,
     mold_base_config = Some cfg ->
     truthy (dict_get cfg "conformalCooling" PyNone) = true ->
     setup_fee b = 2500.0 + 1500 /\
     subtotal_of b == subtotal_of b' + 1500).
Proof.
  intros Hc H H'.
  assert (E : _calculate_mold_base_cost mold_base_config cad_base_config
              = _calculate_mold_base_cost None cad_base_config).
  { unfold _calculate_mold_base_cost. rewrite Hc. reflexivity. }
  apply calculate_inv in H. apply calculate_inv in H'.
  destruct H as (Hmc & Hpc & Hmb & Hsf & _).
  destruct H' as (Hmc' & Hpc' & Hmb' & Hsf' & _).
  assert (Emb : mold_base_cost b = mold_base_cost b') by congruence.
  assert (Emc : material_cost b = material_cost b') by congruence.
  assert (Epc : processing_cost b = processing_cost b') by congruence.
  split; [exact E|]. split; [exact Emb|]. split; [exact Hsf'|].
  intros cfg -> Ht.
  assert (Es : setup_fee b = 2500.0 + 1500).
  { rewrite Hsf. unfold _calculate_setup_fee.
    rewrite (truthy_entry_config_truthy cfg _ Ht). cbn [from_option id].
    rewrite Ht. reflexivity. }
  split; [exact Es|].
  unfold subtotal_of. rewrite Es, Emb, Emc, Epc, Hsf'.
  unfold _calculate_setup_fee, BASE_FIXED_FEE. cbn [config_truthy]. ring.
Qed.

Lemma cad_config_overrides_legacy_witness :
  let cad : gmap string pyval := {["supplier" := PyStr "DME Standard"]} in
  let legacy : gmap string pyval := {["conformalCooling" := PyBool true]} in
  config_truthy (Some cad) = true /\
  truthy (dict_get legacy "conformalCooling" PyNone) = true /\
  exists b b',
    calculate ∅ "P20" "machined" 1 (Some legacy) (Some cad) = Ok b /\
    calculate ∅ "P20" "machined" 1 None (Some cad) = Ok b' /\
    mold_base_cost b = mold_base_cost b' /\
    setup_fee b = 2500.0 + 1500 /\
    setup_fee b' = 2500.0.
Proof.
  intros cad legacy.
  assert (Hc : config_truthy (Some cad) = true) by reflexivity.
  assert (Ht : truthy (dict_get legacy "conformalCooling" PyNone) = true) by reflexivity.
  split; [exact Hc|]. split; [exact Ht|].
  assert (H : exists b b',
    calculate ∅ "P20" "machined" 1 (Some legacy) (Some cad) = Ok b /\
    calculate ∅ "P20" "machined" 1 None (Some cad) = Ok b').
  { eexists. eexists. split; vm_compute; reflexivity. }
  destruct H as (b & b' & H & H').
  exists b, b'. split; [exact H|]. split; [exact H'|].
  destruct (cad_config_overrides_legacy _ _ _ _ _ _ b b' Hc H H')
    as (_ & Emb & Es' & Hcool).
  destruct (Hcool legacy eq_refl Ht) as [Es _].
  split; [exact Emb|]. split; [exact Es | exact Es'].
Defined.

Lemma config_truthy_insert (cfg : gmap string pyval) (key : string) (v : pyval) :
  config_truthy (Some (<[key := v]> cfg)) = true.
Proof.
  cbn [config_truthy truthy].
  destruct (map_to_list (<[key := v]> cfg)) eqn:E; [|reflexivity].
  apply map_to_list_empty_iff in E. exfalso. exact (insert_non_empty _ _ _ E).
Qed.

(** X5.  With a CAD configuration in use the mould base costs between
    2500 and 6800 whenever it is computed: the dearest base, the dearest
    plate material and both extras at most, the cheapest base with the
    aluminium plates at least.  A supplier that is not in the catalog is
    priced as "HASCO Standard", and a plate material that is not in the
    catalog as "Aço 1.1730 (C45W)", the plate without addition. *)
Theorem cad_mold_base_cost_bounds (mold_base_config : option (gmap string pyval)) :
  (forall cad_base_config cost,
     config_truthy cad_base_config = true ->
     _calculate_mold_base_cost mold_base_config cad_base_config = Ok cost ->
     2500 <= cost <= 6800) /\
  (forall cfg supplier,
     CAD_MOLD_BASE_PRICES !! supplier = None ->
     _calculate_mold_base_cost mold_base_config
       (Some (<["supplier" := PyStr supplier]> cfg))
     = _calculate_mold_base_cost mold_base_config
         (Some (<["supplier" := PyStr "HASCO Standard"]> cfg))) /\
  (forall cfg plate,
     PLATE_MATERIAL_ADDONS !! plate = None ->
     PLATE_MATERIAL_ADDONS !! "Aço 1.1730 (C45W)" = Some 0 /\
     _calculate_mold_base_cost mold_base_config
       (Some (<["plateMaterial" := PyStr plate]> cfg))
     = _calculate_mold_base_cost mold_base_config
         (Some (<["plateMaterial" := PyStr "Aço 1.1730 (C45W)"]> cfg))).
Proof.
  split; [|split].
  - intros cad_base_config cost.
    unfold _calculate_mold_base_cost. intros Hc H. rewrite Hc in H.
    catalog_entries_in H. cbn [mbind exn_bind] in H.
    destruct (dict_get _ "supplier" _) as [| | |supplier| |];
      cbn [table_get mbind exn_bind] in H; try discriminate H;
    destruct (dict_get _ "plateMaterial" _) as [| | |plate| |];
      cbn [table_get mbind exn_bind] in H; try discriminate H;
    repeat match type of H with
    | context [base (default ?d (CAD_MOLD_BASE_PRICES !! ?k))] =>
        pose proof (cad_base_ge_3000 k d ltac:(cbn; lra));
        pose proof (cad_base_le_4500 k d ltac:(cbn; lra));
        set (base (default d (CAD_MOLD_BASE_PRICES !! k))) in *
    | context [default 0 (PLATE_MATERIAL_ADDONS !! ?k)] =>
        pose proof (plate_addon_ge k);
        pose proof (plate_addon_le k);
        set (default 0 (PLATE_MATERIAL_ADDONS !! k)) in *
    end;
    repeat match type of H with
    | context [if ?b then _ else _] => destruct b
    end;
    cbn [mbind exn_bind mret exn_ret base] in H; injection H as <-; lra.
  - intros cfg supplier Hn.
    unfold _calculate_mold_base_cost. rewrite !config_truthy_insert.
    cbn [default from_option id]. unfold dict_get.
    rewrite !lookup_insert_eq, !lookup_insert_ne by discriminate.
    cbn [default from_option id table_get]. rewrite Hn.
    assert (E : CAD_MOLD_BASE_PRICES !! "HASCO Standard"
                = Some {| base := 3500; series := "Z40/41" |}) by reflexivity.
    assert (E' : getitem CAD_MOLD_BASE_PRICES "HASCO Standard"
                 = Ok {| base := 3500; series := "Z40/41" |}) by reflexivity.
    rewrite E, E'. reflexivity.
  - intros cfg plate Hn. split; [reflexivity|].
    unfold _calculate_mold_base_cost. rewrite !config_truthy_insert.
    cbn [default from_option id]. unfold dict_get.
    rewrite !lookup_insert_eq, !lookup_insert_ne by discriminate.
    cbn [default from_option id table_get]. rewrite Hn.
    assert (E : PLATE_MATERIAL_ADDONS !! "Aço 1.1730 (C45W)" = Some 0) by reflexivity.
    rewrite E. reflexivity.
Qed.

Lemma cad_mold_base_cost_bounds_witness :
  let cad : gmap string pyval :=
    <["liftingHoles" := PyBool true]>
      (<["insulationPlates" := PyBool true]>
         (<["plateMaterial" := PyStr "Aço 1.2767 (H13 Mod)"]>
            {["supplier" := PyStr "HASCO Premium"]})) in
  config_truthy (Some cad) = true /\
  _calculate_mold_base_cost None (Some cad) = Ok (0 + 4500 + 1200 + 800.0 + 300.0) /\
  2500 <= 0 + 4500 + 1200 + 800.0 + 300.0 <= 6800 /\
  CAD_MOLD_BASE_PRICES !! "MEUSBURGER" = None /\
  _calculate_mold_base_cost None (Some (<["supplier" := PyStr "MEUSBURGER"]> cad))
  = _calculate_mold_base_cost None (Some (<["supplier" := PyStr "HASCO Standard"]> cad)).
Proof.
  intros cad.
  assert (Hc : config_truthy (Some cad) = true) by reflexivity.
  assert (H : _calculate_mold_base_cost None (Some cad)
              = Ok (0 + 4500 + 1200 + 800.0 + 300.0)) by reflexivity.
  assert (Hn : CAD_MOLD_BASE_PRICES !! "MEUSBURGER" = None) by reflexivity.
  destruct (cad_mold_base_cost_bounds None) as (Hbounds & Hsupplier & _).
  split; [exact Hc|]. split; [exact H|].
  split; [exact (Hbounds (Some cad) _ Hc H)|].
  split; [exact Hn|]. exact (Hsupplier cad "MEUSBURGER" Hn).
Defined.

End MouldBase.

(** ** The detailed calculator: totals against quantity and volume *)

Section DetailedTotals.

Import BudgetCalculator.
Local Open Scope Q_scope.

Ltac catalog_entries_in H :=
  repeat match type of H with
  | context [getitem ?table ?key] =>
      let entry := eval vm_compute in (getitem table key) in
      change (getitem table key) with entry in H
  end.









End DetailedTotals.

(** ** The simple pricing path *)

Section SimplePath.

Local Open Scope Q_scope.

Ltac main_entries E :=
  apply elem_of_list_to_map_2 in E;
  repeat (apply elem_of_cons in E; destruct E as [E|E];
          [injection E as _ ->; cbn; lra|]);
  apply elem_of_nil in E; destruct E.

Lemma main_price_nonneg (material : string) (dflt : Main.material_config) :
  0 <= Main.price dflt -> 0 <= Main.price (default dflt (Main.materials !! material)).
Proof.
  intros Hd.
  destruct (Main.materials !! material) as [info|] eqn:E; [|exact Hd].
  cbn [default]. main_entries E.
Qed.

Lemma main_multiplier_ge_1 (finish : string) (dflt : Main.finish_config) :
  1 <= Main.multiplier dflt ->
  1 <= Main.multiplier (default dflt (Main.finishes !! finish)).
Proof.
  intros Hd.
  destruct (Main.finishes !! finish) as [info|] eqn:E; [|exact Hd].
  cbn [default]. main_entries E.
Qed.

Lemma int_tenth (quantity : Z) : int (inject_Z quantity / 10) = (quantity ÷ 10)%Z.
Proof.
  unfold int, Qdiv, Qmult, Qinv, inject_Z. cbn [Qnum Qden].
  rewrite Z.mul_1_r. reflexivity.
Qed.


(** What the simple path returns, in terms of the cost of one piece
    before the quantity multiplier. *)
Lemma calculate_budget_from_stats_inv stats material finish quantity r :
  Main.calculate_budget_from_stats stats material finish quantity = Ok r ->
  exists piece : Q,
    (0 <= Main.volume_cm3 stats -> 500 <= piece) /\
    (forall quantity' r',
       Main.calculate_budget_from_stats stats material finish quantity' = Ok r' ->
       Main.total_price r'
       = round (piece * Main.quantity_discount quantity' * inject_Z quantity') 2 /\
       Main.unit_price r' = round (piece * Main.quantity_discount quantity') 2 /\
       Main.production_time_days r' = Z.max 5 (quantity' ÷ 10 + 3)).
Proof.
  unfold Main.calculate_budget_from_stats.
  rewrite materials_P20, finishes_machined.
  cbn [mbind exn_bind mret exn_ret]. intros _.
  match goal with
  | |- context [Main.price (default ?d _)] =>
      pose proof (main_price_nonneg material d ltac:(cbn; lra)) as Hp;
      set (p := Main.price (default d (Main.materials !! material))) in *
  end.
  match goal with
  | |- context [Main.multiplier (default ?d _)] =>
      pose proof (main_multiplier_ge_1 finish d ltac:(cbn; lra)) as Hm;
      set (k := Main.multiplier (default d (Main.finishes !! finish))) in *
  end.
  eexists. split.
  2: { intros quantity' r' H. injection H as <-.
       cbn [Main.total_price Main.unit_price Main.production_time_days].
       rewrite int_tenth. repeat split; reflexivity. }
  intros Hv. cbv beta.
  assert (Hmc : 0 <= Main.volume_cm3 stats * p) by nra.
  assert (Hfc : 0 <= Main.volume_cm3 stats * p * (k - 1.0)) by nra.
  lra.
Qed.

(** X9.  The production time of the simple path is at least 5 days; it
    is exactly 5 days for every quantity below 30, a tenth of the
    quantity (rounded down) plus 3 days from 30 pieces up to 10^15
    pieces, a range in which the quotient in double precision has the
    integer part of the exact one, and it never decreases when the
    quantity grows. *)
Theorem production_time_days_bounds stats material finish q1 q2 r1 r2 :
  Main.calculate_budget_from_stats stats material finish q1 = Ok r1 ->
  Main.calculate_budget_from_stats stats material finish q2 = Ok r2 ->
  (5 <= Main.production_time_days r1)%Z /\
  ((q1 < 30)%Z -> Main.production_time_days r1 = 5%Z) /\
  ((30 <= q1 <= 10 ^ 15)%Z -> Main.production_time_days r1 = (q1 / 10 + 3)%Z) /\
  ((q1 <= q2)%Z -> (Main.production_time_days r1 <= Main.production_time_days r2)%Z).
Proof.
  intros H1 H2.
  destruct (calculate_budget_from_stats_inv _ _ _ _ _ H1) as (piece & _ & Hall).
  destruct (Hall q1 r1 H1) as (_ & _ & E1).
  destruct (Hall q2 r2 H2) as (_ & _ & E2).
  rewrite E1, E2.
  split; [lia|]. split; [|split].
  - intros Hq.
    assert (q1 ÷ 10 <= 29 ÷ 10)%Z by (apply Z.quot_le_mono; lia).
    change (29 ÷ 10)%Z with 2%Z in *. lia.
  - intros [Hq _]. rewrite Z.quot_div_nonneg by lia.
    assert (30 / 10 <= q1 / 10)%Z by (apply Z.div_le_mono; lia).
    change (30 / 10)%Z with 3%Z in *. lia.
  - intros Hq.
    assert (q1 ÷ 10 <= q2 ÷ 10)%Z by (apply Z.quot_le_mono; lia).
    lia.
Qed.

Lemma production_time_days_bounds_witness :
  exists r1 r2,
    Main.calculate_budget_from_stats small_part "P20" "machined" 29 = Ok r1 /\
    Main.calculate_budget_from_stats small_part "P20" "machined" 57 = Ok r2 /\
    (29 < 30)%Z /\ Main.production_time_days r1 = 5%Z /\
    (30 <= 57 <= 10 ^ 15)%Z /\ Main.production_time_days r2 = (57 / 10 + 3)%Z.
Proof.
  assert (H : exists r1 r2,
    Main.calculate_budget_from_stats small_part "P20" "machined" 29 = Ok r1 /\
    Main.calculate_budget_from_stats small_part "P20" "machined" 57 = Ok r2).
  { eexists. eexists. split; vm_compute; reflexivity. }
  destruct H as (r1 & r2 & H1 & H2). exists r1, r2.
  split; [exact H1|]. split; [exact H2|]. split; [lia|].
  destruct (production_time_days_bounds _ _ _ _ _ r1 r2 H1 H2) as (_ & Hlow & _).
  destruct (production_time_days_bounds _ _ _ _ _ r2 r1 H2 H1) as (_ & _ & Hhigh & _).
  split; [apply Hlow; lia|]. split; [lia|]. apply Hhigh; lia.
Defined.



End SimplePath.

(** ** The pricing of the dashboard *)

Section DashboardPricing.

Local Open Scope Q_scope.

Ltac dashboard_entries E :=
  apply elem_of_list_to_map_2 in E;
  repeat (apply elem_of_cons in E; destruct E as [E|E];
          [injection E as _ ->; cbn; lra|]);
  apply elem_of_nil in E; destruct E.

Lemma dashboard_density_pos (key : string) (material : Dashboard.MaterialInfo) :
  Dashboard.MATERIALS !! key = Some material -> 0 <= Dashboard.density material.
Proof. intros E. dashboard_entries E. Qed.

Lemma dashboard_factor_ge_1 (key : string) (finish : Dashboard.FinishInfo) :
  Dashboard.FINISHES !! key = Some finish -> 1 <= Dashboard.factor finish.
Proof. intros E. dashboard_entries E. Qed.

(** X12.  The dashboard pricing has no fallback: a material key that is
    not in its catalog raises [KeyError], and so does, for a material
    key of the catalog, a finish key that is not in its catalog; a budget
    is returned only for keys that are both in the catalogs. *)
Theorem dashboard_budget_needs_known_keys
    (volume_cm3 : Q) (material_key finish_key : string) (quantity : Z) :
  (Dashboard.MATERIALS !! material_key = None ->
   Dashboard.calculate_budget volume_cm3 material_key finish_key quantity
   = Raise KeyError) /\
  (is_Some (Dashboard.MATERIALS !! material_key) ->
   Dashboard.FINISHES !! finish_key = None ->
   Dashboard.calculate_budget volume_cm3 material_key finish_key quantity
   = Raise KeyError) /\
  (forall b,
     Dashboard.calculate_budget volume_cm3 material_key finish_key quantity = Ok b ->
     is_Some (Dashboard.MATERIALS !! material_key) /\
     is_Some (Dashboard.FINISHES !! finish_key)).
Proof.
  unfold Dashboard.calculate_budget, getitem.
  destruct (Dashboard.MATERIALS !! material_key) as [m|];
    [destruct (Dashboard.FINISHES !! finish_key) as [f|]|];
    cbn [mbind exn_bind mret exn_ret].
  - split; [intros H; discriminate H|]. split; [intros _ H; discriminate H|].
    intros b _. split; eexists; reflexivity.
  - split; [intros H; discriminate H|]. split; [reflexivity|].
    intros b H. discriminate H.
  - split; [reflexivity|]. split; [intros [? H]; discriminate H|].
    intros b H. discriminate H.
Qed.

Lemma dashboard_budget_needs_known_keys_witness :
  Dashboard.MATERIALS !! "P20" = None /\
  Dashboard.calculate_budget 100 "P20" "Retificado" 10 = Raise KeyError /\
  is_Some (Dashboard.MATERIALS !! "Aço P20") /\
  Dashboard.FINISHES !! "ground" = None /\
  Dashboard.calculate_budget 100 "Aço P20" "ground" 10 = Raise KeyError.
Proof.
  assert (Hm : is_Some (Dashboard.MATERIALS !! "Aço P20")) by (eexists; reflexivity).
  split; [reflexivity|]. split.
  - destruct (dashboard_budget_needs_known_keys 100 "P20" "Retificado" 10) as (H & _).
    exact (H eq_refl).
  - split; [exact Hm|]. split; [reflexivity|].
    destruct (dashboard_budget_needs_known_keys 100 "Aço P20" "ground" 10) as (_ & H & _).
    exact (H Hm eq_refl).
Defined.

(** X13.  The dashboard charges its 500 setup fee once per order and
    applies the discount rate of the detailed calculator: for given
    volume and keys there is one subtotal, at least 550 when the volume
    is not negative, and for every quantity the total is that subtotal
    times one minus [_calculate_discount], rounded.  The price per piece
    is the unrounded total divided by the quantity; for a quantity of
    zero or below it is the total itself. *)
Theorem dashboard_budget_totals (volume_cm3 : Q) (material_key finish_key : string) :
  exists subtotal : Q,
    (0 <= volume_cm3 ->
     is_Some (Dashboard.MATERIALS !! material_key) ->
     is_Some (Dashboard.FINISHES !! finish_key) ->
     550 <= subtotal) /\
    forall quantity b,
      Dashboard.calculate_budget volume_cm3 material_key finish_key quantity = Ok b ->
      Dashboard.setup_fee b = 500.0 /\
      Dashboard.subtotal b = round subtotal 2 /\
      Dashboard.total b
      = round (subtotal * (1 - BudgetCalculator._calculate_discount quantity)) 2 /\
      Dashboard.discount_amount b
      = round (subtotal * BudgetCalculator._calculate_discount quantity) 2 /\
      ((0 < quantity)%Z ->
       Dashboard.total_per_piece b
       = round (subtotal * (1 - BudgetCalculator._calculate_discount quantity)
                / inject_Z quantity) 2) /\
      ((quantity <= 0)%Z -> Dashboard.total_per_piece b = Dashboard.total b).
Proof.
  unfold Dashboard.calculate_budget, getitem.
  destruct (Dashboard.MATERIALS !! material_key) as [m|] eqn:Em;
    [|exists 0; split; [intros _ [? H]; discriminate H | intros q b H; discriminate H]].
  destruct (Dashboard.FINISHES !! finish_key) as [f|] eqn:Ef;
    [|exists 0; split; [intros _ _ [? H]; discriminate H | intros q b H; discriminate H]].
  cbn [mbind exn_bind mret exn_ret].
  pose proof (dashboard_density_pos _ _ Em) as Hd.
  pose proof (dashboard_factor_ge_1 _ _ Ef) as Hf.
  eexists. split.
  2: { intros quantity b H. injection H as <-.
       cbn [Dashboard.setup_fee Dashboard.subtotal Dashboard.total
            Dashboard.discount_amount Dashboard.total_per_piece].
       fold (BudgetCalculator._calculate_discount quantity).
       split; [reflexivity|]. split; [reflexivity|]. split; [reflexivity|].
       split; [reflexivity|]. split; intros Hq.
       - destruct (Z.gtb_spec quantity 0); [reflexivity | lia].
       - destruct (Z.gtb_spec quantity 0); [lia | reflexivity]. }
  intros Hv _ _. cbv beta.
  assert (0 <= volume_cm3 * Dashboard.density m) by nra.
  assert (0 <= volume_cm3 * Dashboard.factor f) by nra.
  nra.
Qed.

Lemma dashboard_budget_totals_witness :
  exists subtotal b,
    Dashboard.calculate_budget 100 "Aço H13" "Polido Espelhado" 0 = Ok b /\
    (0 <= 0)%Z /\
    Dashboard.subtotal b = round subtotal 2 /\
    Dashboard.total_per_piece b = Dashboard.total b.
Proof.
  destruct (dashboard_budget_totals 100 "Aço H13" "Polido Espelhado") as (subtotal & _ & Hall).
  assert (H : exists b,
    Dashboard.calculate_budget 100 "Aço H13" "Polido Espelhado" 0 = Ok b).
  { eexists. vm_compute. reflexivity. }
  destruct H as (b & H).
  exists subtotal, b. split; [exact H|]. split; [lia|].
  destruct (Hall 0%Z b H) as (_ & Hs & _ & _ & _ & Hz).
  split; [exact Hs | apply Hz; lia].
Defined.

End DashboardPricing.

(** ** The statistics of the simple path against the analyzer *)

Section SimpleStatistics.

Import GeometryAnalyzer.
Local Open Scope Q_scope.

Variable sqrtQ : Q -> Q.

(** X14.  [calculate_geometry_stats] and [analyze] accept the same
    meshes, those with bounds.  On a mesh both accept, the simple
    statistics carry the raw mesh volume divided by 1000 and the area
    divided by 100, watertight or not, whereas the analyzer reports the
    mesh volume itself, or 0 when the mesh is not watertight; the
    [is_manifold] flag of the simple statistics is the watertightness
    flag under another name. *)
Theorem simple_statistics_against_analyzer (m : Trimesh) :
  succeeds (MainStatistics.calculate_geometry_stats m) = succeeds (analyze sqrtQ m) /\
  (bounds m = None <-> MainStatistics.calculate_geometry_stats m = Raise TypeError) /\
  forall s r,
    MainStatistics.calculate_geometry_stats m = Ok s ->
    analyze sqrtQ m = Ok r ->
    Main.volume_cm3 s == volume m / 1000 /\
    Main.area_cm2 s == stat_area r / 100 /\
    Main.is_manifold s = Main.is_watertight s /\
    Main.is_watertight s = is_watertight m /\
    (is_watertight m = true -> stat_volume r == 1000 * Main.volume_cm3 s) /\
    (is_watertight m = false -> stat_volume r == 0) /\
    Main.vertices_count s = Z.of_nat (vertex_count (mesh_info r)) /\
    Main.faces_count s = Z.of_nat (face_count (mesh_info r)) /\
    Main.dimensions s !! "width" = Some (width (dimensions r)) /\
    Main.dimensions s !! "height" = Some (height (dimensions r)) /\
    Main.dimensions s !! "depth" = Some (depth (dimensions r)).
Proof.
  split; [|split].
  - unfold MainStatistics.calculate_geometry_stats, analyze.
    destruct (bounds m) as [[[[lox loy] loz] [[hix hiy] hiz]]|]; reflexivity.
  - unfold MainStatistics.calculate_geometry_stats.
    destruct (bounds m) as [[[[lox loy] loz] [[hix hiy] hiz]]|].
    + split; intros H; discriminate H.
    + split; reflexivity.
  - intros s r Hs Hr.
    destruct (analyze_inv sqrtQ m r Hr)
      as (lo & hi & sx & sy & sz & Hb & Hsub & Hd & Hv & Ha & _ & _ & Hvc & Hfc & _).
    unfold MainStatistics.calculate_geometry_stats in Hs. rewrite Hb in Hs.
    destruct lo as [[lox loy] loz]. destruct hi as [[hix hiy] hiz].
    cbn [vsub] in Hsub. injection Hsub as <- <- <-.
    cbn [mret exn_ret] in Hs. injection Hs as <-.
    cbn [Main.volume_cm3 Main.area_cm2 Main.is_manifold Main.is_watertight
         Main.vertices_count Main.faces_count Main.dimensions].
    rewrite Hd, Hv, Ha, Hvc, Hfc. cbn [width height depth].
    split; [field|]. split; [field|]. split; [reflexivity|].
    split; [reflexivity|]. split; [|split].
    + intros ->. field.
    + intros ->. reflexivity.
    + repeat split; reflexivity.
Qed.

End SimpleStatistics.

(** ** The sub-analyses of the analyzer *)

Section FaceTypes.

Import GeometryAnalyzer.
Local Open Scope Q_scope.

Lemma isclose_90_far (a : Q) : a < 88.999 -> isclose a 90 1 = false.
Proof.
  intros H. unfold isclose.
  destruct (Qle_bool (Qabs (a - 90)) (1 + (1 # 100000) * Qabs 90)) eqn:E;
    [|reflexivity].
  apply Qle_bool_iff in E. exfalso.
  rewrite Qabs_neg in E by lra.
  assert (E90 : Qabs 90 == 90) by reflexivity.
  rewrite E90 in E. lra.
Qed.

(** X15.  [_analyze_face_types] puts every triple of face angles in
    exactly one of its three classes: the three counts are not negative
    and add up to the number of triples. *)
Theorem face_types_count_every_face (m : Trimesh) :
  let triangles := _analyze_face_types m in
  (0 <= acute triangles)%Z /\ (0 <= right triangles)%Z /\ (0 <= obtuse triangles)%Z /\
  (acute triangles + right triangles + obtuse triangles
   = Z.of_nat (length (face_angles m)))%Z.
Proof.
  unfold _analyze_face_types.
  match goal with |- context [fold_left ?f _ _] => set (step := f) end.
  assert (H : forall l acc,
    (0 <= acute acc)%Z -> (0 <= right acc)%Z -> (0 <= obtuse acc)%Z ->
    let t := fold_left step l acc in
    (0 <= acute t)%Z /\ (0 <= right t)%Z /\ (0 <= obtuse t)%Z /\
    (acute t + right t + obtuse t
     = acute acc + right acc + obtuse acc + Z.of_nat (length l))%Z).
  { induction l as [|[[a b] c] l IH]; intros acc Ha Hr Ho; cbn [fold_left length].
    - cbv zeta. lia.
    - assert (Hstep : (0 <= acute (step acc (a, b, c)))%Z /\
                      (0 <= right (step acc (a, b, c)))%Z /\
                      (0 <= obtuse (step acc (a, b, c)))%Z /\
                      (acute (step acc (a, b, c)) + right (step acc (a, b, c)) +
                       obtuse (step acc (a, b, c))
                       = acute acc + right acc + obtuse acc + 1)%Z).
      { subst step. cbv beta iota.
        destruct (isclose a 90 1 || isclose b 90 1 || isclose c 90 1);
          [|destruct (Qltb a 90 && Qltb b 90 && Qltb c 90)];
          cbn [acute right obtuse]; lia. }
      destruct Hstep as (Ha' & Hr' & Ho' & Hsum).
      destruct (IH (step acc (a, b, c)) Ha' Hr' Ho') as (H1 & H2 & H3 & H4).
      cbv zeta. split; [exact H1|]. split; [exact H2|]. split; [exact H3|]. lia. }
  cbv zeta.
  destruct (H (face_angles m) {| acute := 0; right := 0; obtuse := 0 |})
    as (H1 & H2 & H3 & H4); cbn [acute right obtuse]; try lia.
  cbn [acute right obtuse] in H4.
  split; [exact H1|]. split; [exact H2|]. split; [exact H3|]. lia.
Qed.

(** X16.  The classes are told apart by comparing each angle with 90.
    When all three angles of every face are below 88.999, as they are
    whenever the angles are given in radians, every face is counted as
    acute and none as right or obtuse. *)
Theorem small_angles_all_counted_acute (m : Trimesh) :
  Forall (fun angles => let '(a, b, c) := angles in
                        a < 88.999 /\ b < 88.999 /\ c < 88.999) (face_angles m) ->
  _analyze_face_types m
  = {| acute := Z.of_nat (length (face_angles m)); right := 0; obtuse := 0 |}.
Proof.
  unfold _analyze_face_types.
  match goal with |- context [fold_left ?f _ _] => set (step := f) end.
  assert (H : forall l n,
    Forall (fun angles => let '(a, b, c) := angles in
                          a < 88.999 /\ b < 88.999 /\ c < 88.999) l ->
    fold_left step l {| acute := n; right := 0; obtuse := 0 |}
    = {| acute := n + Z.of_nat (length l); right := 0; obtuse := 0 |}).
  { induction l as [|[[a b] c] l IH]; intros n Hall; cbn [fold_left length].
    - f_equal. cbn. lia.
    - inversion Hall as [|? ? Habc Hl]; subst.
      cbv beta iota in Habc. destruct Habc as (Ha & Hb & Hc).
      assert (Hstep : step {| acute := n; right := 0; obtuse := 0 |} (a, b, c)
                      = {| acute := n + 1; right := 0; obtuse := 0 |}).
      { subst step. cbv beta iota.
        rewrite !isclose_90_far by assumption.
        assert (Ea : Qltb a 90 = true) by (apply Qltb_lt; lra).
        assert (Eb : Qltb b 90 = true) by (apply Qltb_lt; lra).
        assert (Ec : Qltb c 90 = true) by (apply Qltb_lt; lra).
        rewrite Ea, Eb, Ec. reflexivity. }
      rewrite Hstep, (IH _ Hl). f_equal. lia. }
  intros Hall. rewrite (H _ 0%Z Hall). reflexivity.
Qed.

Lemma small_angles_all_counted_acute_witness :
  _analyze_face_types (Examples.cube 10) = {| acute := 12; right := 0; obtuse := 0 |}.
Proof.
  apply (small_angles_all_counted_acute (Examples.cube 10)).
  cbn [face_angles Examples.cube repeat].
  repeat constructor; lra.
Defined.

End FaceTypes.

Section CriticalFeatures.

Import GeometryAnalyzer.
Local Open Scope Q_scope.

Variable sqrtQ : Q -> Q.

Lemma vertices_of_in_range (m : Trimesh) (face : nat * nat * nat) :
  face_in_range m face -> exists v, vertices_of m face = Ok v.
Proof.
  destruct face as [[i j] k]. intros (Hi & Hj & Hk).
  unfold vertices_of.
  destruct (index_in_range _ _ Hi) as [v0 ->].
  destruct (index_in_range _ _ Hj) as [v1 ->].
  destruct (index_in_range _ _ Hk) as [v2 ->].
  eexists. reflexivity.
Qed.

Lemma mapM_length {A B} (f : A -> exn B) (l : list A) (ys : list B) :
  mapM f l = Ok ys -> length ys = length l.
Proof.
  intros H. apply mapM_Ok in H. symmetry. exact (Forall2_length _ _ _ H).
Qed.

(** X17.  [_identify_critical_features] never returns an empty list.
    The labels "Geometria padrão" and "Análise não disponível" only come
    alone.  A mesh without faces gets "Análise não disponível", whatever
    its other properties; a mesh with at least one face and face indices
    in range never does, and it is labelled "Geometria não-convexa"
    exactly when it is not convex. *)
Theorem critical_features_labels (m : Trimesh) :
  let features := _identify_critical_features sqrtQ m in
  features <> [] /\
  (In "Geometria padrão" features -> features = ["Geometria padrão"]) /\
  (In "Análise não disponível" features -> features = ["Análise não disponível"]) /\
  (faces m = [] -> features = ["Análise não disponível"]) /\
  (faces_in_range m -> faces m <> [] ->
   ~ In "Análise não disponível" features /\
   (is_convex m = false <-> In "Geometria não-convexa" features)).
Proof.
  cbv zeta.
  assert (Hshape :
    _identify_critical_features sqrtQ m = ["Análise não disponível"] \/
    exists thin : bool,
      _identify_critical_features sqrtQ m
      = let features :=
          ((if Qgtb (inject_Z (Z.of_nat (length (edges_unique m))))
                    (inject_Z (Z.of_nat (length (faces m))) * 1.5)
            then ["Furos/Multicavidades"] else []) ++
           (if negb (is_convex m) then ["Geometria não-convexa"] else [])) ++
          (if thin then ["Paredes finas detetadas"] else []) in
        match features with
        | [] => ["Geometria padrão"]
        | _ => features
        end).
  { unfold _identify_critical_features.
    match goal with |- context [mapM ?f ?l] => destruct (mapM f l) as [ratios|e] end;
      [|left; reflexivity].
    cbn [mbind exn_bind].
    destruct (np_max ratios) as [worst|e]; [|left; reflexivity].
    right. exists (np_gtb worst 5).
    cbn [mbind exn_bind mret exn_ret try_except].
    destruct (Qgtb _ _); destruct (negb (is_convex m)); destruct (np_gtb worst 5);
      reflexivity. }
  split; [|split; [|split; [|split]]].
  - destruct Hshape as [-> | [thin ->]]; [discriminate|].
    destruct (Qgtb _ _); destruct (negb (is_convex m)); destruct thin; discriminate.
  - destruct Hshape as [-> | [thin ->]].
    + intros [H|[]]. discriminate H.
    + destruct (Qgtb _ _); destruct (negb (is_convex m)); destruct thin;
        cbn; intros H; try reflexivity;
        repeat (destruct H as [H|H]; [discriminate H|]); destruct H.
  - destruct Hshape as [-> | [thin ->]]; [reflexivity|].
    destruct (Qgtb _ _); destruct (negb (is_convex m)); destruct thin;
      cbn; intros H;
      repeat (destruct H as [H|H]; [discriminate H|]); destruct H.
  - intros Hf. unfold _identify_critical_features. rewrite Hf. reflexivity.
  - intros Hrange Hne.
    assert (Hok : exists thin : bool,
      _identify_critical_features sqrtQ m
      = let features :=
          ((if Qgtb (inject_Z (Z.of_nat (length (edges_unique m))))
                    (inject_Z (Z.of_nat (length (faces m))) * 1.5)
            then ["Furos/Multicavidades"] else []) ++
           (if negb (is_convex m) then ["Geometria não-convexa"] else [])) ++
          (if thin then ["Paredes finas detetadas"] else []) in
        match features with
        | [] => ["Geometria padrão"]
        | _ => features
        end).
    { unfold _identify_critical_features.
      match goal with
      | |- context [mapM ?f ?l] =>
          destruct (mapM_succeeds f l) as [ratios Hratios]
      end.
      { apply Forall_take. unfold faces_in_range in Hrange.
        eapply Forall_impl; [exact Hrange|].
        intros face Hface. cbv beta.
        destruct (vertices_of_in_range m face Hface) as [[[v0 v1] v2] ->].
        cbn [mbind exn_bind]. destruct (edges_of sqrtQ (v0, v1, v2)) as [[e0 e1] e2].
        eexists. reflexivity. }
      pose proof (mapM_length _ _ _ Hratios) as Hlen.
      rewrite Hratios. cbn [mbind exn_bind].
      destruct ratios as [|x ratios].
      - exfalso. cbn [length] in Hlen. symmetry in Hlen.
        rewrite length_take in Hlen.
        destruct (faces m) as [|f fs]; [apply Hne; reflexivity|].
        cbn [length] in Hlen. lia.
      - cbn [np_max mbind exn_bind mret exn_ret try_except].
        match goal with |- context [np_gtb ?w 5] => exists (np_gtb w 5) end.
        destruct (Qgtb _ _); destruct (negb (is_convex m));
          match goal with |- context [np_gtb ?w 5] => destruct (np_gtb w 5) end;
          reflexivity. }
    destruct Hok as [thin ->].
    destruct (is_convex m); cbn [negb];
      destruct (Qgtb _ _); destruct thin; cbn;
      (split; [intros H; repeat (destruct H as [H|H]; [discriminate H|]); destruct H|]);
      (split; [intros H; try discriminate H; auto
              | intros H; try reflexivity;
                repeat (destruct H as [H|H]; [discriminate H|]); destruct H]).
Qed.

End CriticalFeatures.

Section ManufacturingAdvice.

Import GeometryAnalyzer.
Local Open Scope Q_scope.

Variable sqrtQ : Q -> Q.

(** What [analyze] stores for the sub-analyses. *)
Lemma analyze_sub_analyses (m : Trimesh) (r : GeometryStatistics) :
  analyze sqrtQ m = Ok r ->
  exists b,
    bounds m = Some b /\
    thickness_analysis r = _analyze_thickness m b /\
    manufacturing_analysis r = _analyze_manufacturing sqrtQ m (complexity_metrics r) /\
    face_types (mesh_info r) = _analyze_face_types m.
Proof.
  unfold analyze. intros H.
  destruct (bounds m) as [[lo hi]|]; [|discriminate H].
  exists (lo, hi).
  destruct (vsub hi lo) as [[sx sy] sz] eqn:Es.
  cbn [mret exn_ret] in H. injection H as <-.
  cbn [thickness_analysis manufacturing_analysis complexity_metrics mesh_info face_types].
  repeat split; reflexivity.
Qed.

Lemma get_difficulty_rating_inv (score : Q) :
  (_get_difficulty_rating score = "Baixa" -> score < 25) /\
  (_get_difficulty_rating score = "Muito Alta" -> 75 <= score).
Proof.
  unfold _get_difficulty_rating.
  destruct (Qltb score 25) eqn:E25; [apply Qltb_lt in E25|];
    (destruct (Qltb score 50) eqn:E50; [|
      destruct (Qltb score 75) eqn:E75; [|apply Qltb_ge in E75]]);
    split; intros H; try discriminate H; try assumption; lra.
Qed.

(** The two ways [_calculate_complexity] can come out. *)
Lemma calculate_complexity_cases (m : Trimesh) (volume area : Q) (d : Dimensions) :
  let c := _calculate_complexity sqrtQ m volume area d in
  (exists score,
     complexity_score c = round score 2 /\
     difficulty_rating c = _get_difficulty_rating score) \/
  (complexity_score c = 50 /\ difficulty_rating c = "Média").
Proof.
  cbv zeta. unfold _calculate_complexity.
  destruct (avg_aspect_ratio_of sqrtQ m) as [avg|e];
    cbn [mbind exn_bind mret exn_ret try_except complexity_score difficulty_rating].
  - left. eexists. split; reflexivity.
  - right. split; reflexivity.
Qed.

Lemma round_2_of_25 : round 25 2 == 25.
Proof. reflexivity. Qed.

Lemma round_2_of_75 : round 75 2 == 75.
Proof. reflexivity. Qed.

(** X18.  In every analysis the manufacturing advice agrees with the
    difficulty rating.  A part rated "Baixa" is advised the 718 steel,
    a finish other than EDM and 3-axis milling, without DMLS; the H13
    steel is only advised for a part rated "Muito Alta", together with
    the EDM finish, 5-axis milling and DMLS.  The machining hours are
    estimated from the raw volume of the mesh, watertight or not. *)
Theorem advice_agrees_with_rating
    (m : Trimesh) (r : GeometryStatistics) (a : ManufacturingAnalysis) :
  analyze sqrtQ m = Ok r ->
  manufacturing_analysis r = Computed a ->
  machining_difficulty a = difficulty_rating (complexity_metrics r) /\
  estimated_machining_hours a
  = round (volume m * 0.01 * (complexity_score (complexity_metrics r) / 50)) 1 /\
  (machining_difficulty a = "Baixa" ->
   material_recommendation a = "718 (Aço pré-endurecido - económico)" /\
   finish_recommendation a <> "EDM (Eletroerosão para geometrias complexas)" /\
   hd_error (process_recommendations a) = Some "CNC 3-eixos para cavidades principais" /\
   ~ In "DMLS para canais de refrigeração conformal" (process_recommendations a)) /\
  (material_recommendation a = "H13 (Aço para trabalho a quente - alta resistência)" ->
   machining_difficulty a = "Muito Alta" /\
   finish_recommendation a = "EDM (Eletroerosão para geometrias complexas)" /\
   hd_error (process_recommendations a) = Some "CNC 5-eixos para acesso completo" /\
   In "DMLS para canais de refrigeração conformal" (process_recommendations a)).
Proof.
  intros Hr Ha.
  destruct (analyze_sub_analyses m r Hr) as (b & _ & _ & Hma & _).
  destruct (analyze_inv sqrtQ m r Hr)
    as (? & ? & ? & ? & ? & _ & _ & _ & _ & _ & _ & Hcm & _).
  pose proof (calculate_complexity_cases m (stat_volume r) (stat_area r) (dimensions r))
    as Hcases.
  cbv zeta in Hcases. rewrite <- Hcm in Hcases. clear Hcm.
  set (c := complexity_metrics r) in *.
  rewrite Hma in Ha. unfold _analyze_manufacturing in Ha. injection Ha as <-.
  cbn [machining_difficulty estimated_machining_hours material_recommendation
       finish_recommendation process_recommendations].
  split; [reflexivity|]. split; [reflexivity|].
  unfold _recommend_material, _recommend_finish, _get_process_recommendations.
  split.
  - intros Hlow.
    assert (Hs : complexity_score c <= 25).
    { destruct Hcases as [(score & Es & Er) | (Es & Er)].
      - rewrite Er in Hlow. apply get_difficulty_rating_inv in Hlow.
        rewrite Es, <- round_2_of_25. apply round_mono. lra.
      - rewrite Er in Hlow. discriminate Hlow. }
    assert (E75 : Qgtb (complexity_score c) 75 = false) by (apply Qgtb_le; lra).
    assert (E50 : Qgtb (complexity_score c) 50 = false) by (apply Qgtb_le; lra).
    assert (E70 : Qgtb (complexity_score c) 70 = false) by (apply Qgtb_le; lra).
    assert (E60 : Qgtb (complexity_score c) 60 = false) by (apply Qgtb_le; lra).
    assert (E40 : Qltb (complexity_score c) 40 = true) by (apply Qltb_lt; lra).
    assert (G40 : Qgeb (complexity_score c) 40 = false).
    { unfold Qgeb. destruct (Qle_bool 40 (complexity_score c)) eqn:E; [|reflexivity].
      apply Qle_bool_iff in E. lra. }
    rewrite E75, E50, E70, E60, E40, G40.
    split; [reflexivity|]. split.
    + destruct (is_convex m); discriminate.
    + cbn [app].
      destruct (Qgtb (average_aspect_ratio c) 3); (split; [reflexivity|]); cbn;
        intros H; repeat (destruct H as [H|H]; [discriminate H|]); destruct H.
  - intros Hh13.
    assert (Hs : 75 < complexity_score c).
    { destruct (Qgtb (complexity_score c) 75) eqn:E; [apply Qgtb_gt, E|].
      destruct (Qgtb (complexity_score c) 50); discriminate Hh13. }
    assert (Hrating : difficulty_rating c = "Muito Alta").
    { destruct Hcases as [(score & Es & Er) | (Es & Er)].
      - rewrite Er. apply get_difficulty_rating_thresholds.
        destruct (Qlt_le_dec score 75) as [Hlt|Hge]; [|exact Hge].
        exfalso. assert (Hle : round score 2 <= round 75 2) by (apply round_mono; lra).
        rewrite <- Es, round_2_of_75 in Hle. lra.
      - rewrite Es in Hs. exfalso. lra. }
    assert (E70 : Qgtb (complexity_score c) 70 = true) by (apply Qgtb_gt; lra).
    assert (E60 : Qgtb (complexity_score c) 60 = true) by (apply Qgtb_gt; lra).
    assert (E40 : Qltb (complexity_score c) 40 = false) by (apply Qltb_ge; lra).
    assert (G40 : Qgeb (complexity_score c) 40 = true).
    { unfold Qgeb. apply Qle_bool_iff. lra. }
    rewrite E70, E60, E40, G40.
    split; [exact Hrating|]. split; [reflexivity|].
    cbn [app].
    destruct (Qgtb (average_aspect_ratio c) 3); (split; [reflexivity|]); cbn; auto.
Qed.

End ManufacturingAdvice.

Section DimensionsAndThickness.

Import GeometryAnalyzer.
Local Open Scope Q_scope.

Variable sqrtQ : Q -> Q.

Lemma min_list_3 (x y z : Q) :
  min_list x [y; z] <= x /\ min_list x [y; z] <= y /\ min_list x [y; z] <= z /\
  (0 <= x -> 0 <= y -> 0 <= z -> 0 <= min_list x [y; z]).
Proof.
  unfold min_list. cbn [fold_left]. unfold min2.
  destruct (Qltb y x) eqn:E1; [apply Qltb_lt in E1 | apply Qltb_ge in E1];
    match goal with
    | |- context [Qltb z ?w] =>
        destruct (Qltb z w) eqn:E2; [apply Qltb_lt in E2 | apply Qltb_ge in E2]
    end;
    repeat split; intros; lra.
Qed.

Lemma max_list_3 (x y z : Q) :
  x <= max_list x [y; z] /\ y <= max_list x [y; z] /\ z <= max_list x [y; z].
Proof.
  unfold max_list. cbn [fold_left]. unfold max2.
  destruct (Qltb x y) eqn:E1; [apply Qltb_lt in E1 | apply Qltb_ge in E1];
    match goal with
    | |- context [Qltb ?w z] =>
        destruct (Qltb w z) eqn:E2; [apply Qltb_lt in E2 | apply Qltb_ge in E2]
    end;
    repeat split; lra.
Qed.

(** X19.  For a mesh whose bounds are ordered, the analysis reports
    sizes that are not negative, with [min] and [max] bracketing width,
    height and depth, and a thickness estimate of a tenth of the
    smallest size and half of the largest, each rounded to 2 decimals,
    the lower estimate never above the upper one. *)
Theorem ordered_bounds_give_ordered_sizes
    (m : Trimesh) (r : GeometryStatistics) (lox loy loz hix hiy hiz : Q) :
  analyze sqrtQ m = Ok r ->
  bounds m = Some ((lox, loy, loz), (hix, hiy, hiz)) ->
  lox <= hix -> loy <= hiy -> loz <= hiz ->
  let d := dimensions r in
  0 <= dim_min d /\
  dim_min d <= width d <= dim_max d /\
  dim_min d <= height d <= dim_max d /\
  dim_min d <= depth d <= dim_max d /\
  exists t,
    thickness_analysis r = Computed t /\
    estimated_min_thickness t = round (dim_min d / 10) 2 /\
    estimated_max_thickness t = round (dim_max d / 2) 2 /\
    0 <= estimated_min_thickness t <= estimated_max_thickness t.
Proof.
  intros Hr Hb Hx Hy Hz.
  destruct (analyze_sub_analyses sqrtQ m r Hr) as (b & Hb' & Ht & _).
  destruct (analyze_inv sqrtQ m r Hr)
    as (lo & hi & sx & sy & sz & Hb'' & Hs & Hd & _).
  rewrite Hb in Hb', Hb''. injection Hb' as <-. injection Hb'' as <- <-.
  cbn [vsub] in Hs. injection Hs as <- <- <-.
  cbv zeta. rewrite Hd. cbn [dim_min dim_max width height depth].
  set (sx := hix - lox) in *. set (sy := hiy - loy) in *. set (sz := hiz - loz) in *.
  assert (Hsx : 0 <= sx) by (subst sx; lra).
  assert (Hsy : 0 <= sy) by (subst sy; lra).
  assert (Hsz : 0 <= sz) by (subst sz; lra).
  destruct (min_list_3 sx sy sz) as (Hm1 & Hm2 & Hm3 & Hm0).
  destruct (max_list_3 sx sy sz) as (HM1 & HM2 & HM3).
  specialize (Hm0 Hsx Hsy Hsz).
  split; [exact Hm0|]. split; [split; assumption|].
  split; [split; assumption|]. split; [split; assumption|].
  rewrite Ht. unfold _analyze_thickness. cbn [fst snd vsub].
  fold sx sy sz. eexists. split; [reflexivity|].
  cbn [estimated_min_thickness estimated_max_thickness].
  split; [reflexivity|]. split; [reflexivity|].
  assert (E10 : forall x, x / 10 == x * (1 # 10)) by (intros x; field).
  assert (E2 : forall x, x / 2 == x * (1 # 2)) by (intros x; field).
  split.
  - apply round_nonneg. rewrite E10. lra.
  - apply round_mono. rewrite E10, E2. lra.
Qed.

End DimensionsAndThickness.

(** ** From a mesh to the simple budget *)

Section MeshToSimpleBudget.

Import GeometryAnalyzer.
Local Open Scope Q_scope.

(** X20.  The simple path prices a mesh through its volume and its area
    alone: when the statistics of two meshes of the same volume and area
    are computed, they hold the same volume and area, and the pricing
    has the same outcome on both for every material, finish and
    quantity, whatever the shape, the size, the face count or the
    watertightness of the meshes. *)
Theorem simple_budget_of_mesh_volume_and_area
    (m1 m2 : Trimesh) (s1 s2 : Main.GeometryStats)
    (material finish : string) (quantity : Z) :
  MainStatistics.calculate_geometry_stats m1 = Ok s1 ->
  MainStatistics.calculate_geometry_stats m2 = Ok s2 ->
  volume m1 = volume m2 ->
  area m1 = area m2 ->
  Main.volume_cm3 s1 = Main.volume_cm3 s2 /\
  Main.area_cm2 s1 = Main.area_cm2 s2 /\
  Main.calculate_budget_from_stats s1 material finish quantity
  = Main.calculate_budget_from_stats s2 material finish quantity.
Proof.
  intros H1 H2 Hv Ha.
  unfold MainStatistics.calculate_geometry_stats in H1, H2.
  destruct (bounds m1) as [[[[? ?] ?] [[? ?] ?]]|]; [|discriminate H1].
  destruct (bounds m2) as [[[[? ?] ?] [[? ?] ?]]|]; [|discriminate H2].
  cbn [mret exn_ret] in H1, H2. injection H1 as <-. injection H2 as <-.
  unfold Main.calculate_budget_from_stats.
  rewrite materials_P20, finishes_machined.
  cbn [mbind exn_bind mret exn_ret Main.volume_cm3 Main.area_cm2].
  rewrite Hv, Ha. repeat split; reflexivity.
Qed.

End MeshToSimpleBudget.

(** ** The curvature estimate *)

Section CurvatureEstimate.

Import GeometryAnalyzer.
Local Open Scope Q_scope.

Variable sqrtQ : Q -> Q.














End CurvatureEstimate.

(** ** The further properties on concrete meshes *)

Section FurtherExamples.

Import GeometryAnalyzer Examples.
Local Open Scope Q_scope.


Lemma simple_statistics_against_analyzer_witness :
  exists s r,
    MainStatistics.calculate_geometry_stats (cube 10) = Ok s /\
    analyze sqrt12 (cube 10) = Ok r /\
    is_watertight (cube 10) = true /\
    Main.volume_cm3 s == volume (cube 10) / 1000 /\
    stat_volume r == 1000 * Main.volume_cm3 s.
Proof.
  assert (Hs : exists s, MainStatistics.calculate_geometry_stats (cube 10) = Ok s)
    by (eexists; reflexivity).
  destruct Hs as [s Hs].
  destruct (cube_analysis 10) as (r & Hr & _).
  exists s, r. split; [exact Hs|]. split; [exact Hr|]. split; [reflexivity|].
  destruct (simple_statistics_against_analyzer sqrt12 (cube 10)) as (_ & _ & Hall).
  destruct (Hall s r Hs Hr) as (Hv & _ & _ & _ & Hw & _).
  split; [exact Hv | apply Hw; reflexivity].
Defined.

Lemma critical_features_labels_witness :
  faces_in_range (cube 10) /\
  faces (cube 10) <> [] /\
  ~ In "Análise não disponível" (_identify_critical_features sqrt12 (cube 10)) /\
  faces empty_mesh = [] /\
  _identify_critical_features sqrt12 empty_mesh = ["Análise não disponível"].
Proof.
  assert (Hne : faces (cube 10) <> []) by discriminate.
  split; [apply cube_faces_in_range|]. split; [exact Hne|]. split.
  - destruct (critical_features_labels sqrt12 (cube 10)) as (_ & _ & _ & _ & H).
    exact (proj1 (H (cube_faces_in_range 10) Hne)).
  - split; [reflexivity|].
    destruct (critical_features_labels sqrt12 empty_mesh) as (_ & _ & _ & H & _).
    exact (H eq_refl).
Defined.

Lemma advice_agrees_with_rating_witness :
  exists r a,
    analyze sqrt12 (cube 10) = Ok r /\
    manufacturing_analysis r = Computed a /\
    machining_difficulty a = "Baixa" /\
    material_recommendation a = "718 (Aço pré-endurecido - económico)" /\
    hd_error (process_recommendations a) = Some "CNC 3-eixos para cavidades principais".
Proof.
  destruct (cube_analysis 10) as (r & Hr & Ev & Ea & Ed & Ecm).
  destruct (analyze_inv sqrt12 (cube 10) r Hr)
    as (? & ? & ? & ? & ? & _ & _ & _ & _ & _ & _ & _ & _ & _ & _ & _ & [a Ha]).
  exists r, a. split; [exact Hr|]. split; [exact Ha|].
  destruct (advice_agrees_with_rating sqrt12 (cube 10) r a Hr Ha) as (Hd & _ & Hlow & _).
  assert (Hrating : machining_difficulty a = "Baixa").
  { rewrite Hd, Ecm, Ed, Ev, Ea. vm_compute. reflexivity. }
  split; [exact Hrating|].
  destruct (Hlow Hrating) as (Hmat & _ & Hproc & _).
  split; [exact Hmat | exact Hproc].
Defined.

Lemma ordered_bounds_give_ordered_sizes_witness :
  exists r t,
    analyze sqrt12 (cube 10) = Ok r /\
    bounds (cube 10) = Some ((0, 0, 0), (10, 10, 10)) /\
    0 <= 10 /\
    thickness_analysis r = Computed t /\
    0 <= estimated_min_thickness t <= estimated_max_thickness t.
Proof.
  destruct (cube_analysis 10) as (r & Hr & _).
  assert (H0 : 0 <= 10) by lra.
  destruct (ordered_bounds_give_ordered_sizes sqrt12 (cube 10) r 0 0 0 10 10 10
              Hr eq_refl H0 H0 H0) as (_ & _ & _ & _ & t & Ht & _ & _ & Hord).
  exists r, t. split; [exact Hr|]. split; [reflexivity|]. split; [exact H0|].
  split; [exact Ht | exact Hord].
Defined.

Lemma simple_budget_of_mesh_volume_and_area_witness :
  exists s1 s2,
    MainStatistics.calculate_geometry_stats open_square = Ok s1 /\
    MainStatistics.calculate_geometry_stats open_strip = Ok s2 /\
    volume open_square = volume open_strip /\
    area open_square = area open_strip /\
    bounds open_square <> bounds open_strip /\
    Main.calculate_budget_from_stats s1 "H13" "polished" 25
    = Main.calculate_budget_from_stats s2 "H13" "polished" 25.
Proof.
  assert (H1 : exists s, MainStatistics.calculate_geometry_stats open_square = Ok s)
    by (eexists; reflexivity).
  assert (H2 : exists s, MainStatistics.calculate_geometry_stats open_strip = Ok s)
    by (eexists; reflexivity).
  destruct H1 as [s1 H1]. destruct H2 as [s2 H2].
  exists s1, s2. split; [exact H1|]. split; [exact H2|].
  split; [reflexivity|]. split; [reflexivity|]. split; [discriminate|].
  destruct (simple_budget_of_mesh_volume_and_area open_square open_strip s1 s2
              "H13" "polished" 25 H1 H2 eq_refl eq_refl) as (_ & _ & H).
  exact H.
Defined.


End FurtherExamples.

(** ** The detailed calculator: the price against the complexity *)

Section PriceAgainstComplexity.

Import BudgetCalculator.
Local Open Scope Q_scope.

Ltac catalog_entries_in H :=
  repeat match type of H with
  | context [getitem ?table ?key] =>
      let entry := eval vm_compute in (getitem table key) in
      change (getitem table key) with entry in H
  end.





End PriceAgainstComplexity.

(** ** The topology reported by the analyzer *)

Section Topology.

Import GeometryAnalyzer.
Local Open Scope Q_scope.

Variable sqrtQ : Q -> Q.

Lemma analyze_mesh_info (m : Trimesh) (r : GeometryStatistics) :
  analyze sqrtQ m = Ok r ->
  genus (mesh_info r)
  = (if is_watertight m then Some (int ((2 - inject_Z (euler_number m)) / 2)) else None) /\
  info_euler_number (mesh_info r) = euler_number m /\
  info_is_watertight (mesh_info r) = is_watertight m.
Proof.
  unfold analyze. intros H.
  destruct (bounds m) as [[lo hi]|]; [|discriminate H].
  destruct (vsub hi lo) as [[sx sy] sz].
  cbn [mret exn_ret] in H. injection H as <-.
  cbn [mesh_info genus info_euler_number info_is_watertight].
  repeat split; reflexivity.
Qed.

Lemma int_half (z : Z) : int ((2 - inject_Z z) / 2) = ((2 - z) ÷ 2)%Z.
Proof.
  unfold int, Qdiv, Qmult, Qinv, Qminus, Qplus, Qopp, inject_Z. cbn [Qnum Qden].
  f_equal; lia.
Qed.

(** X24.  The genus is reported for watertight meshes only.  For a
    watertight mesh whose Euler number is [2 - 2g] the reported genus is
    [g]; in general it is half of [2 - euler_number], truncated toward
    zero, so that it is negative for an Euler number above 3. *)
Theorem genus_from_euler_number (m : Trimesh) (r : GeometryStatistics) :
  analyze sqrtQ m = Ok r ->
  (is_watertight m = false -> genus (mesh_info r) = None) /\
  (is_watertight m = true ->
   genus (mesh_info r) = Some ((2 - euler_number m) ÷ 2)%Z /\
   (forall g, euler_number m = (2 - 2 * g)%Z -> genus (mesh_info r) = Some g) /\
   ((3 < euler_number m)%Z -> exists g, genus (mesh_info r) = Some g /\ (g < 0)%Z)).
Proof.
  intros Hr. destruct (analyze_mesh_info m r Hr) as (Hg & _).
  rewrite Hg. split; intros ->; [reflexivity|].
  rewrite int_half. split; [reflexivity|]. split.
  - intros g ->. f_equal.
    replace (2 - (2 - 2 * g))%Z with (g * 2)%Z by lia.
    apply Z.quot_mul. lia.
  - intros Hchi. eexists. split; [reflexivity|].
    Z.to_euclidean_division_equations. lia.
Qed.

End Topology.

Section TopologyExamples.

Import GeometryAnalyzer Examples.

Lemma genus_from_euler_number_witness :
  exists r,
    analyze sqrt12 (cube 10) = Ok r /\
    is_watertight (cube 10) = true /\
    euler_number (cube 10) = (2 - 2 * 0)%Z /\
    genus (mesh_info r) = Some 0%Z.
Proof.
  destruct (cube_analysis 10) as (r & Hr & _).
  exists r. split; [exact Hr|]. split; [reflexivity|]. split; [reflexivity|].
  destruct (genus_from_euler_number sqrt12 (cube 10) r Hr) as (_ & Hw).
  destruct (Hw eq_refl) as (_ & Hg & _).
  exact (Hg 0%Z eq_refl).
Defined.

End TopologyExamples.
